(** * BHD.py: the PREVENT-AD download script, embedded and verified

    The script talks to a LORIS server over HTTP and rebuilds a directory
    tree on disk.  It is embedded here as a state-and-exception monad over
    a [world] that holds the file system, the outcomes the network is going
    to produce, the requests sent so far, the standard output and the
    global [token].

    Conventions of the embedding:
    - a Python [dict] is an association list in insertion order
      ([dict_get], [dict_set]); JSON documents are values of [json];
    - every HTTP attempt consumes the next [outcome] of [net]; a loop that
      outlives the known outcomes ends in [Starved];
    - paths are the strings the script builds; [open] is taken to succeed
      (parents exist, permissions suffice);
    - [json.loads], [repr] on [str] and [int] on [str] are builtins of the
      interpreter and are parameters of the development. *)

From Stdlib Require Import ZArith Lia Ascii String DecimalString.
From stdpp Require Import gmap strings list pretty.

(** ** Strings *)

Definition nl : string := String (ascii_of_nat 10) "".

(** [os.path.basename]: what follows the last slash. *)
Fixpoint basename_from (acc p : string) : string :=
  match p with
  | EmptyString => acc
  | String c p' =>
      if Ascii.eqb c "/"%char then basename_from "" p'
      else basename_from (acc +:+ String c "") p'
  end.

Definition basename (p : string) : string := basename_from "" p.

Definition ascii_lower (c : ascii) : ascii :=
  let n := nat_of_ascii c in
  if (65 <=? n)%nat && (n <=? 90)%nat then ascii_of_nat (n + 32) else c.

Fixpoint lower (s : string) : string :=
  match s with
  | EmptyString => EmptyString
  | String c s' => String (ascii_lower c) (lower s')
  end.

(** [sep.join(parts)] *)
Fixpoint join (sep : string) (parts : list string) : string :=
  match parts with
  | [] => ""
  | [p] => p
  | p :: ps => p +:+ sep +:+ join sep ps
  end.

(** ** Python dictionaries with string keys, in insertion order *)

Section Dict.
Context {V : Type}.

Fixpoint dict_get (d : list (string * V)) (k : string) : option V :=
  match d with
  | [] => None
  | (k', v) :: d' => if decide (k' = k) then Some v else dict_get d' k
  end.

(** [d[k] = v]: overwrite in place, or append a new key. *)
Fixpoint dict_set (d : list (string * V)) (k : string) (v : V)
  : list (string * V) :=
  match d with
  | [] => [(k, v)]
  | (k', v') :: d' =>
      if decide (k' = k) then (k, v) :: d' else (k', v') :: dict_set d' k v
  end.

Definition dict_mem (d : list (string * V)) (k : string) : bool :=
  bool_decide (is_Some (dict_get d k)).

Definition dict_keys (d : list (string * V)) : list string := d.*1.
Definition dict_values (d : list (string * V)) : list V := d.*2.
End Dict.

(** ** JSON documents *)

#[warnings="-register-all"] Inductive json : Type :=
| JNull
| JBool (b : bool)
| JNum (n : Z)
| JStr (s : string)
| JArr (items : list json)
| JObj (fields : list (string * json)).

(** ** Exceptions, HTTP, the world *)

Inductive exn : Type :=
| KeyError (key : string)
| TypeError
| ValueError
| UnicodeDecodeError
| FileNotFoundError (path : string)
| ArgumentTypeError (msg : string)
| RequestException (msg : string).

Record response : Type := Response {
  status_code : Z;
  headers : list (string * string);
  content : string
}.

(** What one HTTP attempt produces.  The two retried exception classes
    carry the text of the exception and the clock reading the handler
    prints in verbose mode. *)
Inductive outcome : Type :=
| ConnectTimeout (now err : string)
| ConnectionError (now err : string)
| OtherError (err : string)
| Responds (r : response).

Inductive request : Type :=
| Get (url : string) (hdrs : list (string * string))
| Post (url : string) (body : list (string * string)).

Record world : Type := World {
  files : gmap string string;
  dirs : gset string;
  net : list outcome;
  sent : list request;
  stdout : list string;
  token : json
}.

Inductive result (A : Type) : Type :=
| Ret (a : A) (w : world)
| Raise (e : exn) (w : world)
| Exit (code : Z) (w : world)
| Starved.

Arguments Ret {A} a w.
Arguments Raise {A} e w.
Arguments Exit {A} code w.
Arguments Starved {A}.

Definition M (A : Type) : Type := world -> result A.

Definition ret {A} (a : A) : M A := fun w => Ret a w.

Definition bind {A B} (m : M A) (k : A -> M B) : M B :=
  fun w =>
    match m w with
    | Ret a w' => k a w'
    | Raise e w' => Raise e w'
    | Exit c w' => Exit c w'
    | Starved => Starved
    end.

Notation "x <- m ;; k" := (bind m (fun x => k))
  (at level 100, m at next level, right associativity).
Notation "m ;;; k" := (bind m (fun _ => k))
  (at level 100, right associativity).

Definition raise {A} (e : exn) : M A := fun w => Raise e w.
Definition exit {A} (code : Z) : M A := fun w => Exit code w.
Definition starve {A} : M A := fun _ => Starved.

Definition lift_opt {A} (e : exn) (o : option A) : M A :=
  match o with Some a => ret a | None => raise e end.

Definition when (b : bool) (m : M unit) : M unit := if b then m else ret tt.

(** [for x in xs: body x] *)
Fixpoint for_each {A} (xs : list A) (body : A -> M unit) : M unit :=
  match xs with
  | [] => ret tt
  | x :: xs' => body x ;;; for_each xs' body
  end.

(** A loop that threads an accumulator. *)
Fixpoint fold_each {A S} (xs : list A) (body : S -> A -> M S) (s : S) : M S :=
  match xs with
  | [] => ret s
  | x :: xs' => s' <- body s x ;; fold_each xs' body s'
  end.

(** *** Primitives *)

Definition print (line : string) : M unit :=
  fun w => Ret tt (World (files w) (dirs w) (net w) (sent w)
                         (stdout w ++ [line]) (token w)).

Definition get_token : M json := fun w => Ret (token w) w.

Definition set_token (t : json) : M unit :=
  fun w => Ret tt (World (files w) (dirs w) (net w) (sent w) (stdout w) t).

(** One attempt on the wire: the request is recorded, the next outcome is
    consumed. *)
Definition http_send (rq : request) : M outcome :=
  fun w =>
    match net w with
    | [] => Starved
    | o :: script =>
        Ret o (World (files w) (dirs w) script (sent w ++ [rq])
                     (stdout w) (token w))
    end.

Definition isfile (p : string) : M bool :=
  fun w => Ret (bool_decide (is_Some (files w !! p))) w.

Definition path_exists (p : string) : M bool :=
  fun w => Ret (bool_decide (is_Some (files w !! p)) || bool_decide (p ∈ dirs w)) w.

Definition makedirs (p : string) : M unit :=
  fun w => Ret tt (World (files w) ({[p]} ∪ dirs w) (net w) (sent w)
                         (stdout w) (token w)).

(** [open(p, "r").read()] *)
Definition read_file (p : string) : M string :=
  fun w =>
    match files w !! p with
    | Some data => Ret data w
    | None => Raise (FileNotFoundError p) w
    end.

Definition put_file (p data : string) : M unit :=
  fun w => Ret tt (World (<[p := data]> (files w)) (dirs w) (net w) (sent w)
                         (stdout w) (token w)).

(** [with open(p, "w") as f: f.write(<data>)]: the file is created or
    truncated by [open] before the argument [data] is evaluated, so a
    failure while computing [data] leaves an empty file behind. *)
Definition with_open_w (p : string) (data : M string) : M unit :=
  put_file p "" ;;; s <- data ;; put_file p s.

Definition os_remove (p : string) : M unit :=
  fun w =>
    match files w !! p with
    | Some _ => Ret tt (World (delete p (files w)) (dirs w) (net w) (sent w)
                              (stdout w) (token w))
    | None => Raise (FileNotFoundError p) w
    end.

(** *** Sessions *)

Record session : Type := Session { session_headers : list (string * string) }.

(** Headers of the session updated with those of the call. *)
Definition merge_headers (sess call : list (string * string))
  : list (string * string) :=
  foldl (fun d kv => dict_set d kv.1 kv.2) sess call.

Definition session_get (s : session) (url : string)
    (hdrs : list (string * string)) : M outcome :=
  http_send (Get url (merge_headers (session_headers s) hdrs)).

(** [[f(x) for x in xs]] *)
Fixpoint map_each {A B} (f : A -> M B) (xs : list A) : M (list B) :=
  match xs with
  | [] => ret []
  | x :: xs' => y <- f x ;; ys <- map_each f xs' ;; ret (y :: ys)
  end.

(** [[x for x in xs if p(x)]] *)
Fixpoint filter_each {A} (p : A -> M bool) (xs : list A) : M (list A) :=
  match xs with
  | [] => ret []
  | x :: xs' =>
      keep <- p x ;; kept <- filter_each p xs' ;;
      ret (if keep : bool then x :: kept else kept)
  end.

(** *** The candidate trees *)

(** Flat (MINC) layout: [candidate['Visits'][visit]] starts as an empty
    dict and receives the keys ['json'] and ['Filenames']. *)
Record minc_visit : Type := MincVisit {
  visit_json : option json;
  Filenames : option (list json)
}.

(** The candidate document of the API together with the ['Visits'] key
    the script assigns to it. *)
Record minc_candidate : Type := MincCandidate {
  properties : json;
  minc_Visits : list (string * minc_visit)
}.

(** BIDS layout. *)
Record bids_visit : Type := BidsVisit {
  Files : list json;
  Folders : list (string * list json)
}.

Record bids_candidate : Type := BidsCandidate {
  CandID : string;
  Visits : list (string * bids_visit)
}.

(** The outcomes after which [process_api_get] sends the request again. *)
Definition retried (expected_codes : list Z) (o : outcome) : Prop :=
  match o with
  | ConnectTimeout _ _ | ConnectionError _ _ => True
  | Responds r => status_code r ∉ expected_codes
  | OtherError _ => False
  end.

#[global] Instance retried_dec expected_codes o :
  Decision (retried expected_codes o).
Proof. destruct o; simpl; apply _. Defined.

(** Global constants of the script. *)
Definition hostname : string := "https://registeredpreventad.loris.ca".
Definition api_version : string := "/api/v0.0.3-dev".

(** ** Sample builtins and data for the examples *)

(** [repr] on a string without quote, backslash or control character. *)
Definition sample_repr (s : string) : string := "'" +:+ s +:+ "'".

(** [int] on a plain decimal numeral. *)
Definition sample_int (s : string) : option Z :=
  if bool_decide (s = "" \/ s = "-") then None
  else Z.of_int <$> NilZero.int_of_string s.

Definition quoted (s : string) : string :=
  String (ascii_of_nat 34) (s +:+ String (ascii_of_nat 34) "").

(** The documents the sample server sends, as text and as decoded. *)
Definition login_text : string :=
  "{" +:+ quoted "token" +:+ ": " +:+ quoted "abc" +:+ "}".
Definition login_doc : json := JObj [("token", JStr "abc")].

Definition sample_fields : list (string * json) :=
  [("CandID", JStr "1200000"); ("PSCID", JStr "MTL0001");
   ("Site", JStr "MTL"); ("DoB", JStr "1950-01-01");
   ("Gender", JStr "Female"); ("Language", JStr "French");
   ("Project", JStr "PREVENT-AD"); ("EDC", JNull)].

Definition sample_candidate : json := JObj sample_fields.

Definition candidates_text : string :=
  "{" +:+ quoted "Candidates" +:+ ": [{" +:+ quoted "CandID" +:+ ": "
  +:+ quoted "1200000" +:+ "}]}".
Definition candidates_doc : json :=
  JObj [("Candidates", JArr [JObj [("CandID", JStr "1200000")]])].

Definition visits_text : string :=
  "{" +:+ quoted "Visits" +:+ ": [" +:+ quoted "V2" +:+ "]}".
Definition visits_doc : json := JObj [("Visits", JArr [JStr "V2"])].

Definition session_text : string :=
  "{" +:+ quoted "Meta" +:+ ": {" +:+ quoted "Visit" +:+ ": "
  +:+ quoted "V2" +:+ "}}".
Definition session_doc : json := JObj [("Meta", JObj [("Visit", JStr "V2")])].

Definition no_images_text : string := "{" +:+ quoted "Files" +:+ ": []}".
Definition no_images_doc : json := JObj [("Files", JArr [])].

Definition two_visits_text : string :=
  "{" +:+ quoted "Visits" +:+ ": [" +:+ quoted "V1" +:+ ", " +:+ quoted "V2"
  +:+ "]}".
Definition two_visits_doc : json :=
  JObj [("Visits", JArr [JStr "V1"; JStr "V2"])].

Definition one_image_text : string :=
  "{" +:+ quoted "Files" +:+ ": [{" +:+ quoted "Filename" +:+ ": "
  +:+ quoted "img001" +:+ "}]}".
Definition one_image_doc : json :=
  JObj [("Files", JArr [JObj [("Filename", JStr "img001")]])].

Definition sample_loads (text : string) : option json :=
  if bool_decide (text = login_text) then Some login_doc
  else if bool_decide (text = candidates_text) then Some candidates_doc
  else if bool_decide (text = visits_text) then Some visits_doc
  else if bool_decide (text = two_visits_text) then Some two_visits_doc
  else if bool_decide (text = session_text) then Some session_doc
  else if bool_decide (text = no_images_text) then Some no_images_doc
  else if bool_decide (text = one_image_text) then Some one_image_doc
  else None.

Definition sample_session : session :=
  Session [("Authorization", "Bearer abc")].

Definition sample_world (fs : gmap string string) (script : list outcome)
  : world :=
  World fs ∅ script [] [] (JStr "abc").

Definition answer (status : Z) (hdrs : list (string * string)) (body : string)
  : outcome :=
  Responds (Response status hdrs body).

(** A BIDS manifest with one session record and two image records of the
    same candidate, visit and category. *)
Definition sample_sessions : list json :=
  [JObj [("Candidate", JStr "1200000"); ("Visit", JStr "V1");
         ("TsvLink", JStr "/bids/sub-1200000/ses-V1/scans.tsv");
         ("JsonLink", JStr "/bids/sub-1200000/ses-V1/scans.json")]].

Definition sample_images : list json :=
  [JObj [("Candidate", JStr "1200000"); ("PSCID", JStr "MTL0001");
         ("Visit", JStr "V1"); ("LorisScanType", JStr "t1w");
         ("Subfolder", JStr "anat");
         ("NiftiLink", JStr "/bids/t1w.nii.gz");
         ("JsonLink", JStr "/bids/t1w.json")];
   JObj [("Candidate", JStr "1200000"); ("PSCID", JStr "MTL0001");
         ("Visit", JStr "V1"); ("LorisScanType", JStr "flair");
         ("Subfolder", JStr "anat");
         ("NiftiLink", JStr "/bids/flair.nii.gz")]].

Definition sample_manifest : list (string * json) :=
  [("SessionFiles", JArr sample_sessions); ("Images", JArr sample_images)].

(** Two session records of one and the same candidate and visit. *)
Definition twice_manifest : json :=
  JObj [("SessionFiles",
         JArr [JObj [("Candidate", JStr "1200000"); ("Visit", JStr "V1");
                     ("TsvLink", JStr "/bids/first.tsv");
                     ("JsonLink", JStr "/bids/first.json")];
               JObj [("Candidate", JStr "1200000"); ("Visit", JStr "V1");
                     ("TsvLink", JStr "/bids/second.tsv");
                     ("JsonLink", JStr "/bids/second.json")]]);
        ("Images", JArr [])].

(** A body and its sidecar left by an earlier run. *)
Definition cached_files : gmap string string :=
  <["/out/.img001.etag" := "tag1"]> {["/out/img001" := "old bytes"]}.

(** The outcomes of the login request after which [initialize_jwt] gives
    up: a connection error, a connect timeout, a status other than 200. *)
Definition login_refused (o : outcome) : Prop :=
  match o with
  | ConnectTimeout _ _ | ConnectionError _ _ => True
  | Responds r => status_code r <> 200%Z
  | OtherError _ => False
  end.

#[global] Instance login_refused_dec o : Decision (login_refused o).
Proof. destruct o; simpl; apply _. Defined.



(** A candidate document that stops after PSCID. *)
Definition short_fields : list (string * json) :=
  [("CandID", JStr "1200000"); ("PSCID", JStr "MTL0001")].

(** A BIDS candidate with one session file and one image, another one
    without visits, and the tree an earlier run left for the first. *)
Definition sample_bids_candidate : bids_candidate :=
  BidsCandidate "1200000"
    [("V1", BidsVisit [JStr "/bids/sub-1200000/ses-V1/scans.tsv"]
                      [("anat", [JStr "/bids/t1w.nii.gz"])])].

Definition other_bids_candidate : bids_candidate :=
  BidsCandidate "1300000" [].

Definition current_tree : gmap string string :=
  <["/out/sub-1200000/ses-V1/scans.tsv" := "tsv"]>
  (<["/out/sub-1200000/ses-V1/.scans.tsv.etag" := "tag1"]>
   (<["/out/sub-1200000/ses-V1/anat/t1w.nii.gz" := "nifti"]>
    {["/out/sub-1200000/ses-V1/anat/.t1w.nii.gz.etag" := "tag2"]})).

Section Script.

(** Globals assigned once from the command line. *)
Variable base_directory : string.
Variable imaging_format : string.
Variable verbosity : bool.
Variable specified_candidates : list Z.

(** Builtins: [json.loads], [repr] of a [str], [int] of a [str]. *)
Variable json_loads : string -> option json.
Variable repr_str : string -> string.
Variable py_int : string -> option Z.

(** ** process_api_get *)

Fixpoint process_api_get_loop (fuel : nat) (url : string)
    (hdrs : list (string * string)) (api_request : string)
    (expected_codes : list Z) (session_object : session) : M response :=
  match fuel with
  | O => starve
  | S fuel' =>
      o <- session_get session_object url hdrs ;;
      match o with
      | ConnectTimeout now err =>
          (if verbosity then
             print ("The request " +:+ api_request +:+ " done at " +:+ now
                    +:+ " raised a timeout error." +:+ nl
                    +:+ "The error message follows. Retrying.") ;;;
             print err
           else
             print ("Connection timeout for the download of "
                    +:+ basename api_request +:+ ". Retrying.")) ;;;
          process_api_get_loop fuel' url hdrs api_request expected_codes
                               session_object
      | ConnectionError now err =>
          (if verbosity then
             print ("The request " +:+ api_request +:+ " done at " +:+ now
                    +:+ " raised a connection error." +:+ nl
                    +:+ "The error message follows. Retrying.") ;;;
             print err
           else
             print ("Connection error for the download of "
                    +:+ basename api_request +:+ ". Retrying.")) ;;;
          process_api_get_loop fuel' url hdrs api_request expected_codes
                               session_object
      | OtherError err => raise (RequestException err)
      | Responds server_response =>
          if bool_decide (status_code server_response ∈ expected_codes)
          then ret server_response
          else process_api_get_loop fuel' url hdrs api_request
                                    expected_codes session_object
      end
  end.

(** [while True]: every turn of the loop consumes one outcome, so one
    more turn than there are outcomes is as good as no bound. *)
Definition process_api_get (url : string) (hdrs : list (string * string))
    (api_request : string) (expected_codes : list Z)
    (session_object : session) : M response :=
  fun w =>
    process_api_get_loop (S (length (net w))) url hdrs api_request
                         expected_codes session_object w.


(** ** JSON values as Python objects *)

(** [j[key]] with a string key. *)
Definition getitem (j : json) (key : string) : M json :=
  match j with
  | JObj fields => lift_opt (KeyError key) (dict_get fields key)
  | _ => raise TypeError
  end.

(** [for x in j]: a list yields its items, a dict its keys, a string
    its characters; the other values are not iterable. *)
Definition py_iter (j : json) : M (list json) :=
  match j with
  | JArr items => ret items
  | JObj fields => ret (JStr <$> dict_keys fields)
  | JStr s => ret ((fun c => JStr (String c "")) <$> list_ascii_of_string s)
  | _ => raise TypeError
  end.

(** Identifiers of the API (candidate, visit, category, file name, link)
    are JSON strings; the embedding raises [TypeError] on any other
    value where the script would use it as a key or concatenate it. *)
Definition as_str (j : json) : M string :=
  match j with
  | JStr s => ret s
  | _ => raise TypeError
  end.

Fixpoint py_repr (j : json) : string :=
  match j with
  | JNull => "None"
  | JBool b => if b then "True" else "False"
  | JNum n => pretty n
  | JStr s => repr_str s
  | JArr items => "[" +:+ join ", " (List.map py_repr items) +:+ "]"
  | JObj fields =>
      "{" +:+ join ", " (List.map (fun kv => match kv with
                                             | (k, v) => repr_str k +:+ ": " +:+ py_repr v
                                             end) fields) +:+ "}"
  end.

(** [str(j)], also what [%s] prints. *)
Definition py_str (j : json) : string :=
  match j with
  | JStr s => s
  | _ => py_repr j
  end.

(** [int(j)] *)
Definition int_of (j : json) : M Z :=
  match j with
  | JStr s => lift_opt ValueError (py_int s)
  | JNum n => ret n
  | JBool b => ret (if b then 1 else 0)%Z
  | _ => raise TypeError
  end.

(** [content.decode('ascii')] *)
Definition decode_ascii (s : string) : M string :=
  if forallb (fun c => (nat_of_ascii c <? 128)%nat) (list_ascii_of_string s)
  then ret s else raise UnicodeDecodeError.

(** [requests.Response.__bool__] is [ok]: no 4xx or 5xx status. *)
Definition response_ok (r : response) : bool :=
  negb ((400 <=? status_code r)%Z && (status_code r <? 600)%Z).

(** [response.headers[name]]: the keys are compared without case. *)
Definition header_get (hs : list (string * string)) (name : string)
  : option string :=
  snd <$> List.find (fun kv => bool_decide (lower kv.1 = lower name)) hs.

Definition new_session : M session :=
  t <- get_token ;;
  ret (Session [("Authorization", "Bearer " +:+ py_str t)]).

(** ** get_json *)

Definition get_json (api_request : string) (session_object : session)
  : M json :=
  server_response <- process_api_get (hostname +:+ api_version +:+ api_request)
                       [] api_request [200%Z] session_object ;;
  when verbosity (print ("Success: " +:+ api_request)) ;;;
  text <- decode_ascii (content server_response) ;;
  lift_opt ValueError (json_loads text).

(** ** get_file *)

Definition etag_path (download_location filename : string) : string :=
  download_location +:+ "." +:+ filename +:+ ".etag".

Definition get_file (api_request download_location filename : string)
    (etag_checking : bool) (session_object : session) : M string :=
  cached <- (if etag_checking
             then isfile (etag_path download_location filename)
             else ret false) ;;
  early <- (if cached then
              etag <- read_file (etag_path download_location filename) ;;
              server_response <-
                process_api_get (hostname +:+ api_version +:+ api_request)
                  [("If-None-Match", etag)] api_request [200%Z; 304%Z]
                  session_object ;;
              if (status_code server_response =? 304)%Z then
                when verbosity
                  (print ("File: " +:+ filename +:+ " was already downloaded")) ;;;
                ret (inl "Current")
              else
                os_remove (etag_path download_location filename) ;;;
                ret (inr (Some server_response))
            else ret (inr None)) ;;
  match early with
  | inl status => ret status
  | inr held =>
      server_response <-
        match held with
        | Some r =>
            if response_ok r then ret r
            else process_api_get (hostname +:+ api_version +:+ api_request)
                   [] api_request [200%Z] session_object
        | None =>
            process_api_get (hostname +:+ api_version +:+ api_request)
              [] api_request [200%Z] session_object
        end ;;
      with_open_w (download_location +:+ filename)
                  (ret (content server_response)) ;;;
      when etag_checking
        (with_open_w (etag_path download_location filename)
           (lift_opt (KeyError "etag")
                     (header_get (headers server_response) "ETag"))) ;;;
      when verbosity (print ("Success: " +:+ api_request)) ;;;
      ret "New"
  end.


(** ** process_minc_func *)

(** The queries that fill [candidate['Visits']]: the visit list, then
    for every visit its session document and its image list. *)
Definition minc_query_visit (cid : json) (session_object : session)
    (vs : list (string * minc_visit)) (visit : string)
  : M (list (string * minc_visit)) :=
  session_json <- get_json ("/candidates/" +:+ py_str cid +:+ "/" +:+ visit)
                           session_object ;;
  entry <- lift_opt (KeyError visit) (dict_get vs visit) ;;
  let vs := dict_set vs visit
              (MincVisit (Some session_json) (Filenames entry)) in
  images_json <- get_json ("/candidates/" +:+ py_str cid +:+ "/" +:+ visit
                           +:+ "/images") session_object ;;
  entry <- lift_opt (KeyError visit) (dict_get vs visit) ;;
  let vs := dict_set vs visit (MincVisit (visit_json entry) (Some [])) in
  files_json <- getitem images_json "Files" ;;
  visit_files <- py_iter files_json ;;
  fold_each visit_files
    (fun vs visit_file =>
       name <- getitem visit_file "Filename" ;;
       entry <- lift_opt (KeyError visit) (dict_get vs visit) ;;
       names <- lift_opt (KeyError "Filenames") (Filenames entry) ;;
       ret (dict_set vs visit
              (MincVisit (visit_json entry) (Some (names ++ [name])))))
    vs.

Definition minc_query (candidate : json) (session_object : session)
  : M (list (string * minc_visit)) :=
  cid <- getitem candidate "CandID" ;;
  doc <- get_json ("/candidates/" +:+ py_str cid) session_object ;;
  visits_json <- getitem doc "Visits" ;;
  visit_items <- py_iter visits_json ;;
  visits <- map_each as_str visit_items ;;
  let vs := foldl (fun d visit => dict_set d visit (MincVisit None None))
                  [] visits in
  fold_each visits (minc_query_visit cid session_object) vs.

(** [{key: val for key, val in Visits.items() if val['Filenames']}] *)
Fixpoint minc_filter (vs : list (string * minc_visit))
  : M (list (string * minc_visit)) :=
  match vs with
  | [] => ret []
  | (key, val) :: vs' =>
      names <- lift_opt (KeyError "Filenames") (Filenames val) ;;
      kept <- minc_filter vs' ;;
      ret (match names with
           | [] => kept
           | _ :: _ => (key, val) :: kept
           end)
  end.

Definition candidate_properties : list string :=
  ["CandID"; "PSCID"; "Site"; "DoB"; "Gender"; "Language"; "Project"].

(** The dictionary written to [candidate.json]. *)
Definition candidate_projection (candidate : json) : M json :=
  pairs <- map_each (fun property_key =>
                       v <- getitem candidate property_key ;;
                       ret (property_key, v))
                    candidate_properties ;;
  ret (JObj pairs).

Definition write_candidate_json (candidate : json) : M unit :=
  cid <- getitem candidate "CandID" ;;
  with_open_w (base_directory +:+ "/" +:+ py_str cid +:+ "/candidate.json")
    (projection <- candidate_projection candidate ;;
     ret (py_str projection)).

Definition minc_make_visit (cid : json) (vs : list (string * minc_visit))
    (visit : string) : M unit :=
  present <- path_exists (base_directory +:+ "/" +:+ py_str cid +:+ "/"
                          +:+ visit) ;;
  when (negb present)
    (makedirs (base_directory +:+ "/" +:+ py_str cid +:+ "/" +:+ visit)) ;;;
  with_open_w (base_directory +:+ "/" +:+ py_str cid +:+ "/" +:+ visit
               +:+ "/" +:+ "session.json")
    (entry <- lift_opt (KeyError visit) (dict_get vs visit) ;;
     session_json <- lift_opt (KeyError "json") (visit_json entry) ;;
     meta <- getitem session_json "Meta" ;;
     ret (py_str meta)).

(** One image: the file itself with ETag checking and, when it is new,
    its QC document without. *)
Definition minc_fetch_image (cid : json) (visit : string)
    (session_file : json) (session_object : session) : M unit :=
  name <- as_str session_file ;;
  status <- get_file ("/candidates/" +:+ py_str cid +:+ "/" +:+ visit
                      +:+ "/images/" +:+ name)
                     (base_directory +:+ py_str cid +:+ "/" +:+ visit +:+ "/")
                     name true session_object ;;
  if bool_decide (status = "New") then
    get_file ("/candidates/" +:+ py_str cid +:+ "/" +:+ visit
              +:+ "/images/" +:+ name +:+ "/qc")
             (base_directory +:+ py_str cid +:+ "/" +:+ visit +:+ "/")
             (name +:+ ".qc.json") false session_object ;;;
    ret tt
  else ret tt.

Definition minc_fetch_visit (cid : json) (vs : list (string * minc_visit))
    (session_object : session) (visit : string) : M unit :=
  entry <- lift_opt (KeyError visit) (dict_get vs visit) ;;
  names <- lift_opt (KeyError "Filenames") (Filenames entry) ;;
  for_each names
    (fun session_file => minc_fetch_image cid visit session_file session_object).

(** Everything after the visits were filtered: folders, [candidate.json],
    [session.json] of every visit, then the downloads. *)
Definition minc_materialize (candidate : json)
    (vs : list (string * minc_visit)) (session_object : session) : M unit :=
  cid <- getitem candidate "CandID" ;;
  present <- path_exists (base_directory +:+ "/" +:+ py_str cid) ;;
  when (negb present) (makedirs (base_directory +:+ "/" +:+ py_str cid)) ;;;
  write_candidate_json candidate ;;;
  for_each (dict_keys vs) (minc_make_visit cid vs) ;;;
  for_each (dict_keys vs) (minc_fetch_visit cid vs session_object).

Definition process_minc_func (candidate : json) : M minc_candidate :=
  session_object <- new_session ;;
  queried <- minc_query candidate session_object ;;
  vs <- minc_filter queried ;;
  minc_materialize candidate vs session_object ;;;
  ret (MincCandidate candidate vs).


(** ** process_bids_func *)

Definition bids_make_visit (candidate : bids_candidate) (visit : string)
  : M unit :=
  present <- path_exists (base_directory +:+ "/sub-" +:+ CandID candidate
                          +:+ "/ses-" +:+ visit) ;;
  when (negb present)
    (makedirs (base_directory +:+ "/sub-" +:+ CandID candidate
               +:+ "/ses-" +:+ visit)) ;;;
  entry <- lift_opt (KeyError visit) (dict_get (Visits candidate) visit) ;;
  for_each (dict_keys (Folders entry))
    (fun category =>
       present <- path_exists (base_directory +:+ "/sub-" +:+ CandID candidate
                               +:+ "/ses-" +:+ visit +:+ "/" +:+ category) ;;
       when (negb present)
         (makedirs (base_directory +:+ "/sub-" +:+ CandID candidate
                    +:+ "/ses-" +:+ visit +:+ "/" +:+ category))).

Definition bids_fetch_visit (candidate : bids_candidate)
    (session_object : session) (visit : string) : M unit :=
  entry <- lift_opt (KeyError visit) (dict_get (Visits candidate) visit) ;;
  for_each (Files entry)
    (fun session_file =>
       link <- as_str session_file ;;
       get_file link
                (base_directory +:+ "sub-" +:+ CandID candidate +:+ "/ses-"
                 +:+ visit +:+ "/")
                (basename link) true session_object ;;;
       ret tt) ;;;
  for_each (dict_keys (Folders entry))
    (fun category =>
       file_requests <- lift_opt (KeyError category)
                                 (dict_get (Folders entry) category) ;;
       for_each file_requests
         (fun file_request =>
            link <- as_str file_request ;;
            get_file link
                     (base_directory +:+ "sub-" +:+ CandID candidate
                      +:+ "/ses-" +:+ visit +:+ "/" +:+ category +:+ "/")
                     (basename link) true session_object ;;;
            ret tt)).

Definition process_bids_func (candidate : bids_candidate)
  : M bids_candidate :=
  session_object <- new_session ;;
  present <- path_exists (base_directory +:+ "/sub-" +:+ CandID candidate) ;;
  when (negb present)
    (makedirs (base_directory +:+ "/sub-" +:+ CandID candidate)) ;;;
  for_each (dict_keys (Visits candidate)) (bids_make_visit candidate) ;;;
  for_each (dict_keys (Visits candidate))
           (bids_fetch_visit candidate session_object) ;;;
  ret candidate.

(** ** create_bids_candidates_list *)

(** One record of ['SessionFiles']. *)
Definition fold_session (candidates : list (string * bids_candidate))
    (session : json) : M (list (string * bids_candidate)) :=
  cand <- (c <- getitem session "Candidate" ;; as_str c) ;;
  match dict_get candidates cand with
  | None =>
      visit <- (v <- getitem session "Visit" ;; as_str v) ;;
      tsv <- getitem session "TsvLink" ;;
      jsn <- getitem session "JsonLink" ;;
      ret (dict_set candidates cand
             (BidsCandidate cand [(visit, BidsVisit [tsv; jsn] [])]))
  | Some entry =>
      tsv <- getitem session "TsvLink" ;;
      jsn <- getitem session "JsonLink" ;;
      visit <- (v <- getitem session "Visit" ;; as_str v) ;;
      ret (dict_set candidates cand
             (BidsCandidate (CandID entry)
                (dict_set (Visits entry) visit (BidsVisit [tsv; jsn] []))))
  end.

Definition image_metadata : list string :=
  ["Candidate"; "PSCID"; "Visit"; "LorisScanType"; "Subfolder"].

(** The properties of an image record that hold links. *)
Definition link_properties (image : json) : list string :=
  match image with
  | JObj fields =>
      List.filter (fun property => negb (bool_decide (property ∈ image_metadata)))
                  (dict_keys fields)
  | _ => []
  end.

(** One record of ['Images']. *)
Definition fold_image (candidates : list (string * bids_candidate))
    (image : json) : M (list (string * bids_candidate)) :=
  subfolder <- (s <- getitem image "Subfolder" ;; as_str s) ;;
  cand <- (c <- getitem image "Candidate" ;; as_str c) ;;
  entry <- lift_opt (KeyError cand) (dict_get candidates cand) ;;
  visit <- (v <- getitem image "Visit" ;; as_str v) ;;
  record <- lift_opt (KeyError visit) (dict_get (Visits entry) visit) ;;
  let folders :=
    if dict_mem (Folders record) subfolder then Folders record
    else dict_set (Folders record) subfolder [] in
  folders <- fold_each (link_properties image)
               (fun folders link =>
                  target <- getitem image link ;;
                  links <- lift_opt (KeyError subfolder)
                                    (dict_get folders subfolder) ;;
                  ret (dict_set folders subfolder (links ++ [target])))
               folders ;;
  ret (dict_set candidates cand
         (BidsCandidate (CandID entry)
            (dict_set (Visits entry) visit
                      (BidsVisit (Files record) folders)))).

(** Lines 534 to 579: the two loops over the manifest. *)
Definition fold_manifest (file_manifest : json)
  : M (list bids_candidate) :=
  sessions <- (l <- getitem file_manifest "SessionFiles" ;; py_iter l) ;;
  candidates <- fold_each sessions fold_session [] ;;
  images <- (l <- getitem file_manifest "Images" ;; py_iter l) ;;
  candidates <- fold_each images fold_image candidates ;;
  ret (dict_values candidates).

Definition get_dataset_file (file_manifest : json) (entry property : string)
    (filename : string) (session_object : session) : M unit :=
  link <- (e <- getitem file_manifest entry ;;
           l <- getitem e property ;; as_str l) ;;
  get_file link base_directory filename true session_object ;;;
  ret tt.

Definition create_bids_candidates_list : M (list bids_candidate) :=
  session_object <- new_session ;;
  file_manifest <- get_json "/projects/loris/bids/" session_object ;;
  get_dataset_file file_manifest "DatasetDescription" "Link"
                   "dataset_description.json" session_object ;;;
  get_dataset_file file_manifest "README" "Link" "README" session_object ;;;
  get_dataset_file file_manifest "BidsValidatorConfig" "Link"
                   ".bids-validator-config.json" session_object ;;;
  get_dataset_file file_manifest "Participants" "TsvLink"
                   "participants.tsv" session_object ;;;
  get_dataset_file file_manifest "Participants" "JsonLink"
                   "participants.json" session_object ;;;
  fold_manifest file_manifest.

(** ** candidate_argument_checker *)

Definition candidate_argument_checker (candID : string) : M Z :=
  match py_int candID with
  | None =>
      raise (ArgumentTypeError
               ("Invalid <class 'str'> type for the CandID number. "
                +:+ "Use strings or ints without commas."))
  | Some n =>
      if (n >=? 9999999)%Z || (n <=? 1000000)%Z
      then raise (ArgumentTypeError (pretty n +:+ ": Invalid CandID number."))
      else ret n
  end.

(** ** create_minc_candidates_list *)

Definition create_minc_candidates_list : M json :=
  session_object <- new_session ;;
  doc <- get_json "/candidates/" session_object ;;
  getitem doc "Candidates".

(** ** initialize_jwt *)

Definition initialize_jwt (username password hostname api_version : string)
  : M bool :=
  o <- http_send (Post (hostname +:+ api_version +:+ "/login")
                       [("username", username); ("password", password)]) ;;
  match o with
  | ConnectTimeout _ err =>
      print ("The login request to the server produced a timeout error. "
             +:+ "Check your connection and try again.") ;;;
      when verbosity (print err) ;;;
      ret false
  | ConnectionError _ err =>
      print ("The login request to the server produced a connection error. "
             +:+ "Check your connection and try again.") ;;;
      when verbosity (print err) ;;;
      ret false
  | OtherError err => raise (RequestException err)
  | Responds r =>
      if bool_decide (status_code r = 200%Z) then
        text <- decode_ascii (content r) ;;
        doc <- lift_opt ValueError (json_loads text) ;;
        t <- getitem doc "token" ;;
        set_token t ;;;
        print "Login successful. Token obtained." ;;;
        ret true
      else
        print ("The login request to the server returned an error. "
               +:+ "Please check your credentials.") ;;;
        ret false
  end.

(** ** The script after the arguments are parsed *)

Variable username password : string.

(** Lines 705 to 737.  The worker pool maps [process_function] over the
    candidates; the embedding runs the jobs one after the other. *)
Definition dispatch {C R} (cand_id : C -> M json)
    (process_function : C -> M R) (candidates : list C) : M unit :=
  candidates <-
    (match specified_candidates with
     | [] => ret candidates
     | _ :: _ =>
         filter_each (fun candidate =>
                        cid <- cand_id candidate ;;
                        n <- int_of cid ;;
                        ret (bool_decide (n ∈ specified_candidates)))
                     candidates
     end) ;;
  match candidates, specified_candidates with
  | [], _ :: _ =>
      print ("None of the CandID numbers provided ("
             +:+ join ", " (pretty <$> specified_candidates)
             +:+ ") are valid.") ;;;
      print "Exiting the script." ;;;
      exit 2
  | _, _ =>
      candidates_list <- map_each process_function candidates ;;
      print (nl +:+ "The script completed successfully and downloaded "
             +:+ pretty (length candidates_list) +:+ "/"
             +:+ pretty (length candidates) +:+ " candidates." +:+ nl) ;;;
      exit 0
  end.

Definition main_script : M unit :=
  logged_in <- initialize_jwt username password hostname api_version ;;
  if logged_in then
    if bool_decide (imaging_format = "bids") then
      candidates <- create_bids_candidates_list ;;
      dispatch (fun c => ret (JStr (CandID c))) process_bids_func candidates
    else if bool_decide (imaging_format = "minc") then
      candidates <- (l <- create_minc_candidates_list ;; py_iter l) ;;
      dispatch (fun c => getitem c "CandID") process_minc_func candidates
    else
      print "Invalid Imaging format provided. Exiting the script." ;;;
      exit 1
  else
    print "Exiting the script." ;;;
    exit 3.


(** ** Vocabulary of the statements *)

(** [Q] holds of the world a computation ends in, however it ends. *)
Definition post {A} (m : M A) (w : world) (Q : world -> Prop) : Prop :=
  match m w with
  | Ret _ w' | Raise _ w' | Exit _ w' => Q w'
  | Starved => True
  end.

(** The computation leaves the component [f] of the world as it was. *)
Definition preserves {A X} (f : world -> X) (m : M A) : Prop :=
  forall w, post m w (fun w' => f w' = f w).

(** The request [process_api_get] puts on the wire. *)
Definition get_request (so : session) (api_request : string)
    (hdrs : list (string * string)) : request :=
  Get (hostname +:+ api_version +:+ api_request)
      (merge_headers (session_headers so) hdrs).

(** Two worlds that differ at most in what was printed. *)
Definition quiet (w w' : world) : Prop :=
  files w' = files w /\ dirs w' = dirs w /\ net w' = net w
  /\ sent w' = sent w /\ token w' = token w.

(** Lines 228 to 243 of [get_file]: what happens once a response is at
    hand. *)
Definition store_download (api_request download_location filename : string)
    (etag_checking : bool) (server_response : response) : M string :=
  with_open_w (download_location +:+ filename)
              (ret (content server_response)) ;;;
  when etag_checking
    (with_open_w (etag_path download_location filename)
       (lift_opt (KeyError "etag")
                 (header_get (headers server_response) "ETag"))) ;;;
  when verbosity (print ("Success: " +:+ api_request)) ;;;
  ret "New".

(** The files after the body of [r] and, with ETag checking, the sidecar
    were written; a response without the header leaves the sidecar empty. *)
Definition stored (download_location filename : string) (etag_checking : bool)
    (r : response) (fs : gmap string string) : gmap string string :=
  let fs := <[download_location +:+ filename := content r]> fs in
  if etag_checking then
    <[etag_path download_location filename :=
        default "" (header_get (headers r) "ETag")]> fs
  else fs.

(** A computation that neither reads nor changes the world: it returns a
    value or raises, the same in every world. *)
Definition pure {A} (m : M A) : Prop :=
  exists v : exn + A,
    forall w, m w = match v with inl e => Raise e w | inr a => Ret a w end.

(** The visit has image file names. *)
Definition has_files (kv : string * minc_visit) : bool :=
  match Filenames kv.2 with
  | Some (_ :: _) => true
  | _ => false
  end.

(** The queries for visit [k] have been made: its ['Filenames'] key is set. *)
Definition filled (vs : list (string * minc_visit)) (k : string) : Prop :=
  exists entry names,
    dict_get vs k = Some entry /\ Filenames entry = Some names.

(** *** Reading the BIDS manifest *)

(** [candidates[c]['Visits'][v]], when both keys are there. *)
Definition visit_of (candidates : list (string * bids_candidate))
    (c v : string) : option bids_visit :=
  match dict_get candidates c with
  | Some entry => dict_get (Visits entry) v
  | None => None
  end.

Definition any_field (record : json) (key : string) : option json :=
  match record with
  | JObj fields => dict_get fields key
  | _ => None
  end.

Definition str_field (record : json) (key : string) : option string :=
  match any_field record key with
  | Some (JStr s) => Some s
  | _ => None
  end.

(** The record is about candidate [c] and visit [v]. *)
Definition record_at (c v : string) (record : json) : bool :=
  bool_decide (str_field record "Candidate" = Some c
               /\ str_field record "Visit" = Some v).

(** The image record is about candidate [c], visit [v], category [cat]. *)
Definition image_at (c v cat : string) (image : json) : bool :=
  record_at c v image
  && bool_decide (str_field image "Subfolder" = Some cat).

(** The two links a session record carries. *)
Definition session_links (session : json) : list json :=
  [default JNull (any_field session "TsvLink");
   default JNull (any_field session "JsonLink")].

(** The links an image record carries, in the order of its properties. *)
Definition image_links (image : json) : list json :=
  omap (any_field image) (link_properties image).

(** What the manifest says about a visit: the links of the last session
    record of the pair ... *)
Definition session_files (sessions : list json) (c v : string)
  : option (list json) :=
  session_links <$> last (List.filter (record_at c v) sessions).

(** ... and per category the links of all its image records, in manifest
    order; no entry for a category without image record. *)
Definition category_links (images : list json) (c v cat : string)
  : option (list json) :=
  match List.filter (image_at c v cat) images with
  | [] => None
  | matching => Some (concat (image_links <$> matching))
  end.

Definition well_formed_session (session : json) : Prop :=
  is_Some (str_field session "Candidate")
  /\ is_Some (str_field session "Visit")
  /\ is_Some (any_field session "TsvLink")
  /\ is_Some (any_field session "JsonLink").

Definition well_formed_image (sessions : list json) (image : json) : Prop :=
  exists c v cat,
    str_field image "Candidate" = Some c
    /\ str_field image "Visit" = Some v
    /\ str_field image "Subfolder" = Some cat
    /\ is_Some (session_files sessions c v).

(** One entry per candidate, one per visit of a candidate, one per
    category of a visit, and every entry filed under its own CandID. *)
Definition single_entries (candidates : list (string * bids_candidate))
  : Prop :=
  NoDup (dict_keys candidates)
  /\ Forall (fun kv =>
               CandID kv.2 = kv.1
               /\ NoDup (dict_keys (Visits kv.2))
               /\ Forall (fun vr => NoDup (dict_keys (Folders vr.2)))
                         (Visits kv.2))
            candidates.

(** The computation returns, raises or starves, but never calls [exit]. *)
Definition no_exit {A} (m : M A) : Prop :=
  forall w, match m w with Exit _ _ => False | _ => True end.

(** The last line of a run that went through. *)
Definition summary (completed requested : nat) : string :=
  nl +:+ "The script completed successfully and downloaded "
  +:+ pretty completed +:+ "/" +:+ pretty requested +:+ " candidates." +:+ nl.

(** [os.path.exists] *)
Definition on_disk (p : string) (w : world) : Prop :=
  is_Some (files w !! p) \/ p ∈ dirs w.

(** The folders of the listed visits of a BIDS candidate, and of their
    categories, are on disk. *)
Definition bids_folders_on_disk (candidate : bids_candidate)
    (visits : list string) (w : world) : Prop :=
  forall visit entry,
    visit ∈ visits ->
    dict_get (Visits candidate) visit = Some entry ->
    on_disk (base_directory +:+ "/sub-" +:+ CandID candidate +:+ "/ses-"
             +:+ visit) w
    /\ forall category,
         category ∈ dict_keys (Folders entry) ->
         on_disk (base_directory +:+ "/sub-" +:+ CandID candidate
                  +:+ "/ses-" +:+ visit +:+ "/" +:+ category) w.

(** The downloads of one visit of a BIDS candidate, as pairs of the folder
    and the link, in the order of the loops of [process_bids_func]: the
    session files, then the files of each category. *)
Definition bids_visit_downloads (candidate : bids_candidate) (visit : string)
    (entry : bids_visit) : list (string * json) :=
  ((fun session_file =>
      (base_directory +:+ "sub-" +:+ CandID candidate +:+ "/ses-"
       +:+ visit +:+ "/", session_file)) <$> Files entry)
  ++ concat
       ((fun category =>
           (fun file_request =>
              (base_directory +:+ "sub-" +:+ CandID candidate +:+ "/ses-"
               +:+ visit +:+ "/" +:+ category +:+ "/", file_request))
           <$> default [] (dict_get (Folders entry) category))
        <$> dict_keys (Folders entry)).

Definition bids_downloads (candidate : bids_candidate)
  : list (string * json) :=
  concat ((fun visit =>
             match dict_get (Visits candidate) visit with
             | Some entry => bids_visit_downloads candidate visit entry
             | None => []
             end) <$> dict_keys (Visits candidate)).

(** The body of the download loops for one such pair. *)
Definition bids_download (session_object : session) (d : string * json)
  : M unit :=
  link <- as_str d.2 ;;
  get_file link d.1 (basename link) true session_object ;;;
  ret tt.

(** The link is a string and the sidecar of its file is on disk. *)
Definition has_sidecar (fs : gmap string string) (d : string * json) : Prop :=
  match d.2 with
  | JStr link => is_Some (fs !! etag_path d.1 (basename link))
  | _ => False
  end.

(** The server answers 304. *)
Definition not_modified (o : outcome) : Prop :=
  match o with
  | Responds r => status_code r = 304%Z
  | _ => False
  end.

(** * Properties *)

(** ** Dictionaries *)

Lemma dict_get_set {V} (d : list (string * V)) k x k' :
  dict_get (dict_set d k x) k'
  = if decide (k = k') then Some x else dict_get d k'.
Proof.
  induction d as [| [k0 x0] d IH]; simpl.
  - by destruct (decide (k = k')).
  - destruct (decide (k0 = k)) as [-> | Hne]; simpl.
    + by destruct (decide (k = k')).
    + destruct (decide (k0 = k')) as [-> | Hne'].
      * by rewrite decide_False by done.
      * done.
Qed.

Lemma dict_get_None {V} (d : list (string * V)) k :
  dict_get d k = None <-> k ∉ dict_keys d.
Proof.
  unfold dict_keys. induction d as [| [k0 x0] d IH]; simpl.
  - split; [intros _; apply not_elem_of_nil | done].
  - rewrite not_elem_of_cons. destruct (decide (k0 = k)) as [-> | Hne].
    + split; [done | by intros [? _]].
    + rewrite IH. split; [by split | by intros [_ ?]].
Qed.

Lemma dict_get_elem_of {V} (d : list (string * V)) k :
  k ∈ dict_keys d -> is_Some (dict_get d k).
Proof.
  intros Hin. destruct (dict_get d k) eqn:E; [done |].
  by apply dict_get_None in E.
Qed.

Lemma dict_keys_set {V} (d : list (string * V)) k x :
  dict_keys (dict_set d k x)
  = match dict_get d k with
    | Some _ => dict_keys d
    | None => dict_keys d ++ [k]
    end.
Proof.
  unfold dict_keys. induction d as [| [k0 x0] d IH]; [done |].
  cbn [dict_set dict_get].
  destruct (decide (k0 = k)) as [-> | Hne]; [done |].
  rewrite !fmap_cons, IH. by destruct (dict_get d k).
Qed.

Lemma dict_set_NoDup {V} (d : list (string * V)) k x :
  NoDup (dict_keys d) -> NoDup (dict_keys (dict_set d k x)).
Proof.
  intros Hd. rewrite dict_keys_set.
  destruct (dict_get d k) eqn:E; [done |].
  apply NoDup_app. split; [done |]. split.
  - intros k' Hk' ->%list_elem_of_singleton. by apply dict_get_None in E.
  - apply NoDup_singleton.
Qed.

Lemma dict_set_Forall {V} (P : string * V -> Prop) (d : list (string * V)) k x :
  Forall P d -> P (k, x) -> Forall P (dict_set d k x).
Proof.
  intros Hd Hx. induction Hd as [| [k0 x0] d H0 Hd IH]; simpl.
  - by constructor.
  - destruct (decide (k0 = k)); by constructor.
Qed.

Lemma dict_get_Forall {V} (P : string * V -> Prop) (d : list (string * V)) k x :
  Forall P d -> dict_get d k = Some x -> P (k, x).
Proof.
  intros Hd. induction Hd as [| [k0 x0] d H0 Hd IH]; simpl; [done |].
  destruct (decide (k0 = k)) as [-> | Hne]; [by intros [= <-] | done].
Qed.


(** ** The retry loop *)

Lemma retry_message_frame (timeout : bool) api_request now err w :
  exists w',
    (if verbosity then
       print ("The request " +:+ api_request +:+ " done at " +:+ now
              +:+ (if timeout then " raised a timeout error."
                   else " raised a connection error.") +:+ nl
              +:+ "The error message follows. Retrying.") ;;;
       print err
     else
       print ((if timeout then "Connection timeout for the download of "
               else "Connection error for the download of ")
              +:+ basename api_request +:+ ". Retrying.")) w = Ret tt w'
    /\ files w' = files w /\ dirs w' = dirs w /\ net w' = net w
    /\ sent w' = sent w /\ token w' = token w.
Proof.
  destruct verbosity; eexists; (split; [reflexivity |]); simpl; auto.
Qed.

Lemma process_api_get_loop_spec url hdrs api_request expected_codes so :
  forall pre fuel w r rest,
    net w = pre ++ Responds r :: rest ->
    Forall (retried expected_codes) pre ->
    status_code r ∈ expected_codes ->
    length pre < fuel ->
    exists w',
      process_api_get_loop fuel url hdrs api_request expected_codes so w
      = Ret r w'
      /\ net w' = rest
      /\ sent w' = sent w ++ replicate (S (length pre))
                              (Get url (merge_headers (session_headers so) hdrs))
      /\ files w' = files w /\ dirs w' = dirs w /\ token w' = token w.
Proof.
  induction pre as [| o pre IH]; intros fuel w r rest Hnet Hpre Hr Hfuel.
  - destruct fuel as [| fuel]; [simpl in Hfuel; lia |].
    simpl in Hnet. simpl.
    unfold bind, session_get, http_send. rewrite Hnet.
    rewrite bool_decide_eq_true_2 by done.
    eexists; split; [reflexivity |]. simpl. auto.
  - destruct fuel as [| fuel]; [simpl in Hfuel; lia |].
    simpl in Hfuel.
    apply Forall_cons in Hpre as [Ho Hpre].
    simpl in Hnet.
    set (w1 := World (files w) (dirs w) (pre ++ Responds r :: rest)
                     (sent w ++ [Get url (merge_headers (session_headers so) hdrs)])
                     (stdout w) (token w)).
    assert (Hstep : session_get so url hdrs w = Ret o w1).
    { unfold session_get, http_send. by rewrite Hnet. }
    assert (Hgo : forall w2, net w2 = net w1 -> sent w2 = sent w1 ->
              files w2 = files w1 -> dirs w2 = dirs w1 -> token w2 = token w1 ->
              exists w',
                process_api_get_loop fuel url hdrs api_request expected_codes so w2
                = Ret r w'
                /\ net w' = rest
                /\ sent w' = sent w ++ replicate (S (S (length pre)))
                              (Get url (merge_headers (session_headers so) hdrs))
                /\ files w' = files w /\ dirs w' = dirs w /\ token w' = token w).
    { intros w2 Hn Hs Hf Hd Ht.
      destruct (IH fuel w2 r rest) as (w' & Hrun & Hn' & Hs' & Hf' & Hd' & Ht');
        [by rewrite Hn | done | done | lia |].
      exists w'. split; [done |]. split; [done |].
      rewrite Hs', Hs, Hf', Hd', Ht', Hf, Hd, Ht. simpl.
      by rewrite <- app_assoc. }
    cbn [process_api_get_loop]. unfold bind at 1. rewrite Hstep.
    destruct o as [now err | now err | err | r0]; simpl in Ho.
    + destruct (retry_message_frame true api_request now err w1)
        as (w2 & Hmsg & Hf & Hd & Hn & Hs & Ht).
      unfold bind at 1. simpl in Hmsg. rewrite Hmsg. by apply Hgo.
    + destruct (retry_message_frame false api_request now err w1)
        as (w2 & Hmsg & Hf & Hd & Hn & Hs & Ht).
      unfold bind at 1. simpl in Hmsg. rewrite Hmsg. by apply Hgo.
    + done.
    + rewrite bool_decide_eq_false_2 by done. by apply Hgo.
Qed.

Lemma process_api_get_loop_starved url hdrs api_request expected_codes so :
  forall script fuel w,
    net w = script ->
    Forall (retried expected_codes) script ->
    process_api_get_loop fuel url hdrs api_request expected_codes so w
    = Starved.
Proof.
  induction script as [| o script IH]; intros fuel w Hnet Hall.
  - destruct fuel; [done |]. simpl.
    unfold bind, session_get, http_send. by rewrite Hnet.
  - destruct fuel as [| fuel]; [done |].
    apply Forall_cons in Hall as [Ho Hall].
    cbn [process_api_get_loop]. unfold bind at 1.
    unfold session_get, http_send. rewrite Hnet.
    set (w1 := World _ _ _ _ _ _).
    destruct o as [now err | now err | err | r0]; simpl in Ho.
    + destruct (retry_message_frame true api_request now err w1)
        as (w2 & Hmsg & Hf & Hd & Hn & Hs & Ht).
      unfold bind at 1. simpl in Hmsg. rewrite Hmsg. by apply IH.
    + destruct (retry_message_frame false api_request now err w1)
        as (w2 & Hmsg & Hf & Hd & Hn & Hs & Ht).
      unfold bind at 1. simpl in Hmsg. rewrite Hmsg. by apply IH.
    + done.
    + rewrite bool_decide_eq_false_2 by done. by apply IH.
Qed.

(** C1 (amended): connection errors, timeouts and responses whose status
    is not expected are all answered by sending the identical request
    again, without limit; the first response with an expected status is
    returned at once.  A script of outcomes that holds only retried ones
    never lets the call return. *)
Theorem process_api_get_returns_first_expected
    url hdrs api_request expected_codes so w pre r rest :
  net w = pre ++ Responds r :: rest ->
  Forall (retried expected_codes) pre ->
  status_code r ∈ expected_codes ->
  (exists w',
      process_api_get url hdrs api_request expected_codes so w = Ret r w'
      /\ net w' = rest
      /\ sent w' = sent w ++ replicate (S (length pre))
                     (Get url (merge_headers (session_headers so) hdrs))
      /\ files w' = files w /\ dirs w' = dirs w /\ token w' = token w)
  /\ (forall w0, Forall (retried expected_codes) (net w0) ->
        process_api_get url hdrs api_request expected_codes so w0 = Starved).
Proof.
  intros Hnet Hpre Hr. split.
  - unfold process_api_get.
    eapply process_api_get_loop_spec; eauto.
    rewrite Hnet, length_app. simpl. lia.
  - intros w0 Hall. unfold process_api_get.
    by eapply process_api_get_loop_starved.
Qed.


(** ** Frame rules *)

Lemma preserves_ret {A X} (f : world -> X) (a : A) : preserves f (ret a).
Proof. by intros w. Qed.

Lemma preserves_raise {A X} (f : world -> X) e : preserves f (@raise A e).
Proof. by intros w. Qed.

Lemma preserves_exit {A X} (f : world -> X) c : preserves f (@exit A c).
Proof. by intros w. Qed.

Lemma preserves_starve {A X} (f : world -> X) : preserves f (@starve A).
Proof. by intros w. Qed.

Lemma preserves_bind {A B X} (f : world -> X) (m : M A) (k : A -> M B) :
  preserves f m -> (forall a, preserves f (k a)) -> preserves f (bind m k).
Proof.
  intros Hm Hk w. specialize (Hm w). unfold post, bind in *.
  destruct (m w) as [a w1 | e w1 | c w1 |]; try done.
  specialize (Hk a w1). unfold post in Hk.
  destruct (k a w1); congruence.
Qed.

Lemma preserves_lift_opt {A X} (f : world -> X) e (o : option A) :
  preserves f (lift_opt e o).
Proof. by destruct o; intros w. Qed.

Lemma preserves_when {X} (f : world -> X) b m :
  preserves f m -> preserves f (when b m).
Proof. destruct b; [done |]. intros _. apply preserves_ret. Qed.

Lemma preserves_for_each {A X} (f : world -> X) (xs : list A) body :
  (forall x, preserves f (body x)) -> preserves f (for_each xs body).
Proof.
  intros Hbody. induction xs as [| x xs IH]; simpl.
  - apply preserves_ret.
  - apply preserves_bind; auto.
Qed.

Lemma preserves_fold_each {A S X} (f : world -> X) (xs : list A)
    (body : S -> A -> M S) :
  (forall s x, preserves f (body s x)) ->
  forall s, preserves f (fold_each xs body s).
Proof.
  intros Hbody. induction xs as [| x xs IH]; intros s; simpl.
  - apply preserves_ret.
  - apply preserves_bind; auto.
Qed.

Lemma preserves_map_each {A B X} (f : world -> X) (g : A -> M B) xs :
  (forall x, preserves f (g x)) -> preserves f (map_each g xs).
Proof.
  intros Hg. induction xs as [| x xs IH]; simpl.
  - apply preserves_ret.
  - apply preserves_bind; [auto |]. intros y.
    apply preserves_bind; [auto |]. intros ys. apply preserves_ret.
Qed.

Lemma preserves_filter_each {A X} (f : world -> X) (p : A -> M bool) xs :
  (forall x, preserves f (p x)) -> preserves f (filter_each p xs).
Proof.
  intros Hp. induction xs as [| x xs IH]; simpl.
  - apply preserves_ret.
  - apply preserves_bind; [auto |]. intros keep.
    apply preserves_bind; [auto |]. intros kept. apply preserves_ret.
Qed.

(** Primitives that leave the world alone preserve every component. *)
Lemma preserves_get_token {X} (f : world -> X) : preserves f get_token.
Proof. by intros w. Qed.

Lemma preserves_isfile {X} (f : world -> X) p : preserves f (isfile p).
Proof. by intros w. Qed.

Lemma preserves_path_exists {X} (f : world -> X) p :
  preserves f (path_exists p).
Proof. by intros w. Qed.

Lemma preserves_read_file {X} (f : world -> X) p : preserves f (read_file p).
Proof. intros w. unfold post, read_file. by destruct (files w !! p). Qed.

Lemma preserves_getitem {X} (f : world -> X) j key :
  preserves f (getitem j key).
Proof.
  destruct j; simpl; try apply preserves_raise. apply preserves_lift_opt.
Qed.

Lemma preserves_py_iter {X} (f : world -> X) j : preserves f (py_iter j).
Proof.
  destruct j; simpl; first [apply preserves_raise | apply preserves_ret].
Qed.

Lemma preserves_as_str {X} (f : world -> X) j : preserves f (as_str j).
Proof.
  destruct j; simpl; first [apply preserves_raise | apply preserves_ret].
Qed.

Lemma preserves_int_of {X} (f : world -> X) j : preserves f (int_of j).
Proof.
  destruct j; simpl;
    first [apply preserves_raise | apply preserves_ret
          | apply preserves_lift_opt].
Qed.

Lemma preserves_decode_ascii {X} (f : world -> X) s :
  preserves f (decode_ascii s).
Proof.
  unfold decode_ascii.
  destruct (forallb _ _); [apply preserves_ret | apply preserves_raise].
Qed.

(** The directories change only through [makedirs]. *)
Lemma print_keeps_dirs line : preserves dirs (print line).
Proof. by intros w. Qed.

Lemma set_token_keeps_dirs t : preserves dirs (set_token t).
Proof. by intros w. Qed.

Lemma http_send_keeps_dirs rq : preserves dirs (http_send rq).
Proof. intros w. unfold post, http_send. by destruct (net w). Qed.

Lemma put_file_keeps_dirs p data : preserves dirs (put_file p data).
Proof. by intros w. Qed.

Lemma os_remove_keeps_dirs p : preserves dirs (os_remove p).
Proof. intros w. unfold post, os_remove. by destruct (files w !! p). Qed.

(** The files change only through [open] for writing and [os.remove]. *)
Lemma print_keeps_files line : preserves files (print line).
Proof. by intros w. Qed.

Lemma http_send_keeps_files rq : preserves files (http_send rq).
Proof. intros w. unfold post, http_send. by destruct (net w). Qed.

Lemma makedirs_keeps_files p : preserves files (makedirs p).
Proof. by intros w. Qed.

(** The network is touched only by [http_send]. *)
Lemma print_keeps_net line : preserves net (print line).
Proof. by intros w. Qed.

Lemma print_keeps_sent line : preserves sent (print line).
Proof. by intros w. Qed.

Lemma makedirs_keeps_net p : preserves net (makedirs p).
Proof. by intros w. Qed.

Lemma makedirs_keeps_sent p : preserves sent (makedirs p).
Proof. by intros w. Qed.

Lemma put_file_keeps_net p data : preserves net (put_file p data).
Proof. by intros w. Qed.

Lemma put_file_keeps_sent p data : preserves sent (put_file p data).
Proof. by intros w. Qed.

Create HintDb frame.

Hint Resolve preserves_ret preserves_raise preserves_exit preserves_starve
  preserves_lift_opt preserves_when preserves_for_each preserves_fold_each
  preserves_map_each preserves_filter_each preserves_get_token
  preserves_isfile preserves_path_exists preserves_read_file
  preserves_getitem preserves_py_iter preserves_as_str preserves_int_of
  preserves_decode_ascii
  print_keeps_dirs set_token_keeps_dirs http_send_keeps_dirs
  put_file_keeps_dirs os_remove_keeps_dirs print_keeps_files
  http_send_keeps_files makedirs_keeps_files print_keeps_net
  print_keeps_sent makedirs_keeps_net makedirs_keeps_sent
  put_file_keeps_net put_file_keeps_sent : frame.

Ltac frame_step :=
  match goal with
  | |- preserves _ (bind _ _) => apply preserves_bind; [| intros ?]
  | |- preserves _ (when _ _) => apply preserves_when
  | |- preserves _ (for_each _ _) => apply preserves_for_each; intros ?
  | |- preserves _ (fold_each _ _ _) => apply preserves_fold_each; intros ? ?
  | |- preserves _ (map_each _ _) => apply preserves_map_each; intros ?
  | |- preserves _ (filter_each _ _) => apply preserves_filter_each; intros ?
  | |- preserves _ (if ?b then _ else _) => destruct b
  | |- preserves _ (match ?x with _ => _ end) => destruct x
  | |- preserves _ _ => solve [eauto with frame]
  end.

Ltac frame := repeat frame_step.

Lemma process_api_get_loop_keeps {X} (f : world -> X)
    url hdrs api_request expected_codes so :
  (forall line, preserves f (print line)) ->
  (forall rq, preserves f (http_send rq)) ->
  forall fuel,
    preserves f (process_api_get_loop fuel url hdrs api_request
                                      expected_codes so).
Proof.
  intros Hprint Hsend.
  induction fuel as [| fuel IH]; simpl; [apply preserves_starve |].
  unfold session_get. frame; auto.
Qed.

Lemma process_api_get_keeps {X} (f : world -> X)
    url hdrs api_request expected_codes so :
  (forall line, preserves f (print line)) ->
  (forall rq, preserves f (http_send rq)) ->
  preserves f (process_api_get url hdrs api_request expected_codes so).
Proof.
  intros Hprint Hsend w. unfold process_api_get.
  by apply process_api_get_loop_keeps.
Qed.

Lemma process_api_get_keeps_dirs url hdrs api_request expected_codes so :
  preserves dirs (process_api_get url hdrs api_request expected_codes so).
Proof. apply process_api_get_keeps; auto with frame. Qed.

Lemma process_api_get_keeps_files url hdrs api_request expected_codes so :
  preserves files (process_api_get url hdrs api_request expected_codes so).
Proof. apply process_api_get_keeps; auto with frame. Qed.

Hint Resolve process_api_get_keeps_dirs process_api_get_keeps_files : frame.

Lemma get_json_keeps_dirs api_request so :
  preserves dirs (get_json api_request so).
Proof. unfold get_json. frame. Qed.

Lemma get_json_keeps_files api_request so :
  preserves files (get_json api_request so).
Proof. unfold get_json. frame. Qed.

Lemma get_file_keeps_dirs api_request download_location filename
    etag_checking so :
  preserves dirs (get_file api_request download_location filename
                           etag_checking so).
Proof. unfold get_file, with_open_w. frame. Qed.

Hint Resolve get_json_keeps_dirs get_json_keeps_files get_file_keeps_dirs
  : frame.


(** ** Running a computation step by step *)

Lemma bind_ret_run {A B} (m : M A) (k : A -> M B) w a w1 :
  m w = Ret a w1 -> bind m k w = k a w1.
Proof. intros H. unfold bind. by rewrite H. Qed.

Lemma bind_raise_run {A B} (m : M A) (k : A -> M B) w e w1 :
  m w = Raise e w1 -> bind m k w = Raise e w1.
Proof. intros H. unfold bind. by rewrite H. Qed.

Lemma bind_ret_inv {A B} (m : M A) (k : A -> M B) w b w' :
  bind m k w = Ret b w' ->
  exists a w1, m w = Ret a w1 /\ k a w1 = Ret b w'.
Proof.
  unfold bind. destruct (m w) as [a w1 | | |]; try done. eauto.
Qed.

Lemma string_length_app (s t : string) :
  String.length (s +:+ t) = String.length s + String.length t.
Proof. induction s as [| c s IH]; simpl; [done |]. by rewrite IH. Qed.

Lemma etag_path_ne_body download_location filename :
  etag_path download_location filename <> download_location +:+ filename.
Proof.
  unfold etag_path. intros H. apply (inj (String.app _)) in H.
  apply (f_equal String.length) in H.
  rewrite !string_length_app in H. simpl in H. lia.
Qed.

(** What a call that returned has been through. *)
Lemma process_api_get_loop_inv url hdrs api_request expected_codes so :
  forall fuel w r w',
    process_api_get_loop fuel url hdrs api_request expected_codes so w
    = Ret r w' ->
    exists pre,
      net w = pre ++ Responds r :: net w'
      /\ Forall (retried expected_codes) pre
      /\ status_code r ∈ expected_codes
      /\ sent w' = sent w ++ replicate (S (length pre))
                     (Get url (merge_headers (session_headers so) hdrs))
      /\ files w' = files w /\ dirs w' = dirs w /\ token w' = token w.
Proof.
  induction fuel as [| fuel IH]; intros w r w' Hrun; [done |].
  cbn [process_api_get_loop] in Hrun.
  apply bind_ret_inv in Hrun as (o & w1 & Hsend & Hrun).
  unfold session_get, http_send in Hsend.
  destruct (net w) as [| o' script] eqn:Hnet; [done |].
  injection Hsend as -> <-.
  assert (Hgo : forall w2, net w2 = script ->
            sent w2 = sent w ++ [Get url (merge_headers (session_headers so) hdrs)] ->
            files w2 = files w -> dirs w2 = dirs w -> token w2 = token w ->
            retried expected_codes o ->
            process_api_get_loop fuel url hdrs api_request expected_codes so w2
            = Ret r w' ->
            exists pre,
              o :: script = pre ++ Responds r :: net w'
              /\ Forall (retried expected_codes) pre
              /\ status_code r ∈ expected_codes
              /\ sent w' = sent w ++ replicate (S (length pre))
                     (Get url (merge_headers (session_headers so) hdrs))
              /\ files w' = files w /\ dirs w' = dirs w /\ token w' = token w).
  { intros w2 Hn Hs Hf Hd Ht Ho Hloop.
    destruct (IH _ _ _ Hloop) as (pre & Hn' & Hpre & Hr & Hs' & Hf' & Hd' & Ht').
    exists (o :: pre). rewrite Hn in Hn'. rewrite Hn'.
    split; [done |]. split; [by constructor |]. split; [done |].
    rewrite Hs', Hs, Hf', Hd', Ht'. simpl. by rewrite <- app_assoc. }
  destruct o as [now err | now err | err | r0].
  - apply bind_ret_inv in Hrun as ([] & w2 & Hmsg & Hrun).
    destruct (retry_message_frame true api_request now err
                (World (files w) (dirs w) script
                   (sent w ++ [Get url (merge_headers (session_headers so) hdrs)])
                   (stdout w) (token w)))
      as (w2' & Hmsg' & Hf & Hd & Hn & Hs & Ht).
    simpl in Hmsg'. rewrite Hmsg' in Hmsg. injection Hmsg as ->.
    by apply (Hgo w2).
  - apply bind_ret_inv in Hrun as ([] & w2 & Hmsg & Hrun).
    destruct (retry_message_frame false api_request now err
                (World (files w) (dirs w) script
                   (sent w ++ [Get url (merge_headers (session_headers so) hdrs)])
                   (stdout w) (token w)))
      as (w2' & Hmsg' & Hf & Hd & Hn & Hs & Ht).
    simpl in Hmsg'. rewrite Hmsg' in Hmsg. injection Hmsg as ->.
    by apply (Hgo w2).
  - done.
  - destruct (bool_decide (status_code r0 ∈ expected_codes)) eqn:Hin.
    + injection Hrun as -> <-. apply bool_decide_eq_true_1 in Hin.
      exists []. simpl. auto 10.
    + apply bool_decide_eq_false_1 in Hin.
      eapply Hgo; [.. | exact Hrun]; done.
Qed.

Lemma process_api_get_inv url hdrs api_request expected_codes so w r w' :
  process_api_get url hdrs api_request expected_codes so w = Ret r w' ->
  exists pre,
    net w = pre ++ Responds r :: net w'
    /\ Forall (retried expected_codes) pre
    /\ status_code r ∈ expected_codes
    /\ sent w' = sent w ++ replicate (S (length pre))
                   (Get url (merge_headers (session_headers so) hdrs))
    /\ files w' = files w /\ dirs w' = dirs w /\ token w' = token w.
Proof. apply process_api_get_loop_inv. Qed.

Lemma process_api_get_delivers url hdrs api_request expected_codes so w
      pre r rest :
  net w = pre ++ Responds r :: rest ->
  Forall (retried expected_codes) pre ->
  status_code r ∈ expected_codes ->
  exists w',
    process_api_get url hdrs api_request expected_codes so w = Ret r w'
    /\ net w' = rest
    /\ sent w' = sent w ++ replicate (S (length pre))
                   (Get url (merge_headers (session_headers so) hdrs))
    /\ files w' = files w /\ dirs w' = dirs w /\ token w' = token w.
Proof.
  intros Hnet Hpre Hr. unfold process_api_get.
  eapply process_api_get_loop_spec; eauto.
  rewrite Hnet, length_app. simpl. lia.
Qed.


(** ** get_file *)

Lemma when_print_run b line w :
  exists w', when b (print line) w = Ret tt w' /\ quiet w w'.
Proof. destruct b; eexists; (split; [reflexivity |]); by repeat split. Qed.

(** C4: with ETag checking on, a sidecar on disk and a 304 from the
    server, the call returns ["Current"]; the files (body and sidecar
    among them) and the directories are as they were. *)
Theorem get_file_current_on_304
    api_request download_location filename so w etag pre r rest :
  files w !! etag_path download_location filename = Some etag ->
  net w = pre ++ Responds r :: rest ->
  Forall (retried [200%Z; 304%Z]) pre ->
  status_code r = 304%Z ->
  exists w',
    get_file api_request download_location filename true so w
    = Ret "Current" w'
    /\ files w' = files w /\ dirs w' = dirs w /\ net w' = rest
    /\ sent w' = sent w ++ replicate (S (length pre))
                   (get_request so api_request [("If-None-Match", etag)]).
Proof.
  intros Hfile Hnet Hpre Hr.
  destruct (process_api_get_delivers
              (hostname +:+ api_version +:+ api_request)
              [("If-None-Match", etag)] api_request [200%Z; 304%Z] so w
              pre r rest Hnet Hpre)
    as (w1 & Hget & Hn1 & Hs1 & Hf1 & Hd1 & Ht1).
  { rewrite Hr. apply elem_of_cons. right. by apply list_elem_of_singleton. }
  destruct (when_print_run verbosity
              ("File: " +:+ filename +:+ " was already downloaded") w1)
    as (w2 & Hprint & Hf2 & Hd2 & Hn2 & Hs2 & Ht2).
  assert (Hisfile : isfile (etag_path download_location filename) w
                    = Ret true w).
  { unfold isfile. by rewrite Hfile. }
  assert (Hread : read_file (etag_path download_location filename) w
                  = Ret etag w).
  { unfold read_file. by rewrite Hfile. }
  exists w2. split.
  - unfold get_file. cbn beta iota.
    rewrite (bind_ret_run _ _ _ _ _ Hisfile). cbn beta iota.
    rewrite (bind_ret_run _ _ _ (inl "Current") w2); [done |].
    rewrite (bind_ret_run _ _ _ _ _ Hread).
    rewrite (bind_ret_run _ _ _ _ _ Hget).
    rewrite Hr. cbn beta iota.
    change (304 =? 304)%Z with true. cbn beta iota.
    by rewrite (bind_ret_run _ _ _ _ _ Hprint).
  - unfold get_request. rewrite Hf2, Hd2, Hn2, Hs2. auto.
Qed.


Lemma store_download_run api_request download_location filename
      etag_checking r w :
  exists w',
    store_download api_request download_location filename etag_checking r w
    = (if etag_checking && bool_decide (header_get (headers r) "ETag" = None)
       then Raise (KeyError "etag") w' else Ret "New" w')
    /\ files w' = stored download_location filename etag_checking r (files w)
    /\ dirs w' = dirs w /\ net w' = net w /\ sent w' = sent w
    /\ token w' = token w.
Proof.
  unfold store_download, stored, with_open_w.
  destruct etag_checking; simpl.
  - destruct (header_get (headers r) "ETag") as [e |] eqn:He; simpl.
    + destruct (when_print_run verbosity ("Success: " +:+ api_request)
                  (World (<[etag_path download_location filename := e]>
                            (<[download_location +:+ filename := content r]>
                               (files w)))
                         (dirs w) (net w) (sent w) (stdout w) (token w)))
        as (w' & Hprint & Hf & Hd & Hn & Hs & Ht).
      exists w'. split.
      * unfold bind, put_file, ret. simpl.
        rewrite !insert_insert_eq.
        unfold bind in Hprint. by rewrite Hprint.
      * by rewrite Hf, Hd, Hn, Hs, Ht.
    + eexists. split; [reflexivity |]. simpl.
      by rewrite insert_insert_eq.
  - destruct (when_print_run verbosity ("Success: " +:+ api_request)
                (World (<[download_location +:+ filename := content r]>
                          (files w))
                       (dirs w) (net w) (sent w) (stdout w) (token w)))
      as (w' & Hprint & Hf & Hd & Hn & Hs & Ht).
    exists w'. split.
    + unfold bind, put_file, ret. simpl.
      rewrite !insert_insert_eq. by rewrite Hprint.
    + by rewrite Hf, Hd, Hn, Hs, Ht.
Qed.


(** [get_file] when no sidecar is consulted. *)
Lemma get_file_uncached api_request download_location filename
      etag_checking so w :
  etag_checking = false
  \/ files w !! etag_path download_location filename = None ->
  get_file api_request download_location filename etag_checking so w
  = (server_response <-
       process_api_get (hostname +:+ api_version +:+ api_request)
         [] api_request [200%Z] so ;;
     store_download api_request download_location filename etag_checking
                    server_response) w.
Proof.
  intros Hcase.
  assert (Hcached : (if etag_checking
                     then isfile (etag_path download_location filename)
                     else ret false) w = Ret false w).
  { destruct Hcase as [-> | Hnone]; [done |].
    destruct etag_checking; [| done].
    unfold isfile. rewrite Hnone. reflexivity. }
  unfold get_file.
  rewrite (bind_ret_run _ _ _ _ _ Hcached). cbn beta iota.
  reflexivity.
Qed.

(** [get_file] when a sidecar is found. *)
Lemma get_file_cached api_request download_location filename so w etag :
  files w !! etag_path download_location filename = Some etag ->
  get_file api_request download_location filename true so w
  = (server_response <-
       process_api_get (hostname +:+ api_version +:+ api_request)
         [("If-None-Match", etag)] api_request [200%Z; 304%Z] so ;;
     if (status_code server_response =? 304)%Z then
       when verbosity
         (print ("File: " +:+ filename +:+ " was already downloaded")) ;;;
       ret "Current"
     else
       os_remove (etag_path download_location filename) ;;;
       server_response <-
         (if response_ok server_response then ret server_response
          else process_api_get (hostname +:+ api_version +:+ api_request)
                 [] api_request [200%Z] so) ;;
       store_download api_request download_location filename true
                      server_response) w.
Proof.
  intros Hfile.
  assert (Hisfile : isfile (etag_path download_location filename) w
                    = Ret true w).
  { unfold isfile. by rewrite Hfile. }
  assert (Hread : read_file (etag_path download_location filename) w
                  = Ret etag w).
  { unfold read_file. by rewrite Hfile. }
  unfold get_file, store_download, bind. cbn beta iota.
  rewrite Hisfile, Hread.
  destruct (process_api_get _ _ _ _ _ w) as [r w1 | e w1 | c w1 |]; try done.
  destruct (status_code r =? 304)%Z.
  - destruct (when verbosity _ w1) as [[] w2 | e w2 | c w2 |]; done.
  - destruct (os_remove _ w1) as [[] w2 | e w2 | c w2 |]; done.
Qed.


Lemma stored_lookup_body download_location filename etag_checking r fs :
  stored download_location filename etag_checking r fs
    !! (download_location +:+ filename) = Some (content r).
Proof.
  unfold stored. destruct etag_checking.
  - rewrite lookup_insert_ne by apply etag_path_ne_body.
    apply lookup_insert_eq.
  - apply lookup_insert_eq.
Qed.

Lemma os_remove_run p data w :
  files w !! p = Some data ->
  os_remove p w
  = Ret tt (World (delete p (files w)) (dirs w) (net w) (sent w)
                  (stdout w) (token w)).
Proof. intros H. unfold os_remove. by rewrite H. Qed.

Lemma status_200_ok r : status_code r = 200%Z -> response_ok r = true.
Proof. intros H. unfold response_ok. by rewrite H. Qed.

Lemma expected_200_304 (n : Z) :
  n ∈ [200%Z; 304%Z] -> (n =? 304)%Z = false -> n = 200%Z.
Proof.
  intros Hin Hne. apply Z.eqb_neq in Hne.
  apply elem_of_cons in Hin as [-> | Hin]; [done |].
  apply elem_of_cons in Hin as [-> | Hin]; [done |].
  by apply elem_of_nil in Hin.
Qed.

Lemma get_file_uncached_run
    api_request download_location filename etag_checking so w pre r rest :
  etag_checking = false
  \/ files w !! etag_path download_location filename = None ->
  net w = pre ++ Responds r :: rest ->
  Forall (retried [200%Z]) pre ->
  status_code r = 200%Z ->
  (etag_checking = true -> is_Some (header_get (headers r) "ETag")) ->
  exists w',
    get_file api_request download_location filename etag_checking so w
    = Ret "New" w'
    /\ files w' = stored download_location filename etag_checking r (files w)
    /\ net w' = rest
    /\ sent w' = sent w ++ replicate (S (length pre))
                   (get_request so api_request []).
Proof.
  intros Hcase Hnet Hpre Hr Hetag.
  rewrite (get_file_uncached _ _ _ _ _ _ Hcase).
  destruct (process_api_get_delivers
              (hostname +:+ api_version +:+ api_request) [] api_request
              [200%Z] so w pre r rest Hnet Hpre)
    as (w1 & Hget & Hn1 & Hs1 & Hf1 & Hd1 & Ht1).
  { rewrite Hr. by apply list_elem_of_singleton. }
  rewrite (bind_ret_run _ _ _ _ _ Hget).
  destruct (store_download_run api_request download_location filename
              etag_checking r w1)
    as (w2 & Hstore & Hf2 & Hd2 & Hn2 & Hs2 & Ht2).
  exists w2. rewrite Hstore.
  replace (etag_checking
           && bool_decide (header_get (headers r) "ETag" = None))
    with false.
  - rewrite Hf2, Hn2, Hs2, Hf1. done.
  - destruct etag_checking; [| done]. simpl.
    destruct (Hetag eq_refl) as [e ->]. done.
Qed.

(** C5 (amended): a call that returns gives ["Current"] only after a
    sidecar was found and a 304 received, with no file touched, and gives
    ["New"] otherwise, with the body of a 200 response on disk.  When no
    sidecar exists or ETag checking is off, the request is sent without
    condition, only 200 is awaited, the body is written, and ["New"] is
    returned, provided that with ETag checking on the response carries the
    ETag header. *)
Theorem get_file_new_or_current
    api_request download_location filename etag_checking so w :
  (forall v w',
      get_file api_request download_location filename etag_checking so w
      = Ret v w' ->
      (v = "Current" /\ etag_checking = true /\ files w' = files w
       /\ exists etag pre r,
            files w !! etag_path download_location filename = Some etag
            /\ net w = pre ++ Responds r :: net w'
            /\ status_code r = 304%Z)
      \/ (v = "New"
          /\ exists pre r,
               net w = pre ++ Responds r :: net w'
               /\ status_code r = 200%Z
               /\ files w' !! (download_location +:+ filename)
                  = Some (content r)))
  /\ (forall pre r rest,
        etag_checking = false
        \/ files w !! etag_path download_location filename = None ->
        net w = pre ++ Responds r :: rest ->
        Forall (retried [200%Z]) pre ->
        status_code r = 200%Z ->
        (etag_checking = true -> is_Some (header_get (headers r) "ETag")) ->
        exists w',
          get_file api_request download_location filename etag_checking so w
          = Ret "New" w'
          /\ files w' = stored download_location filename etag_checking r
                               (files w)
          /\ net w' = rest
          /\ sent w' = sent w ++ replicate (S (length pre))
                         (get_request so api_request [])).
Proof.
  split.
  - intros v w' Hrun.
    destruct (decide (etag_checking = true
                      /\ is_Some (files w !! etag_path download_location
                                                       filename)))
      as [[-> [etag Hfile]] | Hno].
    + rewrite (get_file_cached _ _ _ _ _ _ Hfile) in Hrun.
      apply bind_ret_inv in Hrun as (r & w1 & Hget & Hrun).
      apply process_api_get_inv in Hget
        as (pre & Hnet & Hpre & Hr & Hs1 & Hf1 & Hd1 & Ht1).
      destruct (status_code r =? 304)%Z eqn:Hst.
      * destruct (when_print_run verbosity
                    ("File: " +:+ filename +:+ " was already downloaded") w1)
          as (w2 & Hprint & Hf2 & Hd2 & Hn2 & Hs2 & Ht2).
        rewrite (bind_ret_run _ _ _ _ _ Hprint) in Hrun.
        injection Hrun as <- <-. left.
        repeat split; [congruence |].
        exists etag, pre, r. rewrite Hn2.
        by apply Z.eqb_eq in Hst.
      * pose proof (expected_200_304 _ Hr Hst) as H200.
        rewrite (bind_ret_run _ _ _ _ _
                   (os_remove_run _ etag w1 ltac:(by rewrite Hf1))) in Hrun.
        rewrite (status_200_ok _ H200) in Hrun.
        rewrite (bind_ret_run _ _ _ r _ eq_refl) in Hrun.
        destruct (store_download_run api_request download_location filename
                    true r
                    (World (delete (etag_path download_location filename)
                                   (files w1))
                           (dirs w1) (net w1) (sent w1) (stdout w1)
                           (token w1)))
          as (w2 & Hstore & Hf2 & Hd2 & Hn2 & Hs2 & Ht2).
        rewrite Hstore in Hrun.
        destruct (true && bool_decide (header_get (headers r) "ETag" = None));
          [done |].
        injection Hrun as <- <-. right. split; [done |].
        exists pre, r. rewrite Hn2, Hf2.
        split; [done |]. split; [done |]. apply stored_lookup_body.
    + rewrite get_file_uncached in Hrun; last first.
      { destruct etag_checking; [right | by left].
        destruct (files w !! _) eqn:E; [| done].
        exfalso. apply Hno. eauto. }
      apply bind_ret_inv in Hrun as (r & w1 & Hget & Hrun).
      apply process_api_get_inv in Hget
        as (pre & Hnet & Hpre & Hr & Hs1 & Hf1 & Hd1 & Ht1).
      destruct (store_download_run api_request download_location filename
                  etag_checking r w1)
        as (w2 & Hstore & Hf2 & Hd2 & Hn2 & Hs2 & Ht2).
      rewrite Hstore in Hrun.
      destruct (etag_checking
                && bool_decide (header_get (headers r) "ETag" = None));
        [done |].
      injection Hrun as <- <-. right. split; [done |].
      exists pre, r. rewrite Hn2, Hf2.
      split; [done |]. split; [by apply list_elem_of_singleton in Hr |].
      apply stored_lookup_body.
  - intros pre r rest Hcase Hnet Hpre Hr Hetag.
    by apply get_file_uncached_run.
Qed.

(** C9 (amended): with ETag checking on, the body is written first and the
    sidecar is then opened for writing before the ETag header is read
    without a guard.  When the 200 response has no ETag header the call
    raises [KeyError] with the body on disk and the sidecar present but
    empty; every other file is as it was. *)
Theorem get_file_missing_etag
    api_request download_location filename so w pre r rest :
  net w = pre ++ Responds r :: rest ->
  Forall (retried
            (if bool_decide
                  (is_Some (files w !! etag_path download_location filename))
             then [200%Z; 304%Z] else [200%Z])) pre ->
  status_code r = 200%Z ->
  header_get (headers r) "ETag" = None ->
  exists w',
    get_file api_request download_location filename true so w
    = Raise (KeyError "etag") w'
    /\ files w' !! (download_location +:+ filename) = Some (content r)
    /\ files w' !! etag_path download_location filename = Some ""
    /\ (forall p, p <> download_location +:+ filename ->
                  p <> etag_path download_location filename ->
                  files w' !! p = files w !! p)
    /\ dirs w' = dirs w /\ net w' = rest.
Proof.
  intros Hnet Hpre Hr Hetag.
  destruct (files w !! etag_path download_location filename)
    as [etag |] eqn:Hfile.
  - rewrite bool_decide_eq_true_2 in Hpre by eauto.
    rewrite (get_file_cached _ _ _ _ _ _ Hfile).
    destruct (process_api_get_delivers
                (hostname +:+ api_version +:+ api_request)
                [("If-None-Match", etag)] api_request [200%Z; 304%Z] so w
                pre r rest Hnet Hpre)
      as (w1 & Hget & Hn1 & Hs1 & Hf1 & Hd1 & Ht1).
    { rewrite Hr. apply elem_of_cons. by left. }
    rewrite (bind_ret_run _ _ _ _ _ Hget). rewrite Hr.
    change (200 =? 304)%Z with false. cbn beta iota.
    rewrite (bind_ret_run _ _ _ _ _
               (os_remove_run _ etag w1 ltac:(by rewrite Hf1))).
    rewrite (status_200_ok _ Hr).
    rewrite (bind_ret_run _ _ _ r _ eq_refl).
    destruct (store_download_run api_request download_location filename
                true r
                (World (delete (etag_path download_location filename)
                               (files w1))
                       (dirs w1) (net w1) (sent w1) (stdout w1) (token w1)))
      as (w2 & Hstore & Hf2 & Hd2 & Hn2 & Hs2 & Ht2).
    rewrite Hstore, Hetag. simpl in Hf2, Hd2, Hn2.
    exists w2. split; [done |].
    rewrite Hf2, Hd2, Hn2, Hf1. unfold stored. rewrite Hetag. simpl.
    split; [| split; [| split]].
    + rewrite lookup_insert_ne by apply etag_path_ne_body.
      apply lookup_insert_eq.
    + apply lookup_insert_eq.
    + intros p Hp1 Hp2.
      rewrite !lookup_insert_ne by done. by rewrite lookup_delete_ne.
    + done.
  - rewrite bool_decide_eq_false_2 in Hpre by (by intros [? ?]).
    rewrite (get_file_uncached _ _ _ _ _ _ (or_intror Hfile)).
    destruct (process_api_get_delivers
                (hostname +:+ api_version +:+ api_request) [] api_request
                [200%Z] so w pre r rest Hnet Hpre)
      as (w1 & Hget & Hn1 & Hs1 & Hf1 & Hd1 & Ht1).
    { rewrite Hr. by apply list_elem_of_singleton. }
    rewrite (bind_ret_run _ _ _ _ _ Hget).
    destruct (store_download_run api_request download_location filename
                true r w1)
      as (w2 & Hstore & Hf2 & Hd2 & Hn2 & Hs2 & Ht2).
    rewrite Hstore, Hetag. simpl.
    exists w2. split; [done |].
    rewrite Hf2, Hd2, Hn2, Hf1. unfold stored. rewrite Hetag. simpl.
    split; [| split; [| split]].
    + rewrite lookup_insert_ne by apply etag_path_ne_body.
      apply lookup_insert_eq.
    + apply lookup_insert_eq.
    + intros p Hp1 Hp2. by rewrite !lookup_insert_ne by done.
    + done.
Qed.


(** ** The image and its QC document *)

(** C6: in the flat layout the QC document of an image is fetched by one
    call of [get_file] without ETag checking when the image came back
    ["New"], and is not fetched at all when it came back ["Current"]. *)
Theorem minc_fetch_image_qc cid visit name so w :
  let location := base_directory +:+ py_str cid +:+ "/" +:+ visit +:+ "/" in
  let image_request :=
    "/candidates/" +:+ py_str cid +:+ "/" +:+ visit +:+ "/images/" +:+ name in
  let qc_request :=
    "/candidates/" +:+ py_str cid +:+ "/" +:+ visit +:+ "/images/" +:+ name
    +:+ "/qc" in
  (forall w1,
      get_file image_request location name true so w = Ret "Current" w1 ->
      minc_fetch_image cid visit (JStr name) so w = Ret tt w1)
  /\ (forall w1,
        get_file image_request location name true so w = Ret "New" w1 ->
        minc_fetch_image cid visit (JStr name) so w
        = (get_file qc_request location (name +:+ ".qc.json") false so ;;;
           ret tt) w1
        /\ forall pre r rest,
            net w1 = pre ++ Responds r :: rest ->
            Forall (retried [200%Z]) pre ->
            status_code r = 200%Z ->
            exists w2,
              minc_fetch_image cid visit (JStr name) so w = Ret tt w2
              /\ net w2 = rest
              /\ sent w2 = sent w1 ++ replicate (S (length pre))
                             (get_request so qc_request [])
              /\ files w2 = <[location +:+ name +:+ ".qc.json" := content r]>
                              (files w1)).
Proof.
  intros location image_request qc_request. split.
  - intros w1 Himage. unfold minc_fetch_image.
    rewrite (bind_ret_run _ _ _ name w eq_refl).
    fold location image_request.
    by rewrite (bind_ret_run _ _ _ _ _ Himage).
  - intros w1 Himage.
    assert (Hstep : minc_fetch_image cid visit (JStr name) so w
                    = (get_file qc_request location (name +:+ ".qc.json")
                                false so ;;; ret tt) w1).
    { unfold minc_fetch_image.
      rewrite (bind_ret_run _ _ _ name w eq_refl).
      fold location image_request.
      rewrite (bind_ret_run _ _ _ _ _ Himage).
      by rewrite bool_decide_eq_true_2 by done. }
    split; [exact Hstep |].
    intros pre r rest Hnet Hpre Hr.
    destruct (get_file_uncached_run qc_request location
                (name +:+ ".qc.json") false so w1 pre r rest
                (or_introl eq_refl) Hnet Hpre Hr)
      as (w2 & Hqc & Hf2 & Hn2 & Hs2); [done |].
    exists w2. rewrite Hstep, (bind_ret_run _ _ _ _ _ Hqc).
    split; [done |]. split; [done |]. split; [done |].
    by rewrite Hf2.
Qed.


(** ** Visits without images *)

Lemma minc_filter_inv :
  forall vs w kept w',
    minc_filter vs w = Ret kept w' ->
    w' = w
    /\ Forall (fun kv => exists n ns, Filenames kv.2 = Some (n :: ns)) kept
    /\ kept ⊆ vs.
Proof.
  induction vs as [| [key val] vs IH]; intros w kept w' Hrun; simpl in Hrun.
  - injection Hrun as <- <-. split; [done |]. split; [constructor | done].
  - apply bind_ret_inv in Hrun as (names & w1 & Hnames & Hrun).
    apply bind_ret_inv in Hrun as (kept' & w2 & Hkept & Hrun).
    injection Hrun as <- <-.
    destruct (Filenames val) as [names' |] eqn:Hval; [| done].
    injection Hnames as Hn Hw. subst names w1.
    destruct (IH _ _ _ Hkept) as (-> & Hall & Hsub).
    split; [done |].
    destruct names' as [| n ns].
    + split; [done |]. intros x Hx. apply elem_of_cons. right. by apply Hsub.
    + split.
      * constructor; [| done]. simpl. eauto.
      * intros x Hx. apply elem_of_cons in Hx as [-> | Hx].
        -- apply elem_of_cons. by left.
        -- apply elem_of_cons. right. by apply Hsub.
Qed.

Lemma minc_filter_all_empty :
  forall vs w,
    Forall (fun kv => Filenames kv.2 = Some []) vs ->
    minc_filter vs w = Ret [] w.
Proof.
  induction vs as [| [key val] vs IH]; intros w Hall; simpl; [done |].
  apply Forall_cons in Hall as [Hval Hall]. simpl in Hval.
  rewrite Hval. unfold bind. simpl. by rewrite (IH w Hall).
Qed.

Lemma write_candidate_json_keeps_dirs candidate :
  preserves dirs (write_candidate_json candidate).
Proof. unfold write_candidate_json, with_open_w, candidate_projection. frame. Qed.

Lemma getitem_pure j key w :
  getitem j key w = match j with
                    | JObj fields =>
                        match dict_get fields key with
                        | Some v => Ret v w
                        | None => Raise (KeyError key) w
                        end
                    | _ => Raise TypeError w
                    end.
Proof. destruct j; try done. simpl. by destruct (dict_get fields key). Qed.

Lemma minc_materialize_nil_dirs candidate so w :
  post (minc_materialize candidate [] so) w
       (fun w' =>
          dirs w ⊆ dirs w'
          /\ forall cid,
               getitem candidate "CandID" w = Ret cid w ->
               dirs w' ⊆ {[base_directory +:+ "/" +:+ py_str cid]} ∪ dirs w).
Proof using Type.
  unfold post, minc_materialize. unfold bind at 1.
  rewrite getitem_pure.
  destruct candidate as [| | | | | fields];
    try (split; [done | intros cid H; discriminate H]).
  destruct (dict_get fields "CandID") as [cid |] eqn:Hcid;
    [| split; [done | intros cid H; discriminate H]].
  unfold bind at 1. unfold path_exists at 1.
  set (present := _ || _).
  unfold bind at 1.
  assert (Hmk : exists w1,
             when (negb present)
                  (makedirs (base_directory +:+ "/" +:+ py_str cid)) w
             = Ret tt w1
             /\ dirs w ⊆ dirs w1
             /\ dirs w1 ⊆ {[base_directory +:+ "/" +:+ py_str cid]} ∪ dirs w).
  { destruct present; simpl; eexists; (split; [reflexivity |]); simpl.
    - split; [done | apply union_subseteq_r].
    - split; [apply union_subseteq_r | done]. }
  destruct Hmk as (w1 & -> & Hlow & Hup).
  unfold bind at 1.
  pose proof (write_candidate_json_keeps_dirs (JObj fields) w1) as Hw.
  unfold post in Hw.
  destruct (write_candidate_json (JObj fields) w1) as [[] w2 | e w2 | c w2 |];
    [| | | done].
  - simpl. rewrite Hw. split; [done |]. by intros cid' [= <-].
  - rewrite Hw. split; [done |]. by intros cid' [= <-].
  - rewrite Hw. split; [done |]. by intros cid' [= <-].
Qed.


Lemma dict_get_of_elem {V} (d : list (string * V)) k x :
  NoDup (dict_keys d) -> (k, x) ∈ d -> dict_get d k = Some x.
Proof.
  unfold dict_keys. induction d as [| [k0 x0] d IH]; intros Hnodup Hin.
  - by apply elem_of_nil in Hin.
  - rewrite fmap_cons in Hnodup. apply NoDup_cons in Hnodup as [Hk0 Hnodup].
    simpl. apply elem_of_cons in Hin as [[= -> ->] | Hin].
    + by rewrite decide_True.
    + rewrite decide_False; [by apply IH |].
      intros ->. apply Hk0. apply list_elem_of_fmap. by exists (k, x).
Qed.

Lemma has_files_spec kv :
  has_files kv = true <-> exists n ns, Filenames kv.2 = Some (n :: ns).
Proof.
  unfold has_files. destruct (Filenames kv.2) as [[| n ns] |].
  - split; [done | by intros (? & ? & ?)].
  - split; [eauto | done].
  - split; [done | by intros (? & ? & ?)].
Qed.

Lemma minc_filter_total :
  forall vs w,
    Forall (fun kv => is_Some (Filenames kv.2)) vs ->
    minc_filter vs w = Ret (List.filter has_files vs) w.
Proof.
  induction vs as [| [key val] vs IH]; intros w Hall; [done |].
  apply Forall_cons in Hall as [[names Hval] Hall]. simpl in Hval.
  cbn [minc_filter List.filter]. unfold has_files at 1. simpl.
  rewrite Hval. unfold bind. simpl. rewrite (IH w Hall).
  by destruct names.
Qed.

(** The loop that appends the file names of one visit. *)
Lemma minc_append_names visit :
  forall visit_files vs w vs' w',
    filled vs visit ->
    fold_each visit_files
      (fun vs visit_file =>
         name <- getitem visit_file "Filename" ;;
         entry <- lift_opt (KeyError visit) (dict_get vs visit) ;;
         names <- lift_opt (KeyError "Filenames") (Filenames entry) ;;
         ret (dict_set vs visit
                (MincVisit (visit_json entry) (Some (names ++ [name])))))
      vs w
    = Ret vs' w' ->
    dict_keys vs' = dict_keys vs
    /\ filled vs' visit
    /\ forall k, k <> visit -> dict_get vs' k = dict_get vs k.
Proof.
  induction visit_files as [| visit_file visit_files IH];
    intros vs w vs' w' Hfilled Hrun; simpl in Hrun.
  - by injection Hrun as <- <-.
  - apply bind_ret_inv in Hrun as (vs1 & w1 & Hbody & Hrun).
    apply bind_ret_inv in Hbody as (name & w2 & _ & Hbody).
    destruct Hfilled as (entry & names & Hentry & Hnames).
    rewrite Hentry in Hbody. simpl in Hbody.
    rewrite (bind_ret_run (ret entry) _ w2 entry w2 eq_refl) in Hbody.
    rewrite Hnames in Hbody. simpl in Hbody.
    rewrite (bind_ret_run (ret names) _ w2 names w2 eq_refl) in Hbody.
    injection Hbody as <- <-.
    apply IH in Hrun as (Hkeys & Hfilled' & Hother).
    2: { eexists _, _. rewrite dict_get_set, decide_True by done. done. }
    split; [| split; [done |]].
    + rewrite Hkeys, dict_keys_set. by rewrite Hentry.
    + intros k Hk. rewrite Hother by done.
      rewrite dict_get_set. by rewrite decide_False.
Qed.

Lemma minc_query_visit_inv cid so vs visit w vs' w' :
  minc_query_visit cid so vs visit w = Ret vs' w' ->
  dict_keys vs' = dict_keys vs
  /\ filled vs' visit
  /\ forall k, k <> visit -> dict_get vs' k = dict_get vs k.
Proof.
  intros Hrun. unfold minc_query_visit in Hrun.
  apply bind_ret_inv in Hrun as (session_json & w1 & _ & Hrun).
  apply bind_ret_inv in Hrun as (entry & w2 & Hentry & Hrun).
  destruct (dict_get vs visit) as [entry0 |] eqn:Hvs; [| done].
  injection Hentry as <- <-.
  apply bind_ret_inv in Hrun as (images_json & w3 & _ & Hrun).
  rewrite dict_get_set, decide_True in Hrun by done. simpl in Hrun.
  rewrite (bind_ret_run (ret _) _ w3 _ w3 eq_refl) in Hrun.
  apply bind_ret_inv in Hrun as (files_json & w4 & _ & Hrun).
  apply bind_ret_inv in Hrun as (visit_files & w5 & _ & Hrun).
  apply minc_append_names in Hrun as (Hkeys & Hfilled & Hother).
  - split; [| split; [done |]].
    + rewrite Hkeys, !dict_keys_set.
      rewrite dict_get_set, decide_True by done. by rewrite Hvs.
    + intros k Hk. rewrite Hother by done.
      rewrite !dict_get_set. by rewrite !decide_False.
  - eexists _, _. rewrite dict_get_set, decide_True by done. done.
Qed.

Lemma minc_query_visits_inv cid so :
  forall visits vs w vs' w',
    fold_each visits (minc_query_visit cid so) vs w = Ret vs' w' ->
    dict_keys vs' = dict_keys vs
    /\ (forall k, k ∈ visits -> filled vs' k)
    /\ (forall k, filled vs k -> filled vs' k).
Proof.
  induction visits as [| visit visits IH]; intros vs w vs' w' Hrun;
    simpl in Hrun.
  - injection Hrun as <- <-. split; [done |]. split; [| done].
    intros k Hk. by apply elem_of_nil in Hk.
  - apply bind_ret_inv in Hrun as (vs1 & w1 & Hstep & Hrun).
    apply minc_query_visit_inv in Hstep as (Hkeys1 & Hfilled1 & Hother1).
    apply IH in Hrun as (Hkeys & Hin & Hkeep).
    split; [congruence |]. split.
    + intros k [-> | Hk]%elem_of_cons; [by apply Hkeep | by apply Hin].
    + intros k Hk. apply Hkeep.
      destruct (decide (k = visit)) as [-> | Hne]; [done |].
      destruct Hk as (entry & names & Hentry & Hnames).
      exists entry, names. by rewrite Hother1.
Qed.

Lemma empty_visits_keys (visits : list string) :
  forall d : list (string * minc_visit),
    NoDup (dict_keys d) ->
    NoDup (dict_keys (foldl (fun d visit =>
                               dict_set d visit (MincVisit None None))
                            d visits))
    /\ forall k,
         k ∈ dict_keys (foldl (fun d visit =>
                                 dict_set d visit (MincVisit None None))
                              d visits) ->
         k ∈ dict_keys d \/ k ∈ visits.
Proof.
  induction visits as [| visit visits IH]; intros d Hd; simpl.
  - split; [done | by left].
  - destruct (IH (dict_set d visit (MincVisit None None))
                 (dict_set_NoDup _ _ _ Hd)) as [Hnodup Hkeys].
    split; [done |]. intros k Hk. apply Hkeys in Hk as [Hk | Hk].
    + rewrite dict_keys_set in Hk.
      destruct (dict_get d visit); [by left |].
      apply elem_of_app in Hk as [Hk | ->%list_elem_of_singleton];
        [by left | right; by left].
    + right. by right.
Qed.

(** After the queries every visit has its list of file names. *)
Lemma minc_query_filled candidate so w queried w1 :
  minc_query candidate so w = Ret queried w1 ->
  Forall (fun kv => is_Some (Filenames kv.2)) queried.
Proof.
  intros Hrun. unfold minc_query in Hrun.
  apply bind_ret_inv in Hrun as (cid & w2 & _ & Hrun).
  apply bind_ret_inv in Hrun as (doc & w3 & _ & Hrun).
  apply bind_ret_inv in Hrun as (visits_json & w4 & _ & Hrun).
  apply bind_ret_inv in Hrun as (visit_items & w5 & _ & Hrun).
  apply bind_ret_inv in Hrun as (visits & w6 & _ & Hrun).
  destruct (empty_visits_keys visits [] (NoDup_nil_2)) as [Hnodup Hkeys].
  apply minc_query_visits_inv in Hrun as (Hsame & Hin & _).
  apply Forall_forall. intros [k entry] Hentry. simpl.
  assert (Hk : k ∈ visits).
  { destruct (Hkeys k) as [Hk | Hk]; [| by apply elem_of_nil in Hk | done].
    rewrite <- Hsame. apply list_elem_of_fmap. by exists (k, entry). }
  destruct (Hin k Hk) as (entry' & names & Hget & Hnames).
  rewrite (dict_get_of_elem queried k entry) in Hget.
  - injection Hget as <-. eauto.
  - by rewrite Hsame.
  - done.
Qed.

Lemma minc_query_keeps_dirs candidate so :
  preserves dirs (minc_query candidate so).
Proof. unfold minc_query, minc_query_visit. frame. Qed.

Lemma minc_materialize_nil_keeps_sent candidate so :
  preserves sent (minc_materialize candidate [] so).
Proof.
  unfold minc_materialize, write_candidate_json, with_open_w,
    candidate_projection. simpl. frame.
Qed.

Lemma process_minc_func_unfold candidate w queried w1 :
  minc_query candidate
    (Session [("Authorization", "Bearer " +:+ py_str (token w))]) w
  = Ret queried w1 ->
  process_minc_func candidate w
  = (vs <- minc_filter queried ;;
     minc_materialize candidate vs
       (Session [("Authorization", "Bearer " +:+ py_str (token w))]) ;;;
     ret (MincCandidate candidate vs)) w1.
Proof.
  intros Hq. unfold process_minc_func.
  rewrite (bind_ret_run new_session _ w _ w eq_refl).
  by rewrite (bind_ret_run _ _ _ _ _ Hq).
Qed.

Lemma pure_ret {A} (a : A) : pure (ret a).
Proof. by exists (inr a). Qed.

Lemma pure_raise {A} e : pure (@raise A e).
Proof. by exists (inl e). Qed.

Lemma pure_bind {A B} (m : M A) (k : A -> M B) :
  pure m -> (forall a, pure (k a)) -> pure (bind m k).
Proof.
  intros [[e | a] Hm] Hk.
  - exists (inl e). intros w. unfold bind. by rewrite Hm.
  - destruct (Hk a) as [v Hv]. exists v. intros w.
    unfold bind. by rewrite Hm, Hv.
Qed.

Lemma pure_lift_opt {A} e (o : option A) : pure (lift_opt e o).
Proof. destruct o; [apply pure_ret | apply pure_raise]. Qed.

Lemma pure_getitem j key : pure (getitem j key).
Proof. destruct j; simpl; try apply pure_raise. apply pure_lift_opt. Qed.

Lemma pure_as_str j : pure (as_str j).
Proof. destruct j; simpl; first [apply pure_raise | apply pure_ret]. Qed.

Lemma pure_py_iter j : pure (py_iter j).
Proof. destruct j; simpl; first [apply pure_raise | apply pure_ret]. Qed.

Lemma pure_map_each {A B} (f : A -> M B) xs :
  (forall x, pure (f x)) -> pure (map_each f xs).
Proof.
  intros Hf. induction xs as [| x xs IH]; simpl; [apply pure_ret |].
  apply pure_bind; [done |]. intros y.
  apply pure_bind; [done |]. intros ys. apply pure_ret.
Qed.

Lemma pure_fold_each {A S} (xs : list A) (body : S -> A -> M S) :
  (forall s x, pure (body s x)) -> forall s, pure (fold_each xs body s).
Proof.
  intros Hbody. induction xs as [| x xs IH]; intros s; simpl;
    [apply pure_ret |].
  apply pure_bind; auto.
Qed.

Lemma pure_run {A} (m : M A) a w w1 :
  pure m -> m w = Ret a w1 -> w1 = w /\ forall w', m w' = Ret a w'.
Proof.
  intros [[e | a'] Hm] Hrun; rewrite Hm in Hrun; [done |].
  injection Hrun as -> ->. split; [done |]. intros w'. by rewrite Hm.
Qed.

Ltac purity_step :=
  match goal with
  | |- pure (bind _ _) => apply pure_bind; [| intros ?]
  | |- pure (ret _) => apply pure_ret
  | |- pure (raise _) => apply pure_raise
  | |- pure (lift_opt _ _) => apply pure_lift_opt
  | |- pure (getitem _ _) => apply pure_getitem
  | |- pure (as_str _) => apply pure_as_str
  | |- pure (py_iter _) => apply pure_py_iter
  | |- pure (map_each _ _) => apply pure_map_each; intros ?
  | |- pure (fold_each _ _ _) => apply pure_fold_each; intros ? ?
  | |- pure (if ?b then _ else _) => destruct b
  | |- pure (match ?x with _ => _ end) => destruct x
  end.

Ltac purity := repeat purity_step.

Lemma candidate_projection_pure candidate : pure (candidate_projection candidate).
Proof. unfold candidate_projection. purity. Qed.

Lemma minc_materialize_nil_returns candidate so cid projection w :
  getitem candidate "CandID" w = Ret cid w ->
  candidate_projection candidate w = Ret projection w ->
  exists w', minc_materialize candidate [] so w = Ret tt w'.
Proof.
  intros Hcid Hproj.
  assert (Hcid' : forall w0, getitem candidate "CandID" w0 = Ret cid w0).
  { intros w0. rewrite getitem_pure in Hcid |- *.
    destruct candidate; try done.
    destruct (dict_get fields "CandID"); [| done]. by injection Hcid as ->. }
  unfold minc_materialize.
  rewrite (bind_ret_run _ _ _ _ _ (Hcid' w)).
  unfold bind at 1. unfold path_exists at 1.
  set (present := _ || _).
  assert (Hmk : exists w1,
             when (negb present)
                  (makedirs (base_directory +:+ "/" +:+ py_str cid)) w
             = Ret tt w1).
  { destruct present; simpl; by eexists. }
  destruct Hmk as (w1 & Hmk).
  rewrite (bind_ret_run _ _ _ _ _ Hmk).
  unfold write_candidate_json.
  unfold bind at 1. rewrite (bind_ret_run _ _ _ _ _ (Hcid' w1)).
  unfold with_open_w. unfold bind at 1. unfold put_file at 1.
  unfold bind at 1. unfold bind at 1.
  destruct (pure_run _ _ _ _ (candidate_projection_pure candidate) Hproj)
    as [_ Hproj'].
  rewrite Hproj'. simpl. by eexists.
Qed.

(** C7: once the queries are made, filtering never fails and keeps exactly
    the visits with at least one file name, so the visits of a processed
    candidate all have one; when every queried visit has none, no visit is
    kept and the only directory the call can add is the one of the
    candidate, with no request sent after the queries; the call returns as
    soon as the candidate document has the properties written to
    [candidate.json]. *)
Theorem process_minc_func_drops_empty_visits candidate w :
  let so := Session [("Authorization", "Bearer " +:+ py_str (token w))] in
  (forall queried w1,
      minc_query candidate so w = Ret queried w1 ->
      minc_filter queried w1 = Ret (List.filter has_files queried) w1
      /\ Forall (fun kv => exists n ns, Filenames kv.2 = Some (n :: ns))
                (List.filter has_files queried))
  /\ (forall c w',
        process_minc_func candidate w = Ret c w' ->
        Forall (fun kv => exists n ns, Filenames kv.2 = Some (n :: ns))
               (minc_Visits c))
  /\ (forall queried w1 cid,
        minc_query candidate so w = Ret queried w1 ->
        Forall (fun kv => Filenames kv.2 = Some []) queried ->
        getitem candidate "CandID" w = Ret cid w ->
        post (process_minc_func candidate) w
             (fun w' =>
                dirs w ⊆ dirs w'
                /\ dirs w' ⊆ {[base_directory +:+ "/" +:+ py_str cid]} ∪ dirs w
                /\ sent w' = sent w1)
        /\ ((exists projection,
                candidate_projection candidate w1 = Ret projection w1) ->
            exists w',
              process_minc_func candidate w
              = Ret (MincCandidate candidate []) w')).
Proof using Type.
  intros so. split; [| split].
  - intros queried w1 Hq. split.
    + apply minc_filter_total. by apply minc_query_filled in Hq.
    + apply Forall_forall. intros kv Hkv.
      apply list_elem_of_In, filter_In in Hkv as [_ Hkv].
      by apply has_files_spec.
  - intros c w' Hrun. unfold process_minc_func in Hrun.
    apply bind_ret_inv in Hrun as (so' & w0 & _ & Hrun).
    apply bind_ret_inv in Hrun as (queried & w1 & _ & Hrun).
    apply bind_ret_inv in Hrun as (vs & w2 & Hfilter & Hrun).
    apply bind_ret_inv in Hrun as ([] & w3 & _ & Hrun).
    injection Hrun as <- <-. simpl.
    by apply minc_filter_inv in Hfilter as (_ & Hall & _).
  - intros queried w1 cid Hq Hempty Hcid.
    pose proof (process_minc_func_unfold _ _ _ _ Hq) as Hunfold.
    fold so in Hunfold.
    rewrite (bind_ret_run _ _ _ _ _ (minc_filter_all_empty _ w1 Hempty))
      in Hunfold.
    pose proof (minc_query_keeps_dirs candidate so w) as Hd1.
    unfold post in Hd1. rewrite Hq in Hd1.
    assert (Hcid1 : getitem candidate "CandID" w1 = Ret cid w1).
    { rewrite getitem_pure in Hcid |- *.
      destruct candidate; try done.
      destruct (dict_get fields "CandID"); [| done]. by injection Hcid as ->. }
    split.
    + pose proof (minc_materialize_nil_dirs candidate so w1) as Hdirs.
      pose proof (minc_materialize_nil_keeps_sent candidate so w1) as Hsent.
      unfold post in Hdirs, Hsent |- *. rewrite Hunfold. unfold bind.
      destruct (minc_materialize candidate [] so w1)
        as [[] w2 | e w2 | c w2 |]; [| | | done].
      all: destruct Hdirs as [Hlow Hup]; specialize (Hup cid Hcid1).
      all: rewrite Hd1 in Hlow, Hup; simpl; done.
    + intros [projection Hproj].
      destruct (minc_materialize_nil_returns candidate so cid projection w1
                  Hcid1 Hproj) as (w2 & Hmat).
      exists w2. rewrite Hunfold.
      by rewrite (bind_ret_run _ _ _ _ _ Hmat).
Qed.


(** ** candidate.json *)

Lemma map_each_getitem fields w :
  forall keys values,
    Forall2 (fun k v => dict_get fields k = Some v) keys values ->
    map_each (fun property_key =>
                v <- getitem (JObj fields) property_key ;;
                ret (property_key, v)) keys w
    = Ret (zip keys values) w.
Proof.
  induction 1 as [| k v keys values Hk _ IH]; [done |].
  cbn [map_each zip zip_with].
  rewrite (bind_ret_run (v0 <- getitem (JObj fields) k ;; ret (k, v0)) _
                        w (k, v) w).
  - by rewrite (bind_ret_run _ _ _ _ _ IH).
  - unfold bind. simpl. by rewrite Hk.
Qed.

(** C2 (amended): [candidate.json] receives the text Python prints for the
    dictionary of exactly the seven properties CandID, PSCID, Site, DoB,
    Gender, Language and Project of the candidate, in this order, and of
    no other property. *)
Theorem candidate_json_holds_seven_properties fields cid values w :
  dict_get fields "CandID" = Some cid ->
  Forall2 (fun k v => dict_get fields k = Some v)
          ["CandID"; "PSCID"; "Site"; "DoB"; "Gender"; "Language"; "Project"]
          values ->
  exists w',
    write_candidate_json (JObj fields) w = Ret tt w'
    /\ files w'
       = <[base_directory +:+ "/" +:+ py_str cid +:+ "/candidate.json" :=
             py_repr (JObj (zip ["CandID"; "PSCID"; "Site"; "DoB"; "Gender";
                                 "Language"; "Project"] values))]> (files w)
    /\ dirs w' = dirs w /\ net w' = net w /\ sent w' = sent w.
Proof.
  intros Hcid Hvalues.
  assert (Hget : getitem (JObj fields) "CandID" w = Ret cid w).
  { simpl. by rewrite Hcid. }
  unfold write_candidate_json.
  rewrite (bind_ret_run _ _ _ _ _ Hget).
  unfold with_open_w.
  set (path := base_directory +:+ "/" +:+ py_str cid +:+ "/candidate.json").
  set (w1 := World (<[path := ""]> (files w)) (dirs w) (net w) (sent w)
                   (stdout w) (token w)).
  rewrite (bind_ret_run (put_file path "") _ w tt w1 eq_refl).
  assert (Hdata :
            (projection <- candidate_projection (JObj fields) ;;
             ret (py_str projection)) w1
            = Ret (py_repr (JObj (zip candidate_properties values))) w1).
  { assert (Hproj : candidate_projection (JObj fields) w1
                    = Ret (JObj (zip candidate_properties values)) w1).
    { unfold candidate_projection.
      by rewrite (bind_ret_run _ _ _ _ _
                    (map_each_getitem fields w1 _ _ Hvalues)). }
    by rewrite (bind_ret_run _ _ _ _ _ Hproj). }
  rewrite (bind_ret_run _ _ _ _ _ Hdata).
  eexists. split; [reflexivity |]. simpl.
  by rewrite insert_insert_eq.
Qed.


(** ** candidate_argument_checker *)

(** C10: the checker returns [n] exactly when the argument reads as an
    integer [n] with 1000000 < n < 9999999; an argument that is no integer
    and an integer at or below 1000000 or at or above 9999999 raise
    [ArgumentTypeError], the bounds 1000000 and 9999999 included. *)
Theorem candidate_argument_checker_range candID w :
  (forall n w',
      candidate_argument_checker candID w = Ret n w'
      <-> w' = w /\ py_int candID = Some n
          /\ (1000000 < n < 9999999)%Z)
  /\ (py_int candID = None ->
      exists msg,
        candidate_argument_checker candID w = Raise (ArgumentTypeError msg) w)
  /\ (forall n,
        py_int candID = Some n ->
        (n <= 1000000 \/ 9999999 <= n)%Z ->
        exists msg,
          candidate_argument_checker candID w
          = Raise (ArgumentTypeError msg) w)
  /\ (py_int candID = Some 1000000%Z \/ py_int candID = Some 9999999%Z ->
      exists msg,
        candidate_argument_checker candID w
        = Raise (ArgumentTypeError msg) w).
Proof.
  assert (Hout : forall n,
             py_int candID = Some n ->
             (n <= 1000000 \/ 9999999 <= n)%Z ->
             exists msg,
               candidate_argument_checker candID w
               = Raise (ArgumentTypeError msg) w).
  { intros n Hn Hrange. unfold candidate_argument_checker. rewrite Hn.
    destruct ((n >=? 9999999)%Z || (n <=? 1000000)%Z) eqn:Hb; [by eexists |].
    apply orb_false_iff in Hb as [H1 H2]. lia. }
  split; [| split; [| split]].
  - intros n w'. unfold candidate_argument_checker.
    destruct (py_int candID) as [m |]; [| by split; [| intros (_ & ? & _)]].
    destruct ((m >=? 9999999)%Z || (m <=? 1000000)%Z) eqn:Hb.
    + split; [done |]. intros (_ & [= ->] & Hrange).
      apply orb_true_iff in Hb as [H1 | H2]; lia.
    + apply orb_false_iff in Hb as [H1 H2]. split.
      * intros [= -> ->]. split; [done |]. split; [done |]. lia.
      * by intros (-> & [= ->] & _).
  - intros Hnone. unfold candidate_argument_checker. rewrite Hnone.
    by eexists.
  - exact Hout.
  - intros [H | H]; apply (Hout _ H); lia.
Qed.

(** ** The requested candidates *)

Lemma filter_each_none {C} (cand_id : C -> M json) w :
  forall candidates,
    Forall (fun c => exists cid n,
                cand_id c w = Ret cid w /\ int_of cid w = Ret n w
                /\ n ∉ specified_candidates) candidates ->
    filter_each (fun candidate =>
                   cid <- cand_id candidate ;;
                   n <- int_of cid ;;
                   ret (bool_decide (n ∈ specified_candidates)))
                candidates w
    = Ret [] w.
Proof.
  induction 1 as [| c candidates (cid & n & Hcid & Hn & Hnot) _ IH];
    [done |].
  cbn [filter_each].
  rewrite (bind_ret_run (cid0 <- cand_id c ;; n0 <- int_of cid0 ;;
                         ret (bool_decide (n0 ∈ specified_candidates)))
                        _ w false w).
  - by rewrite (bind_ret_run _ _ _ _ _ IH).
  - rewrite (bind_ret_run _ _ _ _ _ Hcid), (bind_ret_run _ _ _ _ _ Hn).
    by rewrite bool_decide_eq_false_2.
Qed.

Lemma dispatch_none_requested {C R} (cand_id : C -> M json)
      (process_function : C -> M R) candidates w :
  specified_candidates <> [] ->
  Forall (fun c => exists cid n,
              cand_id c w = Ret cid w /\ int_of cid w = Ret n w
              /\ n ∉ specified_candidates) candidates ->
  dispatch cand_id process_function candidates w
  = Exit 2 (World (files w) (dirs w) (net w) (sent w)
                  (stdout w
                   ++ ["None of the CandID numbers provided ("
                       +:+ join ", " (pretty <$> specified_candidates)
                       +:+ ") are valid."; "Exiting the script."])
                  (token w)).
Proof.
  intros Hspec Hnone. unfold dispatch.
  pose proof (filter_each_none cand_id w candidates Hnone) as Hfilter.
  destruct specified_candidates as [| z zs]; [done |].
  rewrite (bind_ret_run _ _ _ _ _ Hfilter).
  unfold bind, print, exit. simpl. by rewrite <- app_assoc.
Qed.


Lemma initialize_jwt_keeps_dirs u pw host version :
  preserves dirs (initialize_jwt u pw host version).
Proof. unfold initialize_jwt. frame. Qed.

Lemma create_bids_candidates_list_keeps_dirs :
  preserves dirs create_bids_candidates_list.
Proof.
  unfold create_bids_candidates_list, get_dataset_file, fold_manifest,
    fold_session, fold_image, new_session.
  frame.
Qed.

Lemma create_minc_candidates_list_keeps_dirs :
  preserves dirs create_minc_candidates_list.
Proof. unfold create_minc_candidates_list, new_session. frame. Qed.

(** C8: when candidates were requested and none of them is in the
    manifest, the script prints which numbers were asked for and leaves
    with status 2; nothing is sent after the manifest was built and the
    directories are those the run started with. *)
Theorem main_script_none_requested w w1 w2 :
  specified_candidates <> [] ->
  initialize_jwt username password hostname api_version w = Ret true w1 ->
  (imaging_format = "bids"
   /\ exists candidates,
        create_bids_candidates_list w1 = Ret candidates w2
        /\ Forall (fun c => exists n,
                       py_int (CandID c) = Some n
                       /\ n ∉ specified_candidates) candidates)
  \/ (imaging_format = "minc"
      /\ exists document candidates,
           create_minc_candidates_list w1 = Ret document w2
           /\ py_iter document w2 = Ret candidates w2
           /\ Forall (fun c => exists cid n,
                          getitem c "CandID" w2 = Ret cid w2
                          /\ int_of cid w2 = Ret n w2
                          /\ n ∉ specified_candidates) candidates) ->
  exists w3,
    main_script w = Exit 2 w3
    /\ dirs w3 = dirs w /\ files w3 = files w2
    /\ sent w3 = sent w2 /\ net w3 = net w2
    /\ stdout w3
       = stdout w2
         ++ ["None of the CandID numbers provided ("
             +:+ join ", " (pretty <$> specified_candidates)
             +:+ ") are valid."; "Exiting the script."].
Proof.
  intros Hspec Hlogin Hmanifest.
  pose proof (initialize_jwt_keeps_dirs username password hostname
                                        api_version w) as Hd1.
  unfold post in Hd1. rewrite Hlogin in Hd1.
  unfold main_script. rewrite (bind_ret_run _ _ _ _ _ Hlogin).
  cbn beta iota.
  destruct Hmanifest as [(Hfmt & candidates & Hbuild & Hnone)
                        | (Hfmt & document & candidates & Hbuild & Hiter
                           & Hnone)].
  - pose proof (create_bids_candidates_list_keeps_dirs w1) as Hd2.
    unfold post in Hd2. rewrite Hbuild in Hd2.
    rewrite Hfmt. rewrite bool_decide_eq_true_2 by done.
    rewrite (bind_ret_run _ _ _ _ _ Hbuild).
    rewrite dispatch_none_requested; [| done |].
    + eexists. split; [reflexivity |]. simpl. by rewrite Hd2, Hd1.
    + eapply Forall_impl; [exact Hnone |].
      intros c (n & Hn & Hnot). exists (JStr (CandID c)), n.
      split; [done |]. split; [| done]. simpl. by rewrite Hn.
  - pose proof (create_minc_candidates_list_keeps_dirs w1) as Hd2.
    unfold post in Hd2. rewrite Hbuild in Hd2.
    rewrite Hfmt. rewrite bool_decide_eq_false_2 by done.
    rewrite bool_decide_eq_true_2 by done.
    rewrite (bind_ret_run (l <- create_minc_candidates_list ;; py_iter l) _
                          w1 candidates w2).
    + rewrite dispatch_none_requested; [| done | done].
      eexists. split; [reflexivity |]. simpl. by rewrite Hd2, Hd1.
    + by rewrite (bind_ret_run _ _ _ _ _ Hbuild).
Qed.


(** ** Folding the BIDS manifest *)

Lemma any_field_run record key j w :
  any_field record key = Some j -> getitem record key w = Ret j w.
Proof.
  destruct record; try done. simpl. intros ->. done.
Qed.

Lemma str_field_run record key x w :
  str_field record key = Some x ->
  (j <- getitem record key ;; as_str j) w = Ret x w.
Proof.
  unfold str_field. destruct (any_field record key) as [j |] eqn:E; [| done].
  destruct j; try done. intros [= ->].
  by rewrite (bind_ret_run _ _ _ _ _ (any_field_run _ _ _ w E)).
Qed.

Lemma record_at_fields c0 v0 record c v :
  str_field record "Candidate" = Some c0 ->
  str_field record "Visit" = Some v0 ->
  record_at c v record = bool_decide (c0 = c /\ v0 = v).
Proof.
  intros Hc Hv. unfold record_at. rewrite Hc, Hv.
  apply bool_decide_ext. split.
  - by intros [[= ->] [= ->]].
  - by intros [-> ->].
Qed.

Lemma fold_session_step candidates session w :
  well_formed_session session ->
  single_entries candidates ->
  exists candidates',
    fold_session candidates session w = Ret candidates' w
    /\ single_entries candidates'
    /\ forall c v,
         visit_of candidates' c v
         = if record_at c v session
           then Some (BidsVisit (session_links session) [])
           else visit_of candidates c v.
Proof.
  intros ([c0 Hc] & [v0 Hv] & [t Ht] & [j Hj]) [Hkeys Hall].
  unfold fold_session.
  rewrite (bind_ret_run _ _ _ _ _ (str_field_run _ _ _ w Hc)).
  unfold session_links. rewrite Ht, Hj. simpl default.
  destruct (dict_get candidates c0) as [entry |] eqn:Hentry.
  - rewrite (bind_ret_run _ _ _ _ _ (any_field_run _ _ _ w Ht)).
    rewrite (bind_ret_run _ _ _ _ _ (any_field_run _ _ _ w Hj)).
    rewrite (bind_ret_run _ _ _ _ _ (str_field_run _ _ _ w Hv)).
    eexists. split; [reflexivity |].
    pose proof (dict_get_Forall _ _ _ _ Hall Hentry) as (Hid & Hvisits & Hfolders).
    simpl in Hid, Hvisits, Hfolders.
    split; [split |].
    + by apply dict_set_NoDup.
    + apply dict_set_Forall; [done |]. simpl.
      split; [done |]. split; [by apply dict_set_NoDup |].
      apply dict_set_Forall; [done |]. simpl. constructor.
    + intros c v. rewrite (record_at_fields _ _ _ _ _ Hc Hv).
      unfold visit_of. rewrite dict_get_set.
      destruct (decide (c0 = c)) as [<- | Hne].
      * simpl. rewrite dict_get_set, Hentry.
        destruct (decide (v0 = v)) as [<- | Hne].
        -- by rewrite bool_decide_eq_true_2.
        -- rewrite bool_decide_eq_false_2; [done |]. by intros [_ ?].
      * rewrite bool_decide_eq_false_2; [done |]. by intros [? _].
  - rewrite (bind_ret_run _ _ _ _ _ (str_field_run _ _ _ w Hv)).
    rewrite (bind_ret_run _ _ _ _ _ (any_field_run _ _ _ w Ht)).
    rewrite (bind_ret_run _ _ _ _ _ (any_field_run _ _ _ w Hj)).
    eexists. split; [reflexivity |].
    split; [split |].
    + by apply dict_set_NoDup.
    + apply dict_set_Forall; [done |]. simpl.
      split; [done |]. split; [apply NoDup_singleton |].
      constructor; [| done]. simpl. constructor.
    + intros c v. rewrite (record_at_fields _ _ _ _ _ Hc Hv).
      unfold visit_of. rewrite dict_get_set.
      destruct (decide (c0 = c)) as [<- | Hne].
      * simpl. rewrite Hentry.
        destruct (decide (v0 = v)) as [<- | Hne].
        -- by rewrite bool_decide_eq_true_2.
        -- rewrite bool_decide_eq_false_2; [done |]. by intros [_ ?].
      * rewrite bool_decide_eq_false_2; [done |]. by intros [? _].
Qed.


Lemma link_loop fields subfolder w :
  forall keys folders links0,
    (forall k, k ∈ keys -> k ∈ dict_keys fields) ->
    dict_get folders subfolder = Some links0 ->
    NoDup (dict_keys folders) ->
    exists folders',
      fold_each keys
        (fun folders link =>
           target <- getitem (JObj fields) link ;;
           links <- lift_opt (KeyError subfolder)
                             (dict_get folders subfolder) ;;
           ret (dict_set folders subfolder (links ++ [target])))
        folders w
      = Ret folders' w
      /\ dict_get folders' subfolder
         = Some (links0 ++ omap (any_field (JObj fields)) keys)
      /\ (forall cat, cat <> subfolder ->
                      dict_get folders' cat = dict_get folders cat)
      /\ NoDup (dict_keys folders').
Proof.
  induction keys as [| k keys IH]; intros folders links0 Hkeys Hsub Hnodup.
  - exists folders. simpl. by rewrite app_nil_r.
  - destruct (dict_get_elem_of fields k) as [target Htarget].
    { apply Hkeys. by left. }
    destruct (IH (dict_set folders subfolder (links0 ++ [target]))
                 (links0 ++ [target]))
      as (folders' & Hrun & Hget & Hother & Hnodup').
    + intros k' Hk'. apply Hkeys. by right.
    + rewrite dict_get_set. by rewrite decide_True.
    + by apply dict_set_NoDup.
    + exists folders'. split; [| split; [| split]].
      * cbn [fold_each].
        rewrite (bind_ret_run
                   (target0 <- getitem (JObj fields) k ;;
                    links <- lift_opt (KeyError subfolder)
                                      (dict_get folders subfolder) ;;
                    ret (dict_set folders subfolder (links ++ [target0])))
                   _ w (dict_set folders subfolder (links0 ++ [target])) w);
          [done |].
        rewrite (bind_ret_run _ _ _ _ _
                   (any_field_run (JObj fields) k target w Htarget)).
        by rewrite Hsub.
      * rewrite Hget. cbn [omap list_omap any_field]. rewrite Htarget.
        by rewrite <- app_assoc.
      * intros cat Hcat. rewrite Hother by done.
        rewrite dict_get_set. by rewrite decide_False.
      * done.
Qed.

Lemma str_field_obj record key x :
  str_field record key = Some x -> exists fields, record = JObj fields.
Proof.
  unfold str_field. destruct record; try done. eauto.
Qed.

Lemma fold_image_step candidates image w c v cat r :
  str_field image "Candidate" = Some c ->
  str_field image "Visit" = Some v ->
  str_field image "Subfolder" = Some cat ->
  visit_of candidates c v = Some r ->
  single_entries candidates ->
  exists candidates' r',
    fold_image candidates image w = Ret candidates' w
    /\ single_entries candidates'
    /\ Files r' = Files r
    /\ (forall cat',
          dict_get (Folders r') cat'
          = if decide (cat' = cat)
            then Some (default [] (dict_get (Folders r) cat)
                       ++ image_links image)
            else dict_get (Folders r) cat')
    /\ forall c' v',
         visit_of candidates' c' v'
         = if record_at c' v' image then Some r'
           else visit_of candidates c' v'.
Proof.
  intros Hc Hv Hcat Hr [Hkeys Hall].
  destruct (str_field_obj _ _ _ Hc) as [fields ->].
  unfold visit_of in Hr.
  destruct (dict_get candidates c) as [entry |] eqn:Hentry; [| done].
  pose proof (dict_get_Forall _ _ _ _ Hall Hentry)
    as (Hid & Hvisits & Hfolders).
  pose proof (dict_get_Forall _ _ _ _ Hfolders Hr) as Hnodup.
  simpl in Hid, Hvisits, Hfolders, Hnodup.
  set (folders0 := if dict_mem (Folders r) cat then Folders r
                   else dict_set (Folders r) cat []).
  assert (H0 : dict_get folders0 cat
               = Some (default [] (dict_get (Folders r) cat))
               /\ (forall cat', cat' <> cat ->
                     dict_get folders0 cat' = dict_get (Folders r) cat')
               /\ NoDup (dict_keys folders0)).
  { unfold folders0, dict_mem.
    destruct (dict_get (Folders r) cat) as [l |] eqn:E.
    - rewrite bool_decide_eq_true_2 by eauto. by rewrite E.
    - rewrite bool_decide_eq_false_2 by (by intros [? ?]).
      split; [| split].
      + rewrite dict_get_set. by rewrite decide_True.
      + intros cat' Hne. rewrite dict_get_set. by rewrite decide_False.
      + by apply dict_set_NoDup. }
  destruct H0 as (Hget0 & Hother0 & Hnodup0).
  destruct (link_loop fields cat w (link_properties (JObj fields)) folders0
              _ ltac:(intros k Hk; unfold link_properties in Hk;
                      apply list_elem_of_In, filter_In in Hk as [Hk _];
                      by apply list_elem_of_In)
              Hget0 Hnodup0)
    as (folders' & Hloop & Hget' & Hother' & Hnodup').
  exists (dict_set candidates c
            (BidsCandidate (CandID entry)
               (dict_set (Visits entry) v (BidsVisit (Files r) folders')))),
         (BidsVisit (Files r) folders').
  split; [| split; [| split; [| split]]].
  - unfold fold_image.
    rewrite (bind_ret_run _ _ _ _ _ (str_field_run _ _ _ w Hcat)).
    rewrite (bind_ret_run _ _ _ _ _ (str_field_run _ _ _ w Hc)).
    rewrite Hentry.
    rewrite (bind_ret_run (lift_opt _ (Some entry)) _ w entry w eq_refl).
    rewrite (bind_ret_run _ _ _ _ _ (str_field_run _ _ _ w Hv)).
    rewrite Hr.
    rewrite (bind_ret_run (lift_opt _ (Some r)) _ w r w eq_refl).
    fold folders0. by rewrite (bind_ret_run _ _ _ _ _ Hloop).
  - split; [by apply dict_set_NoDup |].
    apply dict_set_Forall; [done |]. simpl.
    split; [done |]. split; [by apply dict_set_NoDup |].
    by apply dict_set_Forall.
  - done.
  - intros cat'. simpl. destruct (decide (cat' = cat)) as [-> | Hne].
    + by rewrite Hget'.
    + by rewrite Hother', Hother0.
  - intros c' v'. rewrite (record_at_fields _ _ _ _ _ Hc Hv).
    unfold visit_of. rewrite dict_get_set.
    destruct (decide (c = c')) as [<- | Hne].
    + simpl. rewrite dict_get_set, Hentry.
      destruct (decide (v = v')) as [<- | Hne].
      * by rewrite bool_decide_eq_true_2.
      * rewrite bool_decide_eq_false_2; [done |]. by intros [_ ?].
    + rewrite bool_decide_eq_false_2; [done |]. by intros [? _].
Qed.


Lemma fold_each_app_run {A S} (body : S -> A -> M S) ys :
  forall xs s w s1 w1,
    fold_each xs body s w = Ret s1 w1 ->
    fold_each (xs ++ ys) body s w = fold_each ys body s1 w1.
Proof.
  induction xs as [| x xs IH]; intros s w s1 w1 Hrun; simpl in *.
  - by injection Hrun as -> ->.
  - apply bind_ret_inv in Hrun as (s' & w' & Hbody & Hrun).
    rewrite (bind_ret_run _ _ _ _ _ Hbody). by apply IH.
Qed.

Lemma session_files_snoc sessions session c v :
  session_files (sessions ++ [session]) c v
  = if record_at c v session then Some (session_links session)
    else session_files sessions c v.
Proof.
  unfold session_files. rewrite List.filter_app. simpl.
  destruct (record_at c v session).
  - by rewrite last_snoc.
  - by rewrite app_nil_r.
Qed.

Lemma category_links_snoc images image c v cat :
  category_links (images ++ [image]) c v cat
  = if image_at c v cat image
    then Some (default [] (category_links images c v cat)
               ++ image_links image)
    else category_links images c v cat.
Proof.
  unfold category_links. rewrite List.filter_app. simpl.
  destruct (image_at c v cat image); [| by rewrite app_nil_r].
  destruct (List.filter (image_at c v cat) images) as [| m ms]; simpl.
  - by rewrite app_nil_r.
  - rewrite fmap_app, concat_app. simpl. by rewrite app_nil_r, app_assoc.
Qed.

Lemma fold_sessions w :
  forall sessions,
    Forall well_formed_session sessions ->
    exists candidates,
      fold_each sessions fold_session [] w = Ret candidates w
      /\ single_entries candidates
      /\ forall c v,
           visit_of candidates c v
           = (fun links => BidsVisit links []) <$> session_files sessions c v.
Proof.
  induction sessions as [| session sessions IH] using rev_ind; intros Hwf.
  - exists []. split; [done |]. split; [| done].
    split; [apply NoDup_nil_2 | constructor].
  - apply Forall_app in Hwf as [Hwf Hsession].
    rewrite Forall_singleton in Hsession.
    destruct (IH Hwf) as (candidates & Hrun & Hsingle & Hview).
    destruct (fold_session_step candidates session w Hsession Hsingle)
      as (candidates' & Hstep & Hsingle' & Hview').
    exists candidates'. split; [| split; [done |]].
    + rewrite (fold_each_app_run _ _ _ _ _ _ _ Hrun). simpl.
      by rewrite (bind_ret_run _ _ _ _ _ Hstep).
    + intros c v. rewrite Hview', session_files_snoc, Hview.
      by destruct (record_at c v session).
Qed.

Lemma fold_images candidates0 w :
  single_entries candidates0 ->
  (forall c v r, visit_of candidates0 c v = Some r -> Folders r = []) ->
  forall images,
    Forall (fun image =>
              exists c v cat,
                str_field image "Candidate" = Some c
                /\ str_field image "Visit" = Some v
                /\ str_field image "Subfolder" = Some cat
                /\ is_Some (visit_of candidates0 c v)) images ->
    exists candidates,
      fold_each images fold_image candidates0 w = Ret candidates w
      /\ single_entries candidates
      /\ forall c v,
           match visit_of candidates0 c v with
           | None => visit_of candidates c v = None
           | Some r0 =>
               exists r,
                 visit_of candidates c v = Some r
                 /\ Files r = Files r0
                 /\ forall cat,
                      dict_get (Folders r) cat = category_links images c v cat
           end.
Proof.
  intros Hsingle0 Hempty.
  induction images as [| image images IH] using rev_ind; intros Hwf.
  - exists candidates0. split; [done |]. split; [done |].
    intros c v. destruct (visit_of candidates0 c v) as [r0 |] eqn:E; [| done].
    exists r0. split; [done |]. split; [done |].
    intros cat. by rewrite (Hempty _ _ _ E).
  - apply Forall_app in Hwf as [Hwf Himage].
    rewrite Forall_singleton in Himage.
    destruct Himage as (c & v & cat & Hc & Hv & Hcat & [r0 Hr0]).
    destruct (IH Hwf) as (candidates & Hrun & Hsingle & Hview).
    pose proof (Hview c v) as Hcv. rewrite Hr0 in Hcv.
    destruct Hcv as (r & Hr & Hfiles & Hfolders).
    destruct (fold_image_step candidates image w c v cat r Hc Hv Hcat Hr
                              Hsingle)
      as (candidates' & r' & Hstep & Hsingle' & Hfiles' & Hfolders' & Hview').
    exists candidates'. split; [| split; [done |]].
    + rewrite (fold_each_app_run _ _ _ _ _ _ _ Hrun). simpl.
      by rewrite (bind_ret_run _ _ _ _ _ Hstep).
    + intros c' v'. specialize (Hview c' v'). rewrite Hview'.
      rewrite (record_at_fields _ _ _ _ _ Hc Hv).
      destruct (decide (c = c' /\ v = v')) as [[<- <-] | Hne].
      * rewrite bool_decide_eq_true_2 by done. rewrite Hr0.
        exists r'. split; [done |]. split; [congruence |].
        intros cat'. rewrite Hfolders', category_links_snoc.
        unfold image_at. rewrite (record_at_fields _ _ _ _ _ Hc Hv).
        rewrite bool_decide_eq_true_2 by done. rewrite Hcat. simpl.
        destruct (decide (cat' = cat)) as [-> | Hne].
        -- rewrite bool_decide_eq_true_2 by done. by rewrite Hfolders.
        -- rewrite bool_decide_eq_false_2 by congruence. apply Hfolders.
      * rewrite bool_decide_eq_false_2 by done.
        destruct (visit_of candidates0 c' v') as [r1 |]; [| done].
        destruct Hview as (r2 & Hr2 & Hfiles2 & Hfolders2).
        exists r2. split; [done |]. split; [done |].
        intros cat'. rewrite category_links_snoc. unfold image_at.
        rewrite (record_at_fields _ _ _ _ _ Hc Hv).
        rewrite bool_decide_eq_false_2 by done. apply Hfolders2.
Qed.


(** C3 (amended): folding a manifest whose records are well formed gives
    one entry per candidate, one visit record per (candidate, visit) pair
    and one list per category.  The visit record holds the two links of
    the last session record of the pair, so a later session record of the
    same pair replaces the links of an earlier one, and for every category
    the links of all image records of the pair and category, in manifest
    order: a category seen again grows, it is never replaced. *)
Theorem fold_manifest_merges fields sessions images w :
  dict_get fields "SessionFiles" = Some (JArr sessions) ->
  dict_get fields "Images" = Some (JArr images) ->
  Forall well_formed_session sessions ->
  Forall (well_formed_image sessions) images ->
  exists candidates,
    fold_manifest (JObj fields) w = Ret (dict_values candidates) w
    /\ single_entries candidates
    /\ forall c v,
         match session_files sessions c v with
         | None => visit_of candidates c v = None
         | Some links =>
             exists r,
               visit_of candidates c v = Some r
               /\ Files r = links
               /\ forall cat,
                    dict_get (Folders r) cat = category_links images c v cat
         end.
Proof.
  intros Hsessions Himages Hwf_s Hwf_i.
  destruct (fold_sessions w sessions Hwf_s)
    as (candidates0 & Hrun0 & Hsingle0 & Hview0).
  destruct (fold_images candidates0 w Hsingle0) with (images := images)
    as (candidates & Hrun & Hsingle & Hview).
  { intros c v r. rewrite Hview0.
    destruct (session_files sessions c v); [| done]. by intros [= <-]. }
  { eapply Forall_impl; [exact Hwf_i |].
    intros image (c & v & cat & Hc & Hv & Hcat & [links Hlinks]).
    exists c, v, cat. rewrite Hview0, Hlinks. eauto. }
  exists candidates. split; [| split; [done |]].
  - unfold fold_manifest.
    rewrite (bind_ret_run (l <- getitem (JObj fields) "SessionFiles" ;;
                           py_iter l) _ w sessions w).
    2: { by rewrite (bind_ret_run _ _ _ _ _
                       (any_field_run (JObj fields) _ _ w Hsessions)). }
    rewrite (bind_ret_run _ _ _ _ _ Hrun0).
    rewrite (bind_ret_run (l <- getitem (JObj fields) "Images" ;;
                           py_iter l) _ w images w).
    2: { by rewrite (bind_ret_run _ _ _ _ _
                       (any_field_run (JObj fields) _ _ w Himages)). }
    by rewrite (bind_ret_run _ _ _ _ _ Hrun).
  - intros c v. specialize (Hview c v). rewrite Hview0 in Hview.
    destruct (session_files sessions c v) as [links |]; [| done].
    simpl in Hview. destruct Hview as (r & Hr & Hfiles & Hfolders).
    exists r. by repeat split.
Qed.

(** * Further properties *)

(** ** Exceptions that are not retried *)

Lemma process_api_get_loop_other url hdrs api_request expected_codes so :
  forall pre fuel w err rest,
    net w = pre ++ OtherError err :: rest ->
    Forall (retried expected_codes) pre ->
    length pre < fuel ->
    exists w',
      process_api_get_loop fuel url hdrs api_request expected_codes so w
      = Raise (RequestException err) w'
      /\ net w' = rest
      /\ sent w' = sent w ++ replicate (S (length pre))
                     (Get url (merge_headers (session_headers so) hdrs))
      /\ files w' = files w /\ dirs w' = dirs w /\ token w' = token w.
Proof.
  induction pre as [| o pre IH]; intros fuel w err rest Hnet Hpre Hfuel.
  - destruct fuel as [| fuel]; [simpl in Hfuel; lia |].
    simpl in Hnet. simpl.
    unfold bind, session_get, http_send. rewrite Hnet.
    eexists; split; [reflexivity |]. simpl. auto.
  - destruct fuel as [| fuel]; [simpl in Hfuel; lia |].
    simpl in Hfuel.
    apply Forall_cons in Hpre as [Ho Hpre].
    simpl in Hnet.
    set (w1 := World (files w) (dirs w) (pre ++ OtherError err :: rest)
                     (sent w ++ [Get url (merge_headers (session_headers so) hdrs)])
                     (stdout w) (token w)).
    assert (Hstep : session_get so url hdrs w = Ret o w1).
    { unfold session_get, http_send. by rewrite Hnet. }
    assert (Hgo : forall w2, net w2 = net w1 -> sent w2 = sent w1 ->
              files w2 = files w1 -> dirs w2 = dirs w1 -> token w2 = token w1 ->
              exists w',
                process_api_get_loop fuel url hdrs api_request expected_codes so w2
                = Raise (RequestException err) w'
                /\ net w' = rest
                /\ sent w' = sent w ++ replicate (S (S (length pre)))
                              (Get url (merge_headers (session_headers so) hdrs))
                /\ files w' = files w /\ dirs w' = dirs w /\ token w' = token w).
    { intros w2 Hn Hs Hf Hd Ht.
      destruct (IH fuel w2 err rest) as (w' & Hrun & Hn' & Hs' & Hf' & Hd' & Ht');
        [by rewrite Hn | done | lia |].
      exists w'. split; [done |]. split; [done |].
      rewrite Hs', Hs, Hf', Hd', Ht', Hf, Hd, Ht. simpl.
      by rewrite <- app_assoc. }
    cbn [process_api_get_loop]. unfold bind at 1. rewrite Hstep.
    destruct o as [now err0 | now err0 | err0 | r0]; simpl in Ho.
    + destruct (retry_message_frame true api_request now err0 w1)
        as (w2 & Hmsg & Hf & Hd & Hn & Hs & Ht).
      unfold bind at 1. simpl in Hmsg. rewrite Hmsg. by apply Hgo.
    + destruct (retry_message_frame false api_request now err0 w1)
        as (w2 & Hmsg & Hf & Hd & Hn & Hs & Ht).
      unfold bind at 1. simpl in Hmsg. rewrite Hmsg. by apply Hgo.
    + done.
    + rewrite bool_decide_eq_false_2 by done. by apply Hgo.
Qed.

(** X1: an exception of the transport other than a connection error or a
    connect timeout is not caught: it leaves [process_api_get] at once,
    after the retries that came before it, with nothing written. *)
Theorem process_api_get_other_exception
    url hdrs api_request expected_codes so w pre err rest :
  net w = pre ++ OtherError err :: rest ->
  Forall (retried expected_codes) pre ->
  exists w',
    process_api_get url hdrs api_request expected_codes so w
    = Raise (RequestException err) w'
    /\ net w' = rest
    /\ sent w' = sent w ++ replicate (S (length pre))
                   (Get url (merge_headers (session_headers so) hdrs))
    /\ files w' = files w /\ dirs w' = dirs w /\ token w' = token w.
Proof.
  intros Hnet Hpre. unfold process_api_get.
  eapply process_api_get_loop_other; eauto.
  rewrite Hnet, length_app. simpl. lia.
Qed.

(** ** get_json *)

Lemma get_json_delivers api_request so w pre r rest :
  net w = pre ++ Responds r :: rest ->
  Forall (retried [200%Z]) pre ->
  status_code r = 200%Z ->
  exists w',
    get_json api_request so w
    = (if forallb (fun c => (nat_of_ascii c <? 128)%nat)
                  (list_ascii_of_string (content r))
       then match json_loads (content r) with
            | Some doc => Ret doc w'
            | None => Raise ValueError w'
            end
       else Raise UnicodeDecodeError w')
    /\ net w' = rest
    /\ sent w' = sent w ++ replicate (S (length pre))
                   (get_request so api_request [])
    /\ files w' = files w /\ dirs w' = dirs w /\ token w' = token w.
Proof.
  intros Hnet Hpre Hr.
  destruct (process_api_get_delivers
              (hostname +:+ api_version +:+ api_request) [] api_request
              [200%Z] so w pre r rest Hnet Hpre)
    as (w1 & Hget & Hn1 & Hs1 & Hf1 & Hd1 & Ht1).
  { rewrite Hr. by apply list_elem_of_singleton. }
  destruct (when_print_run verbosity ("Success: " +:+ api_request) w1)
    as (w2 & Hprint & Hf2 & Hd2 & Hn2 & Hs2 & Ht2).
  exists w2. split.
  - unfold get_json.
    rewrite (bind_ret_run _ _ _ _ _ Hget), (bind_ret_run _ _ _ _ _ Hprint).
    unfold decode_ascii, bind.
    destruct (forallb _ _); [| done]. simpl.
    by destruct (json_loads (content r)).
  - unfold get_request. rewrite Hf2, Hd2, Hn2, Hs2, Ht2. auto.
Qed.

(** X2: [get_json] waits for the first 200 response and hands back its
    decoded body; a body that is not ASCII raises [UnicodeDecodeError] and
    one that is no JSON raises [ValueError], neither being retried.  In
    all three cases only requests without extra header were sent and no
    file or directory was touched. *)
Theorem get_json_first_200 api_request so w pre r rest :
  net w = pre ++ Responds r :: rest ->
  Forall (retried [200%Z]) pre ->
  status_code r = 200%Z ->
  exists w',
    get_json api_request so w
    = (if forallb (fun c => (nat_of_ascii c <? 128)%nat)
                  (list_ascii_of_string (content r))
       then match json_loads (content r) with
            | Some doc => Ret doc w'
            | None => Raise ValueError w'
            end
       else Raise UnicodeDecodeError w')
    /\ net w' = rest
    /\ sent w' = sent w ++ replicate (S (length pre))
                   (get_request so api_request [])
    /\ files w' = files w /\ dirs w' = dirs w /\ token w' = token w.
Proof. apply get_json_delivers. Qed.

(** ** initialize_jwt and the end of the script *)

Lemma login_message_run line err w :
  exists w',
    (print line ;;; when verbosity (print err) ;;; ret false) w = Ret false w'
    /\ quiet w w'.
Proof.
  destruct verbosity; eexists; (split; [reflexivity |]); by repeat split.
Qed.

Lemma initialize_jwt_inv u pw host version w logged_in w' :
  initialize_jwt u pw host version w = Ret logged_in w' ->
  (exists o,
      net w = o :: net w'
      /\ if logged_in
         then exists r doc,
                o = Responds r /\ status_code r = 200%Z
                /\ json_loads (content r) = Some doc
                /\ any_field doc "token" = Some (token w')
         else token w' = token w /\ login_refused o)
  /\ sent w' = sent w ++ [Post (host +:+ version +:+ "/login")
                               [("username", u); ("password", pw)]]
  /\ files w' = files w /\ dirs w' = dirs w.
Proof.
  intros Hrun. unfold initialize_jwt in Hrun.
  apply bind_ret_inv in Hrun as (o & w1 & Hsend & Hrun).
  unfold http_send in Hsend.
  destruct (net w) as [| o' rest] eqn:Hnet; [done |].
  injection Hsend as -> <-.
  destruct o as [now err | now err | err | r].
  - destruct (login_message_run
                ("The login request to the server produced a timeout error. "
                 +:+ "Check your connection and try again.") err
                (World (files w) (dirs w) rest
                   (sent w ++ [Post (host +:+ version +:+ "/login")
                                    [("username", u); ("password", pw)]])
                   (stdout w) (token w)))
      as (w2 & Hmsg & Hf & Hd & Hn & Hs & Ht).
    rewrite Hmsg in Hrun. injection Hrun as <- <-.
    rewrite Hn, Hs, Hf, Hd, Ht. simpl. split; [| done].
    exists (ConnectTimeout now err). done.
  - destruct (login_message_run
                ("The login request to the server produced a connection error. "
                 +:+ "Check your connection and try again.") err
                (World (files w) (dirs w) rest
                   (sent w ++ [Post (host +:+ version +:+ "/login")
                                    [("username", u); ("password", pw)]])
                   (stdout w) (token w)))
      as (w2 & Hmsg & Hf & Hd & Hn & Hs & Ht).
    rewrite Hmsg in Hrun. injection Hrun as <- <-.
    rewrite Hn, Hs, Hf, Hd, Ht. simpl. split; [| done].
    exists (ConnectionError now err). done.
  - done.
  - destruct (bool_decide (status_code r = 200%Z)) eqn:Hst.
    + apply bool_decide_eq_true_1 in Hst.
      apply bind_ret_inv in Hrun as (text & w2 & Htext & Hrun).
      unfold decode_ascii in Htext.
      destruct (forallb _ _); [| done]. injection Htext as <- <-.
      apply bind_ret_inv in Hrun as (doc & w3 & Hdoc & Hrun).
      destruct (json_loads (content r)) as [doc' |] eqn:Hloads; [| done].
      injection Hdoc as <- <-.
      apply bind_ret_inv in Hrun as (t & w4 & Ht & Hrun).
      rewrite getitem_pure in Ht.
      destruct doc' as [| | | | | fields]; try done.
      destruct (dict_get fields "token") as [t' |] eqn:Htoken; [| done].
      injection Ht as <- <-.
      cbv [bind set_token print ret] in Hrun. injection Hrun as <- <-.
      simpl. split; [| done].
      exists (Responds r). split; [done |]. exists r, (JObj fields). done.
    + apply bool_decide_eq_false_1 in Hst.
      cbv [bind print ret] in Hrun. injection Hrun as <- <-.
      simpl. split; [| done].
      exists (Responds r). done.
Qed.

(** X3: [initialize_jwt] sends the login request once and never again.  It
    returns [True] only for a 200 response whose body decodes to a
    document with a ['token'] key, which becomes the global token; when it
    returns [False] the token is the one from before and the outcome was a
    connection error, a connect timeout or a status other than 200. *)
Theorem initialize_jwt_once u pw host version w logged_in w' :
  initialize_jwt u pw host version w = Ret logged_in w' ->
  (exists o,
      net w = o :: net w'
      /\ if logged_in
         then exists r doc,
                o = Responds r /\ status_code r = 200%Z
                /\ json_loads (content r) = Some doc
                /\ any_field doc "token" = Some (token w')
         else token w' = token w /\ login_refused o)
  /\ sent w' = sent w ++ [Post (host +:+ version +:+ "/login")
                               [("username", u); ("password", pw)]]
  /\ files w' = files w /\ dirs w' = dirs w.
Proof. apply initialize_jwt_inv. Qed.

(** X4: when the login is refused the script prints that it exits and
    leaves with status 3; the login request is the only one on the wire,
    so no manifest was asked for, and no file or directory was touched. *)
Theorem main_script_login_refused w o rest :
  net w = o :: rest ->
  login_refused o ->
  exists w',
    main_script w = Exit 3 w'
    /\ sent w' = sent w ++ [Post (hostname +:+ api_version +:+ "/login")
                                 [("username", username);
                                  ("password", password)]]
    /\ net w' = rest
    /\ files w' = files w /\ dirs w' = dirs w /\ token w' = token w
    /\ last (stdout w') = Some "Exiting the script.".
Proof.
  intros Hnet Ho.
  assert (Hlogin : exists w1,
             initialize_jwt username password hostname api_version w
             = Ret false w1
             /\ sent w1 = sent w ++ [Post (hostname +:+ api_version +:+ "/login")
                                          [("username", username);
                                           ("password", password)]]
             /\ net w1 = rest
             /\ files w1 = files w /\ dirs w1 = dirs w /\ token w1 = token w).
  { unfold initialize_jwt.
    set (w0 := World (files w) (dirs w) rest
                 (sent w ++ [Post (hostname +:+ api_version +:+ "/login")
                                  [("username", username);
                                   ("password", password)]])
                 (stdout w) (token w)).
    rewrite (bind_ret_run (http_send _) _ w o w0)
      by (unfold http_send; by rewrite Hnet).
    destruct o as [now err | now err | err | r]; simpl in Ho; [| | done |].
    - destruct (login_message_run
                  ("The login request to the server produced a timeout error. "
                   +:+ "Check your connection and try again.") err w0)
        as (w2 & Hmsg & Hf & Hd & Hn & Hs & Ht).
      exists w2. by rewrite Hmsg, Hf, Hd, Hn, Hs, Ht.
    - destruct (login_message_run
                  ("The login request to the server produced a connection error. "
                   +:+ "Check your connection and try again.") err w0)
        as (w2 & Hmsg & Hf & Hd & Hn & Hs & Ht).
      exists w2. by rewrite Hmsg, Hf, Hd, Hn, Hs, Ht.
    - rewrite bool_decide_eq_false_2 by done.
      eexists. split; [reflexivity |]. done. }
  destruct Hlogin as (w1 & Hlogin & Hs & Hn & Hf & Hd & Ht).
  unfold main_script. rewrite (bind_ret_run _ _ _ _ _ Hlogin).
  eexists. split; [reflexivity |]. simpl.
  rewrite Hs, Hn, Hf, Hd, Ht. by rewrite last_snoc.
Qed.


(** ** get_file: the sidecar from one call to the next *)

Lemma stored_after_delete download_location filename r e fs :
  header_get (headers r) "ETag" = Some e ->
  stored download_location filename true r
         (delete (etag_path download_location filename) fs)
  = <[etag_path download_location filename := e]>
      (<[download_location +:+ filename := content r]> fs).
Proof.
  intros He. unfold stored. rewrite He. simpl.
  apply map_eq. intros p.
  destruct (decide (p = etag_path download_location filename)) as [-> | Hp].
  - by rewrite !lookup_insert_eq.
  - rewrite !(lookup_insert_ne _ (etag_path _ _)) by done.
    destruct (decide (p = download_location +:+ filename)) as [-> | Hq].
    + by rewrite !lookup_insert_eq.
    + rewrite !lookup_insert_ne by done. by rewrite lookup_delete_ne.
Qed.

Lemma get_file_stale_run
    api_request download_location filename so w etag pre r rest e :
  files w !! etag_path download_location filename = Some etag ->
  net w = pre ++ Responds r :: rest ->
  Forall (retried [200%Z; 304%Z]) pre ->
  status_code r = 200%Z ->
  header_get (headers r) "ETag" = Some e ->
  exists w',
    get_file api_request download_location filename true so w = Ret "New" w'
    /\ net w' = rest
    /\ sent w' = sent w ++ replicate (S (length pre))
                   (get_request so api_request [("If-None-Match", etag)])
    /\ files w' = <[etag_path download_location filename := e]>
                    (<[download_location +:+ filename := content r]>
                       (files w))
    /\ dirs w' = dirs w.
Proof.
  intros Hfile Hnet Hpre Hr He.
  rewrite (get_file_cached _ _ _ _ _ _ Hfile).
  destruct (process_api_get_delivers
              (hostname +:+ api_version +:+ api_request)
              [("If-None-Match", etag)] api_request [200%Z; 304%Z] so w
              pre r rest Hnet Hpre)
    as (w1 & Hget & Hn1 & Hs1 & Hf1 & Hd1 & Ht1).
  { rewrite Hr. apply elem_of_cons. by left. }
  rewrite (bind_ret_run _ _ _ _ _ Hget). rewrite Hr.
  change (200 =? 304)%Z with false. cbn beta iota.
  rewrite (bind_ret_run _ _ _ _ _
             (os_remove_run _ etag w1 ltac:(by rewrite Hf1))).
  rewrite (status_200_ok _ Hr).
  rewrite (bind_ret_run _ _ _ r _ eq_refl).
  destruct (store_download_run api_request download_location filename
              true r
              (World (delete (etag_path download_location filename)
                             (files w1))
                     (dirs w1) (net w1) (sent w1) (stdout w1) (token w1)))
    as (w2 & Hstore & Hf2 & Hd2 & Hn2 & Hs2 & Ht2).
  rewrite Hstore, He. cbn [files dirs net sent] in Hf2, Hd2, Hn2, Hs2.
  exists w2. split; [done |].
  rewrite Hf2, Hd2, Hn2, Hs2, Hf1, Hs1.
  by rewrite (stored_after_delete _ _ _ _ _ He).
Qed.

(** X6: a sidecar is on disk but the server answers the conditional
    request with 200: that very response is kept, no second request is
    sent, the body is replaced by the new content and the sidecar by the
    new ETag, and the call returns ["New"]. *)
Theorem get_file_refreshes_stale_copy
    api_request download_location filename so w etag pre r rest e :
  files w !! etag_path download_location filename = Some etag ->
  net w = pre ++ Responds r :: rest ->
  Forall (retried [200%Z; 304%Z]) pre ->
  status_code r = 200%Z ->
  header_get (headers r) "ETag" = Some e ->
  exists w',
    get_file api_request download_location filename true so w = Ret "New" w'
    /\ net w' = rest
    /\ sent w' = sent w ++ replicate (S (length pre))
                   (get_request so api_request [("If-None-Match", etag)])
    /\ files w' = <[etag_path download_location filename := e]>
                    (<[download_location +:+ filename := content r]>
                       (files w))
    /\ dirs w' = dirs w.
Proof. apply get_file_stale_run. Qed.

Lemma get_file_304_run
    api_request download_location filename so w etag pre r rest :
  files w !! etag_path download_location filename = Some etag ->
  net w = pre ++ Responds r :: rest ->
  Forall (retried [200%Z; 304%Z]) pre ->
  status_code r = 304%Z ->
  exists w',
    get_file api_request download_location filename true so w
    = Ret "Current" w'
    /\ files w' = files w /\ dirs w' = dirs w /\ net w' = rest
    /\ sent w' = sent w ++ replicate (S (length pre))
                   (get_request so api_request [("If-None-Match", etag)]).
Proof.
  intros Hfile Hnet Hpre Hr.
  rewrite (get_file_cached _ _ _ _ _ _ Hfile).
  destruct (process_api_get_delivers
              (hostname +:+ api_version +:+ api_request)
              [("If-None-Match", etag)] api_request [200%Z; 304%Z] so w
              pre r rest Hnet Hpre)
    as (w1 & Hget & Hn1 & Hs1 & Hf1 & Hd1 & Ht1).
  { rewrite Hr. apply elem_of_cons. right. by apply list_elem_of_singleton. }
  rewrite (bind_ret_run _ _ _ _ _ Hget). rewrite Hr.
  change (304 =? 304)%Z with true. cbn beta iota.
  destruct (when_print_run verbosity
              ("File: " +:+ filename +:+ " was already downloaded") w1)
    as (w2 & Hprint & Hf2 & Hd2 & Hn2 & Hs2 & Ht2).
  rewrite (bind_ret_run _ _ _ _ _ Hprint).
  exists w2. split; [done |].
  unfold get_request. by rewrite Hf2, Hd2, Hn2, Hs2, Hf1, Hd1, Hn1, Hs1.
Qed.

(** X7: the ETag of one download is the condition of the next.  A first
    call without sidecar that receives a 200 response with ETag [e]
    returns ["New"]; a second call for the same file then sends
    [If-None-Match: e], the very text the server sent, and on a 304
    returns ["Current"] with the files the first call left. *)
Theorem get_file_twice
    api_request download_location filename so w pre1 r1 pre2 r2 rest e :
  files w !! etag_path download_location filename = None ->
  net w = pre1 ++ Responds r1 :: pre2 ++ Responds r2 :: rest ->
  Forall (retried [200%Z]) pre1 ->
  status_code r1 = 200%Z ->
  header_get (headers r1) "ETag" = Some e ->
  Forall (retried [200%Z; 304%Z]) pre2 ->
  status_code r2 = 304%Z ->
  exists w1 w2,
    get_file api_request download_location filename true so w = Ret "New" w1
    /\ get_file api_request download_location filename true so w1
       = Ret "Current" w2
    /\ files w1 !! (download_location +:+ filename) = Some (content r1)
    /\ files w1 !! etag_path download_location filename = Some e
    /\ files w2 = files w1
    /\ sent w2 = sent w1 ++ replicate (S (length pre2))
                   (get_request so api_request [("If-None-Match", e)])
    /\ net w2 = rest.
Proof.
  intros Hnone Hnet Hpre1 Hr1 He Hpre2 Hr2.
  destruct (get_file_uncached_run api_request download_location filename
              true so w pre1 r1 (pre2 ++ Responds r2 :: rest)
              (or_intror Hnone) Hnet Hpre1 Hr1 ltac:(eauto))
    as (w1 & Hnew & Hf1 & Hn1 & Hs1).
  assert (Hsidecar : files w1 !! etag_path download_location filename
                     = Some e).
  { rewrite Hf1. unfold stored. rewrite He. apply lookup_insert_eq. }
  destruct (get_file_304_run api_request download_location filename so w1
              e pre2 r2 rest Hsidecar Hn1 Hpre2 Hr2)
    as (w2 & Hcur & Hf2 & Hd2 & Hn2 & Hs2).
  exists w1, w2. split; [done |]. split; [done |].
  split; [rewrite Hf1; apply stored_lookup_body |].
  done.
Qed.

(** ** get_file: what it leaves alone *)

Lemma stored_lookup_other download_location filename etag_checking r fs p :
  p <> download_location +:+ filename ->
  p <> etag_path download_location filename ->
  stored download_location filename etag_checking r fs !! p = fs !! p.
Proof.
  intros Hbody Hsidecar. unfold stored.
  destruct etag_checking; by rewrite !lookup_insert_ne.
Qed.

Lemma store_download_frame api_request download_location filename
      etag_checking r w :
  post (store_download api_request download_location filename
                       etag_checking r) w
       (fun w' =>
          dirs w' = dirs w /\ token w' = token w
          /\ forall p,
               p <> download_location +:+ filename ->
               p <> etag_path download_location filename ->
               files w' !! p = files w !! p).
Proof.
  destruct (store_download_run api_request download_location filename
              etag_checking r w)
    as (w' & Hrun & Hf & Hd & _ & _ & Ht).
  unfold post. rewrite Hrun.
  destruct (etag_checking && _); (split; [done |]); (split; [done |]);
    intros p Hp1 Hp2; rewrite Hf; by apply stored_lookup_other.
Qed.

Lemma process_api_get_keeps_token url hdrs api_request expected_codes so :
  preserves token (process_api_get url hdrs api_request expected_codes so).
Proof.
  apply process_api_get_keeps.
  - by intros line w.
  - intros rq w. unfold post, http_send. by destruct (net w).
Qed.

(** X8: however a call of [get_file] ends, by a return or by an
    exception, the directories and the token are as before and the only
    files that can differ are the body and its sidecar. *)
Theorem get_file_touches_two_files
    api_request download_location filename etag_checking so w :
  post (get_file api_request download_location filename etag_checking so) w
       (fun w' =>
          dirs w' = dirs w /\ token w' = token w
          /\ forall p,
               p <> download_location +:+ filename ->
               p <> etag_path download_location filename ->
               files w' !! p = files w !! p).
Proof.
  assert (Hplain : forall w0,
             post (server_response <-
                     process_api_get (hostname +:+ api_version +:+ api_request)
                       [] api_request [200%Z] so ;;
                   store_download api_request download_location filename
                                  etag_checking server_response) w0
                  (fun w' =>
                     dirs w' = dirs w0 /\ token w' = token w0
                     /\ forall p,
                          p <> download_location +:+ filename ->
                          p <> etag_path download_location filename ->
                          files w' !! p = files w0 !! p)).
  { intros w0.
    pose proof (process_api_get_keeps_files
                  (hostname +:+ api_version +:+ api_request) [] api_request
                  [200%Z] so w0) as Hf.
    pose proof (process_api_get_keeps_dirs
                  (hostname +:+ api_version +:+ api_request) [] api_request
                  [200%Z] so w0) as Hd.
    pose proof (process_api_get_keeps_token
                  (hostname +:+ api_version +:+ api_request) [] api_request
                  [200%Z] so w0) as Ht.
    unfold post, bind in *.
    destruct (process_api_get _ _ _ _ _ w0) as [r w1 | e w1 | c w1 |];
      [| by rewrite Hf | by rewrite Hf |done].
    pose proof (store_download_frame api_request download_location filename
                  etag_checking r w1) as Hstore.
    unfold post in Hstore.
    destruct (store_download _ _ _ _ _ w1) as [v w2 | e w2 | c w2 |];
      [| | | done]; destruct Hstore as (Hd2 & Ht2 & Hf2);
      (split; [congruence |]); (split; [congruence |]);
      intros p Hp1 Hp2; rewrite Hf2 by done; by rewrite Hf. }
  destruct (decide (etag_checking = true
                    /\ is_Some (files w !! etag_path download_location
                                                     filename)))
    as [[-> [etag Hfile]] | Hno].
  - unfold post. rewrite (get_file_cached _ _ _ _ _ _ Hfile).
    pose proof (process_api_get_keeps_files
                  (hostname +:+ api_version +:+ api_request)
                  [("If-None-Match", etag)] api_request [200%Z; 304%Z] so w)
      as Hf.
    pose proof (process_api_get_keeps_dirs
                  (hostname +:+ api_version +:+ api_request)
                  [("If-None-Match", etag)] api_request [200%Z; 304%Z] so w)
      as Hd.
    pose proof (process_api_get_keeps_token
                  (hostname +:+ api_version +:+ api_request)
                  [("If-None-Match", etag)] api_request [200%Z; 304%Z] so w)
      as Ht.
    unfold post in Hf, Hd, Ht. unfold bind at 1.
    destruct (process_api_get _ _ _ _ _ w) as [r w1 | e w1 | c w1 |];
      [| by rewrite Hf | by rewrite Hf | done].
    destruct (status_code r =? 304)%Z.
    + destruct (when_print_run verbosity
                  ("File: " +:+ filename +:+ " was already downloaded") w1)
        as (w2 & Hprint & Hf2 & Hd2 & Hn2 & Hs2 & Ht2).
      rewrite (bind_ret_run _ _ _ _ _ Hprint). simpl.
      split; [congruence |]. split; [congruence |].
      intros p _ _. by rewrite Hf2, Hf.
    + rewrite (bind_ret_run _ _ _ _ _
                 (os_remove_run _ etag w1 ltac:(by rewrite Hf))).
      set (w2 := World _ _ _ _ _ _).
      assert (Hw2 : dirs w2 = dirs w /\ token w2 = token w
                    /\ forall p,
                         p <> etag_path download_location filename ->
                         files w2 !! p = files w !! p).
      { subst w2. simpl. split; [done |]. split; [done |].
        intros p Hp. rewrite lookup_delete_ne by done. by rewrite Hf. }
      destruct Hw2 as (Hd2 & Ht2 & Hf2).
      destruct (response_ok r).
      * rewrite (bind_ret_run (ret r) _ w2 r w2 eq_refl).
        pose proof (store_download_frame api_request download_location
                      filename true r w2) as Hstore.
        unfold post in Hstore.
        destruct (store_download _ _ _ _ _ w2) as [v w3 | e w3 | c w3 |];
          [| | | done]; destruct Hstore as (Hd3 & Ht3 & Hf3);
          (split; [congruence |]); (split; [congruence |]);
          intros p Hp1 Hp2; rewrite Hf3 by done; by apply Hf2.
      * specialize (Hplain w2). unfold post in Hplain.
        destruct ((server_response <- process_api_get _ _ _ _ _ ;; _) w2)
          as [v w3 | e w3 | c w3 |]; [| | | done];
          destruct Hplain as (Hd3 & Ht3 & Hf3);
          (split; [congruence |]); (split; [congruence |]);
          intros p Hp1 Hp2; rewrite Hf3 by done; by apply Hf2.
  - unfold post. rewrite get_file_uncached; last first.
    { destruct etag_checking; [right | by left].
      destruct (files w !! _) eqn:E; [| done].
      exfalso. apply Hno. eauto. }
    apply Hplain.
Qed.

(** ** The token from the login to the manifest *)

Lemma get_json_inv api_request so w doc w' :
  get_json api_request so w = Ret doc w' ->
  exists pre r,
    net w = pre ++ Responds r :: net w'
    /\ Forall (retried [200%Z]) pre
    /\ status_code r = 200%Z
    /\ json_loads (content r) = Some doc
    /\ sent w' = sent w ++ replicate (S (length pre))
                   (get_request so api_request [])
    /\ files w' = files w /\ dirs w' = dirs w /\ token w' = token w.
Proof.
  intros Hrun. unfold get_json in Hrun.
  apply bind_ret_inv in Hrun as (r & w1 & Hget & Hrun).
  apply process_api_get_inv in Hget
    as (pre & Hnet & Hpre & Hr & Hs1 & Hf1 & Hd1 & Ht1).
  destruct (when_print_run verbosity ("Success: " +:+ api_request) w1)
    as (w2 & Hprint & Hf2 & Hd2 & Hn2 & Hs2 & Ht2).
  rewrite (bind_ret_run _ _ _ _ _ Hprint) in Hrun.
  apply bind_ret_inv in Hrun as (text & w3 & Htext & Hrun).
  unfold decode_ascii in Htext.
  destruct (forallb _ _); [| done]. injection Htext as <- <-.
  destruct (json_loads (content r)) as [doc' |] eqn:Hloads; [| done].
  injection Hrun as <- <-.
  exists pre, r. rewrite Hn2, Hs2, Hf2, Hd2, Ht2.
  split; [done |]. split; [done |].
  split; [by apply list_elem_of_singleton in Hr |]. done.
Qed.

(** X9: the token read from the login response is the one every request
    for the list of candidates carries, as [Authorization: Bearer]
    header and as its only header. *)
Theorem login_token_authorizes_manifest w w1 document w2 :
  initialize_jwt username password hostname api_version w = Ret true w1 ->
  create_minc_candidates_list w1 = Ret document w2 ->
  exists r login_document n,
    net w = Responds r :: net w1
    /\ json_loads (content r) = Some login_document
    /\ any_field login_document "token" = Some (token w1)
    /\ sent w2
       = sent w
         ++ Post (hostname +:+ api_version +:+ "/login")
                 [("username", username); ("password", password)]
         :: replicate (S n)
              (Get (hostname +:+ api_version +:+ "/candidates/")
                   [("Authorization", "Bearer " +:+ py_str (token w1))]).
Proof.
  intros Hlogin Hlist.
  apply initialize_jwt_inv in Hlogin
    as ((o & Hnet & r & login_document & -> & _ & Hloads & Htoken)
        & Hsent & _).
  unfold create_minc_candidates_list in Hlist.
  rewrite (bind_ret_run new_session _ w1 _ w1 eq_refl) in Hlist.
  apply bind_ret_inv in Hlist as (doc & w3 & Hjson & Hlist).
  apply get_json_inv in Hjson
    as (pre & r' & _ & _ & _ & _ & Hsent' & _).
  destruct (pure_run _ _ _ _ (pure_getitem doc "Candidates") Hlist)
    as [-> _].
  exists r, login_document, (length pre).
  split; [done |]. split; [done |]. split; [done |].
  rewrite Hsent', Hsent. unfold get_request. simpl.
  by rewrite <- app_assoc.
Qed.

(** ** Manifest construction and the file system *)

Lemma minc_query_keeps_files candidate so :
  preserves files (minc_query candidate so).
Proof. unfold minc_query, minc_query_visit. frame. Qed.

Lemma create_minc_candidates_list_keeps_files :
  preserves files create_minc_candidates_list.
Proof. unfold create_minc_candidates_list, new_session. frame. Qed.

(** X10: building the manifest never makes a directory, in either layout;
    in the flat layout neither the list of candidates nor the queries
    about one candidate write or remove a file, however they end. *)
Theorem manifest_construction_frame :
  preserves dirs create_bids_candidates_list
  /\ preserves dirs create_minc_candidates_list
  /\ preserves files create_minc_candidates_list
  /\ forall candidate so,
       preserves dirs (minc_query candidate so)
       /\ preserves files (minc_query candidate so).
Proof.
  split; [apply create_bids_candidates_list_keeps_dirs |].
  split; [apply create_minc_candidates_list_keeps_dirs |].
  split; [apply create_minc_candidates_list_keeps_files |].
  intros candidate so.
  split; [apply minc_query_keeps_dirs | apply minc_query_keeps_files].
Qed.

(** ** Records the manifest cannot place *)




(** ** A candidate document that lacks a property *)

Lemma map_each_getitem_missing fields w :
  forall before k after,
    Forall (fun k' => is_Some (dict_get fields k')) before ->
    dict_get fields k = None ->
    map_each (fun property_key =>
                v <- getitem (JObj fields) property_key ;;
                ret (property_key, v)) (before ++ k :: after) w
    = Raise (KeyError k) w.
Proof.
  induction before as [| k0 before IH]; intros k after Hbefore Hk.
  - cbn [app map_each].
    rewrite (bind_raise_run (v0 <- getitem (JObj fields) k ;; ret (k, v0)) _
                            w (KeyError k) w); [done |].
    unfold bind. simpl. by rewrite Hk.
  - apply Forall_cons in Hbefore as [[v0 Hk0] Hbefore].
    cbn [app map_each].
    rewrite (bind_ret_run (v1 <- getitem (JObj fields) k0 ;; ret (k0, v1)) _
                          w (k0, v0) w).
    + by rewrite (bind_raise_run _ _ _ _ _ (IH k after Hbefore Hk)).
    + unfold bind. simpl. by rewrite Hk0.
Qed.

(** X12: when the candidate document lacks one of the seven properties,
    [candidate.json] has been opened by the time the property is looked
    up: the call raises [KeyError] for the first property that is missing
    and leaves [candidate.json] empty. *)
Theorem write_candidate_json_missing_property
    fields cid before k after w :
  dict_get fields "CandID" = Some cid ->
  ["CandID"; "PSCID"; "Site"; "DoB"; "Gender"; "Language"; "Project"]
  = before ++ k :: after ->
  Forall (fun k' => is_Some (dict_get fields k')) before ->
  dict_get fields k = None ->
  write_candidate_json (JObj fields) w
  = Raise (KeyError k)
          (World (<[base_directory +:+ "/" +:+ py_str cid
                    +:+ "/candidate.json" := ""]> (files w))
                 (dirs w) (net w) (sent w) (stdout w) (token w)).
Proof.
  intros Hcid Hsplit Hbefore Hk.
  assert (Hget : getitem (JObj fields) "CandID" w = Ret cid w).
  { simpl. by rewrite Hcid. }
  unfold write_candidate_json.
  rewrite (bind_ret_run _ _ _ _ _ Hget).
  unfold with_open_w.
  set (path := base_directory +:+ "/" +:+ py_str cid +:+ "/candidate.json").
  set (w1 := World (<[path := ""]> (files w)) (dirs w) (net w) (sent w)
                   (stdout w) (token w)).
  rewrite (bind_ret_run (put_file path "") _ w tt w1 eq_refl).
  assert (Hproj : candidate_projection (JObj fields) w1
                  = Raise (KeyError k) w1).
  { unfold candidate_projection, candidate_properties. rewrite Hsplit.
    by rewrite (bind_raise_run _ _ _ _ _
                  (map_each_getitem_missing fields w1 _ _ _ Hbefore Hk)). }
  by rewrite (bind_raise_run _ _ _ _ _
                (bind_raise_run _ _ _ _ _ Hproj)).
Qed.

(** ** How the script ends *)

Lemma no_exit_ret {A} (a : A) : no_exit (ret a).
Proof. by intros w. Qed.

Lemma no_exit_raise {A} e : no_exit (@raise A e).
Proof. by intros w. Qed.

Lemma no_exit_starve {A} : no_exit (@starve A).
Proof. by intros w. Qed.

Lemma no_exit_bind {A B} (m : M A) (k : A -> M B) :
  no_exit m -> (forall a, no_exit (k a)) -> no_exit (bind m k).
Proof.
  intros Hm Hk w. specialize (Hm w). unfold bind.
  destruct (m w) as [a w1 | e w1 | c w1 |]; try done. apply Hk.
Qed.

Lemma no_exit_lift_opt {A} e (o : option A) : no_exit (lift_opt e o).
Proof. by destruct o; intros w. Qed.

Lemma no_exit_when b m : no_exit m -> no_exit (when b m).
Proof. destruct b; [done |]. intros _. apply no_exit_ret. Qed.

Lemma no_exit_for_each {A} (xs : list A) body :
  (forall x, no_exit (body x)) -> no_exit (for_each xs body).
Proof.
  intros Hbody. induction xs as [| x xs IH]; simpl.
  - apply no_exit_ret.
  - apply no_exit_bind; auto.
Qed.

Lemma no_exit_fold_each {A S} (xs : list A) (body : S -> A -> M S) :
  (forall s x, no_exit (body s x)) -> forall s, no_exit (fold_each xs body s).
Proof.
  intros Hbody. induction xs as [| x xs IH]; intros s; simpl.
  - apply no_exit_ret.
  - apply no_exit_bind; auto.
Qed.

Lemma no_exit_map_each {A B} (g : A -> M B) xs :
  (forall x, no_exit (g x)) -> no_exit (map_each g xs).
Proof.
  intros Hg. induction xs as [| x xs IH]; simpl.
  - apply no_exit_ret.
  - apply no_exit_bind; [auto |]. intros y.
    apply no_exit_bind; [auto |]. intros ys. apply no_exit_ret.
Qed.

Lemma no_exit_filter_each {A} (p : A -> M bool) xs :
  (forall x, no_exit (p x)) -> no_exit (filter_each p xs).
Proof.
  intros Hp. induction xs as [| x xs IH]; simpl.
  - apply no_exit_ret.
  - apply no_exit_bind; [auto |]. intros keep.
    apply no_exit_bind; [auto |]. intros kept. apply no_exit_ret.
Qed.

Lemma no_exit_pure {A} (m : M A) : pure m -> no_exit m.
Proof. intros [[e | a] Hm] w; by rewrite Hm. Qed.

Lemma no_exit_print line : no_exit (print line).
Proof. by intros w. Qed.

Lemma no_exit_get_token : no_exit get_token.
Proof. by intros w. Qed.

Lemma no_exit_set_token t : no_exit (set_token t).
Proof. by intros w. Qed.

Lemma no_exit_http_send rq : no_exit (http_send rq).
Proof. intros w. unfold http_send. by destruct (net w). Qed.

Lemma no_exit_isfile p : no_exit (isfile p).
Proof. by intros w. Qed.

Lemma no_exit_path_exists p : no_exit (path_exists p).
Proof. by intros w. Qed.

Lemma no_exit_makedirs p : no_exit (makedirs p).
Proof. by intros w. Qed.

Lemma no_exit_read_file p : no_exit (read_file p).
Proof. intros w. unfold read_file. by destruct (files w !! p). Qed.

Lemma no_exit_put_file p data : no_exit (put_file p data).
Proof. by intros w. Qed.

Lemma no_exit_os_remove p : no_exit (os_remove p).
Proof. intros w. unfold os_remove. by destruct (files w !! p). Qed.

Lemma no_exit_getitem j key : no_exit (getitem j key).
Proof. apply no_exit_pure, pure_getitem. Qed.

Lemma no_exit_py_iter j : no_exit (py_iter j).
Proof. apply no_exit_pure, pure_py_iter. Qed.

Lemma no_exit_as_str j : no_exit (as_str j).
Proof. apply no_exit_pure, pure_as_str. Qed.

Lemma no_exit_int_of j : no_exit (int_of j).
Proof.
  destruct j; simpl;
    first [apply no_exit_raise | apply no_exit_ret | apply no_exit_lift_opt].
Qed.

Lemma no_exit_decode_ascii s : no_exit (decode_ascii s).
Proof.
  unfold decode_ascii.
  destruct (forallb _ _); [apply no_exit_ret | apply no_exit_raise].
Qed.

Create HintDb ending.

Hint Resolve no_exit_ret no_exit_raise no_exit_starve no_exit_lift_opt
  no_exit_print no_exit_get_token no_exit_set_token no_exit_http_send
  no_exit_isfile no_exit_path_exists no_exit_makedirs no_exit_read_file
  no_exit_put_file no_exit_os_remove no_exit_getitem no_exit_py_iter
  no_exit_as_str no_exit_int_of no_exit_decode_ascii : ending.

Ltac ending_step :=
  match goal with
  | |- no_exit (bind _ _) => apply no_exit_bind; [| intros ?]
  | |- no_exit (when _ _) => apply no_exit_when
  | |- no_exit (for_each _ _) => apply no_exit_for_each; intros ?
  | |- no_exit (fold_each _ _ _) => apply no_exit_fold_each; intros ? ?
  | |- no_exit (map_each _ _) => apply no_exit_map_each; intros ?
  | |- no_exit (filter_each _ _) => apply no_exit_filter_each; intros ?
  | |- no_exit (if ?b then _ else _) => destruct b
  | |- no_exit (match ?x with _ => _ end) => destruct x
  | |- no_exit _ => solve [eauto with ending]
  end.

Ltac ending := repeat ending_step.

Lemma no_exit_process_api_get url hdrs api_request expected_codes so :
  no_exit (process_api_get url hdrs api_request expected_codes so).
Proof.
  assert (Hloop : forall fuel,
             no_exit (process_api_get_loop fuel url hdrs api_request
                                           expected_codes so)).
  { induction fuel as [| fuel IH]; simpl; [apply no_exit_starve |].
    unfold session_get. ending; auto. }
  intros w. apply Hloop.
Qed.

Hint Resolve no_exit_process_api_get : ending.

Lemma no_exit_get_json api_request so : no_exit (get_json api_request so).
Proof. unfold get_json. ending. Qed.

Lemma no_exit_get_file api_request download_location filename
      etag_checking so :
  no_exit (get_file api_request download_location filename etag_checking so).
Proof. unfold get_file, with_open_w. ending. Qed.

Hint Resolve no_exit_get_json no_exit_get_file : ending.

Lemma no_exit_initialize_jwt u pw host version :
  no_exit (initialize_jwt u pw host version).
Proof. unfold initialize_jwt. ending. Qed.

Lemma no_exit_create_minc_candidates_list :
  no_exit create_minc_candidates_list.
Proof. unfold create_minc_candidates_list, new_session. ending. Qed.

Lemma no_exit_create_bids_candidates_list :
  no_exit create_bids_candidates_list.
Proof.
  unfold create_bids_candidates_list, get_dataset_file, fold_manifest,
    fold_session, fold_image, new_session.
  ending.
Qed.

Lemma no_exit_minc_filter vs : no_exit (minc_filter vs).
Proof. induction vs as [| [key val] vs IH]; simpl; ending. Qed.

Lemma no_exit_process_minc_func candidate :
  no_exit (process_minc_func candidate).
Proof.
  pose proof no_exit_minc_filter.
  unfold process_minc_func, minc_query, minc_query_visit, minc_materialize,
    write_candidate_json, candidate_projection, minc_make_visit,
    minc_fetch_visit, minc_fetch_image, with_open_w, new_session.
  ending; auto.
Qed.

Lemma no_exit_process_bids_func candidate :
  no_exit (process_bids_func candidate).
Proof.
  unfold process_bids_func, bids_make_visit, bids_fetch_visit, new_session.
  ending.
Qed.

Lemma map_each_length {A B} (f : A -> M B) :
  forall xs w ys w', map_each f xs w = Ret ys w' -> length ys = length xs.
Proof.
  induction xs as [| x xs IH]; intros w ys w' Hrun; simpl in Hrun.
  - by injection Hrun as <- <-.
  - apply bind_ret_inv in Hrun as (y & w1 & _ & Hrun).
    apply bind_ret_inv in Hrun as (ys' & w2 & Hrest & Hrun).
    injection Hrun as <- <-. simpl. f_equal. by eapply IH.
Qed.

Lemma dispatch_ends {C R} (cand_id : C -> M json)
      (process_function : C -> M R) candidates w :
  (forall c, no_exit (cand_id c)) ->
  (forall c, no_exit (process_function c)) ->
  match dispatch cand_id process_function candidates w with
  | Ret _ _ => False
  | Exit code w' =>
      code = 2%Z
      \/ (code = 0%Z /\ exists k, last (stdout w') = Some (summary k k))
  | _ => True
  end.
Proof.
  intros Hid Hprocess. unfold dispatch.
  set (selection := match specified_candidates with
                    | [] => ret candidates
                    | _ :: _ => filter_each _ candidates
                    end).
  assert (Hselection : no_exit selection).
  { subst selection. destruct specified_candidates; [apply no_exit_ret |].
    apply no_exit_filter_each. intros c. ending. }
  specialize (Hselection w). unfold bind at 1.
  destruct (selection w) as [selected w1 | e w1 | c w1 |]; try done.
  assert (Hrun : match (candidates_list <- map_each process_function selected ;;
                        print (nl +:+ "The script completed successfully and downloaded "
                               +:+ pretty (length candidates_list) +:+ "/"
                               +:+ pretty (length selected) +:+ " candidates." +:+ nl) ;;;
                        @exit unit 0) w1 with
                 | Ret _ _ => False
                 | Exit code w' =>
                     code = 0%Z
                     /\ exists k, last (stdout w') = Some (summary k k)
                 | _ => True
                 end).
  { pose proof (no_exit_map_each process_function selected Hprocess w1)
      as Hmap.
    unfold bind at 1.
    destruct (map_each process_function selected w1)
      as [done_list w2 | e w2 | c w2 |] eqn:Hmapped; try done.
    apply map_each_length in Hmapped. rewrite Hmapped.
    cbv [bind print exit]. split; [done |].
    exists (length selected). simpl. by rewrite last_snoc. }
  destruct selected as [| c0 selected].
  - destruct specified_candidates as [| z zs].
    + match type of Hrun with
      | match ?t with _ => _ end => destruct t as [| | code w' |]
      end; try done. by right.
    + cbv [bind print exit]. by left.
  - match type of Hrun with
    | match ?t with _ => _ end => destruct t as [| | code w' |]
    end; try done. by right.
Qed.

(** X13: the script never falls off its end.  When it leaves by [exit] the
    status is 0, 1, 2 or 3, and status 0 comes with a last line that
    reports as many candidates completed as were asked for: a candidate
    that fails ends the run with its exception instead. *)
Theorem main_script_exit_status w :
  match main_script w with
  | Ret _ _ => False
  | Exit code w' =>
      code ∈ [0%Z; 1%Z; 2%Z; 3%Z]
      /\ (code = 0%Z -> exists k, last (stdout w') = Some (summary k k))
  | _ => True
  end.
Proof.
  assert (Hcodes : forall {C R} (cand_id : C -> M json)
                          (process_function : C -> M R) candidates w0,
             (forall c, no_exit (cand_id c)) ->
             (forall c, no_exit (process_function c)) ->
             match dispatch cand_id process_function candidates w0 with
             | Ret _ _ => False
             | Exit code w' =>
                 code ∈ [0%Z; 1%Z; 2%Z; 3%Z]
                 /\ (code = 0%Z ->
                     exists k, last (stdout w') = Some (summary k k))
             | _ => True
             end).
  { intros C R cand_id process_function candidates w0 Hid Hprocess.
    pose proof (dispatch_ends cand_id process_function candidates w0
                              Hid Hprocess) as Hends.
    destruct (dispatch _ _ _ w0) as [| | code w' |]; try done.
    destruct Hends as [-> | [-> Hlast]].
    - split; [| done]. do 2 right. by left.
    - split; [by left | done]. }
  unfold main_script. unfold bind at 1.
  pose proof (no_exit_initialize_jwt username password hostname api_version w)
    as Hlogin.
  destruct (initialize_jwt _ _ _ _ w) as [logged_in w1 | e w1 | c w1 |];
    try done.
  destruct logged_in.
  - destruct (bool_decide (imaging_format = "bids")).
    + unfold bind at 1.
      pose proof (no_exit_create_bids_candidates_list w1) as Hbuild.
      destruct (create_bids_candidates_list w1) as [cs w2 | e w2 | c w2 |];
        try done.
      apply Hcodes; [intros c; apply no_exit_ret |].
      apply no_exit_process_bids_func.
    + destruct (bool_decide (imaging_format = "minc")).
      * unfold bind at 1.
        assert (Hbuild : no_exit (l <- create_minc_candidates_list ;;
                                  py_iter l)).
        { apply no_exit_bind;
            [apply no_exit_create_minc_candidates_list |].
          intros l. apply no_exit_py_iter. }
        specialize (Hbuild w1).
        destruct ((l <- create_minc_candidates_list ;; py_iter l) w1)
          as [cs w2 | e w2 | c w2 |]; try done.
        apply Hcodes; [intros c; apply no_exit_getitem |].
        apply no_exit_process_minc_func.
      * cbv [bind print exit]. split; [| done]. right. by left.
  - cbv [bind print exit]. split; [| done]. do 3 right. by left.
Qed.

(** ** Only the requested candidates are processed *)

Lemma filter_each_ids {C} (cand_id : C -> M json) (ids : C -> Z) w :
  forall candidates,
    Forall (fun c => exists cid,
                cand_id c w = Ret cid w /\ int_of cid w = Ret (ids c) w)
           candidates ->
    filter_each (fun candidate =>
                   cid <- cand_id candidate ;;
                   n <- int_of cid ;;
                   ret (bool_decide (n ∈ specified_candidates)))
                candidates w
    = Ret (List.filter (fun c => bool_decide (ids c ∈ specified_candidates))
                       candidates) w.
Proof.
  induction 1 as [| c candidates (cid & Hcid & Hn) _ IH]; [done |].
  cbn [filter_each List.filter].
  rewrite (bind_ret_run (cid0 <- cand_id c ;; n0 <- int_of cid0 ;;
                         ret (bool_decide (n0 ∈ specified_candidates)))
                        _ w (bool_decide (ids c ∈ specified_candidates)) w).
  - by rewrite (bind_ret_run _ _ _ _ _ IH).
  - by rewrite (bind_ret_run _ _ _ _ _ Hcid), (bind_ret_run _ _ _ _ _ Hn).
Qed.

(** X14: with candidates requested, the processing function is mapped
    over exactly the candidates of the manifest whose CandID reads as one
    of the requested numbers, in manifest order, and the script goes on to
    its summary and [exit(0)]; with none requested it is mapped over the
    whole manifest. *)
Theorem dispatch_requested_only {C R} (cand_id : C -> M json)
    (process_function : C -> M R) (ids : C -> Z) candidates w :
  (specified_candidates <> [] ->
   Forall (fun c => exists cid,
               cand_id c w = Ret cid w /\ int_of cid w = Ret (ids c) w)
          candidates) ->
  let selected :=
    match specified_candidates with
    | [] => candidates
    | _ :: _ =>
        List.filter (fun c => bool_decide (ids c ∈ specified_candidates))
                    candidates
    end in
  selected <> [] ->
  dispatch cand_id process_function candidates w
  = (candidates_list <- map_each process_function selected ;;
     print (summary (length candidates_list) (length selected)) ;;;
     exit 0) w.
Proof.
  intros Hids selected Hselected. unfold dispatch.
  assert (Hfilter : specified_candidates <> [] ->
            filter_each (fun candidate =>
                           cid <- cand_id candidate ;;
                           n <- int_of cid ;;
                           ret (bool_decide (n ∈ specified_candidates)))
                        candidates w
            = Ret (List.filter
                     (fun c => bool_decide (ids c ∈ specified_candidates))
                     candidates) w).
  { intros Hspec. by apply filter_each_ids, Hids. }
  subst selected. revert Hfilter Hselected. clear Hids.
  destruct specified_candidates as [| z zs]; intros Hfilter Hselected.
  - rewrite (bind_ret_run (ret candidates) _ w candidates w eq_refl).
    by destruct candidates.
  - rewrite (bind_ret_run _ _ _ _ _ (Hfilter ltac:(done))).
    by destruct (List.filter _ candidates).
Qed.

(** ** The folders of a BIDS candidate *)

Lemma on_disk_mono p w w' :
  files w' = files w -> dirs w ⊆ dirs w' -> on_disk p w -> on_disk p w'.
Proof.
  intros Hf Hd [Hfile | Hdir]; [left; by rewrite Hf | right; by apply Hd].
Qed.

(** [if not os.path.exists(p): os.makedirs(p)] *)
Lemma ensure_run p w :
  exists w',
    (present <- path_exists p ;; when (negb present) (makedirs p)) w
    = Ret tt w'
    /\ files w' = files w /\ net w' = net w /\ sent w' = sent w
    /\ dirs w ⊆ dirs w'
    /\ on_disk p w'
    /\ (on_disk p w -> w' = w).
Proof.
  unfold bind, path_exists.
  destruct (bool_decide (is_Some (files w !! p))) eqn:Hfile;
    [| destruct (bool_decide (p ∈ dirs w)) eqn:Hdir]; simpl.
  - apply bool_decide_eq_true_1 in Hfile.
    exists w. repeat split; try done. by left.
  - apply bool_decide_eq_true_1 in Hdir.
    exists w. repeat split; try done. by right.
  - apply bool_decide_eq_false_1 in Hfile.
    apply bool_decide_eq_false_1 in Hdir.
    eexists. split; [reflexivity |]. simpl.
    repeat split; try done.
    + apply union_subseteq_r.
    + right. simpl. apply elem_of_union. left. by apply elem_of_singleton.
    + by intros [? | ?].
Qed.

Lemma ensure_each {A} (path_of : A -> string) :
  forall xs w,
    exists w',
      for_each xs (fun x =>
                     present <- path_exists (path_of x) ;;
                     when (negb present) (makedirs (path_of x))) w
      = Ret tt w'
      /\ files w' = files w /\ net w' = net w /\ sent w' = sent w
      /\ dirs w ⊆ dirs w'
      /\ (forall x, x ∈ xs -> on_disk (path_of x) w')
      /\ ((forall x, x ∈ xs -> on_disk (path_of x) w) -> w' = w).
Proof.
  induction xs as [| x xs IH]; intros w.
  - exists w. repeat split; try done. intros x Hx. by apply elem_of_nil in Hx.
  - destruct (ensure_run (path_of x) w)
      as (w1 & Hrun1 & Hf1 & Hn1 & Hs1 & Hd1 & Hon1 & Hsame1).
    destruct (IH w1) as (w2 & Hrun2 & Hf2 & Hn2 & Hs2 & Hd2 & Hon2 & Hsame2).
    exists w2. split; [| split; [| split; [| split; [| split; [| split]]]]].
    + cbn [for_each]. rewrite (bind_ret_run _ _ _ _ _ Hrun1). exact Hrun2.
    + congruence.
    + congruence.
    + congruence.
    + by etrans.
    + intros y [-> | Hy]%elem_of_cons; [| by apply Hon2].
      by apply (on_disk_mono _ w1).
    + intros Hall. rewrite Hsame2.
      * apply Hsame1, Hall. by left.
      * rewrite Hsame1 by (apply Hall; by left).
        intros y Hy. apply Hall. by right.
Qed.

Lemma bids_make_visits_run candidate :
  forall visits w,
    (forall visit, visit ∈ visits ->
                   is_Some (dict_get (Visits candidate) visit)) ->
    exists w',
      for_each visits (bids_make_visit candidate) w = Ret tt w'
      /\ files w' = files w /\ net w' = net w /\ sent w' = sent w
      /\ dirs w ⊆ dirs w'
      /\ bids_folders_on_disk candidate visits w'
      /\ (bids_folders_on_disk candidate visits w -> w' = w).
Proof.
  induction visits as [| visit visits IH]; intros w Hentries.
  - exists w. split; [done |]. do 4 (split; [done |]). split; [| done].
    intros visit entry Hin. by apply elem_of_nil in Hin.
  - destruct (Hentries visit ltac:(by left)) as [entry Hentry].
    destruct (ensure_run (base_directory +:+ "/sub-" +:+ CandID candidate
                          +:+ "/ses-" +:+ visit) w)
      as (w1 & Hrun1 & Hf1 & Hn1 & Hs1 & Hd1 & Hon1 & Hsame1).
    destruct (ensure_each
                (fun category => base_directory +:+ "/sub-"
                                 +:+ CandID candidate +:+ "/ses-" +:+ visit
                                 +:+ "/" +:+ category)
                (dict_keys (Folders entry)) w1)
      as (w2 & Hrun2 & Hf2 & Hn2 & Hs2 & Hd2 & Hon2 & Hsame2).
    destruct (IH w2) as (w3 & Hrun3 & Hf3 & Hn3 & Hs3 & Hd3 & Hon3 & Hsame3).
    { intros v Hv. apply Hentries. by right. }
    assert (Hstep : bids_make_visit candidate visit w = Ret tt w2).
    { unfold bids_make_visit.
      apply bind_ret_inv in Hrun1 as (present & w0 & Hexists & Hmake).
      rewrite (bind_ret_run _ _ _ _ _ Hexists).
      rewrite (bind_ret_run _ _ _ _ _ Hmake).
      rewrite Hentry.
      rewrite (bind_ret_run (lift_opt _ (Some entry)) _ w1 entry w1 eq_refl).
      exact Hrun2. }
    exists w3. split; [| split; [| split; [| split; [| split; [| split]]]]].
    + cbn [for_each]. rewrite (bind_ret_run _ _ _ _ _ Hstep). exact Hrun3.
    + congruence.
    + congruence.
    + congruence.
    + etrans; [exact Hd1 |]. by etrans.
    + intros v e [-> | Hv]%elem_of_cons He; [| by apply Hon3].
      rewrite Hentry in He. injection He as <-.
      split.
      * apply (on_disk_mono _ w1); [congruence | by etrans | done].
      * intros category Hcat.
        apply (on_disk_mono _ w2); [done | done | by apply Hon2].
    + intros Hall.
      destruct (Hall visit entry ltac:(by left) Hentry) as [Hv Hcats].
      assert (Hw1 : w1 = w) by (by apply Hsame1).
      assert (Hw2 : w2 = w).
      { rewrite <- Hw1. apply Hsame2. rewrite Hw1. exact Hcats. }
      rewrite Hsame3; [done |]. rewrite Hw2.
      intros v e Hv' He. apply Hall; [by right | done].
Qed.


(** ** Downloads without ETag checking *)

(** X16: without ETag checking, as for the QC documents, a call that
    returns has sent only requests free of [If-None-Match], has taken a
    200 response, and has written its body and nothing else: a sidecar of
    the same name, if there is one, is neither read, changed nor removed. *)
Theorem get_file_unchecked api_request download_location filename so w v w' :
  get_file api_request download_location filename false so w = Ret v w' ->
  v = "New"
  /\ exists pre r,
       net w = pre ++ Responds r :: net w'
       /\ Forall (retried [200%Z]) pre
       /\ status_code r = 200%Z
       /\ sent w' = sent w ++ replicate (S (length pre))
                      (get_request so api_request [])
       /\ files w' = <[download_location +:+ filename := content r]>
                       (files w)
       /\ dirs w' = dirs w.
Proof.
  intros Hrun.
  rewrite get_file_uncached in Hrun by (by left).
  apply bind_ret_inv in Hrun as (r & w1 & Hget & Hrun).
  apply process_api_get_inv in Hget
    as (pre & Hnet & Hpre & Hr & Hs1 & Hf1 & Hd1 & Ht1).
  destruct (store_download_run api_request download_location filename
              false r w1)
    as (w2 & Hstore & Hf2 & Hd2 & Hn2 & Hs2 & Ht2).
  rewrite Hstore in Hrun. simpl in Hrun. injection Hrun as <- <-.
  split; [done |]. exists pre, r.
  rewrite Hn2, Hs2, Hf2, Hd2, Hf1. unfold stored, get_request.
  split; [done |]. split; [done |].
  split; [by apply list_elem_of_singleton in Hr |]. done.
Qed.

(** ** session.json *)

(** X17: for a kept visit the folder is made unless the path exists, then
    [session.json] is opened and receives what Python prints for the
    ['Meta'] entry of the session document; a session document without
    ['Meta'] raises [KeyError] and leaves [session.json] empty in the
    folder just made. *)
Theorem minc_make_visit_session_json cid vs visit entry fields w :
  dict_get vs visit = Some entry ->
  visit_json entry = Some (JObj fields) ->
  exists w1,
    (present <- path_exists (base_directory +:+ "/" +:+ py_str cid +:+ "/"
                             +:+ visit) ;;
     when (negb present)
          (makedirs (base_directory +:+ "/" +:+ py_str cid +:+ "/"
                     +:+ visit))) w
    = Ret tt w1
    /\ on_disk (base_directory +:+ "/" +:+ py_str cid +:+ "/" +:+ visit) w1
    /\ minc_make_visit cid vs visit w
       = match dict_get fields "Meta" with
         | Some meta =>
             Ret tt (World (<[base_directory +:+ "/" +:+ py_str cid +:+ "/"
                              +:+ visit +:+ "/" +:+ "session.json" :=
                                py_str meta]> (files w1))
                           (dirs w1) (net w1) (sent w1) (stdout w1)
                           (token w1))
         | None =>
             Raise (KeyError "Meta")
                   (World (<[base_directory +:+ "/" +:+ py_str cid +:+ "/"
                             +:+ visit +:+ "/" +:+ "session.json" := ""]>
                             (files w1))
                          (dirs w1) (net w1) (sent w1) (stdout w1)
                          (token w1))
         end.
Proof.
  intros Hentry Hjson.
  destruct (ensure_run (base_directory +:+ "/" +:+ py_str cid +:+ "/"
                        +:+ visit) w)
    as (w1 & Hrun1 & _ & _ & _ & _ & Hon & _).
  exists w1. split; [exact Hrun1 |]. split; [exact Hon |].
  unfold minc_make_visit.
  apply bind_ret_inv in Hrun1 as (present & w0 & Hexists & Hmake).
  rewrite (bind_ret_run _ _ _ _ _ Hexists).
  rewrite (bind_ret_run _ _ _ _ _ Hmake).
  unfold with_open_w.
  set (path := base_directory +:+ "/" +:+ py_str cid +:+ "/" +:+ visit
               +:+ "/" +:+ "session.json").
  set (w2 := World (<[path := ""]> (files w1)) (dirs w1) (net w1) (sent w1)
                   (stdout w1) (token w1)).
  rewrite (bind_ret_run (put_file path "") _ w1 tt w2 eq_refl).
  unfold bind at 1. unfold bind at 1. rewrite Hentry.
  unfold lift_opt at 1. unfold ret at 1. unfold bind at 1.
  rewrite Hjson. unfold lift_opt, bind, ret, raise, getitem. simpl.
  destruct (dict_get fields "Meta") as [meta |]; [| done].
  unfold put_file. simpl. by rewrite insert_insert_eq.
Qed.

(** ** A second run of process_bids_func *)

Lemma bind_ext_run {A B} (m m' : M A) (k k' : A -> M B) w :
  m w = m' w ->
  (forall a w', k a w' = k' a w') ->
  bind m k w = bind m' k' w.
Proof.
  intros Hm Hk. unfold bind. rewrite Hm.
  destruct (m' w); [apply Hk | done | done | done].
Qed.

Lemma for_each_app {A} (body : A -> M unit) xs ys w :
  for_each (xs ++ ys) body w = (for_each xs body ;;; for_each ys body) w.
Proof.
  revert w. induction xs as [| x xs IH]; intros w; [done |].
  cbn [app for_each]. unfold bind.
  destruct (body x w) as [[] w1 | | |]; [| done | done | done].
  rewrite IH. done.
Qed.

Lemma for_each_concat {A B} (f : A -> list B) (body : B -> M unit) xs w :
  for_each (concat (f <$> xs)) body w
  = for_each xs (fun x => for_each (f x) body) w.
Proof.
  revert w. induction xs as [| x xs IH]; intros w; [done |].
  cbn [fmap list_fmap concat for_each]. rewrite for_each_app.
  apply bind_ext_run; [done |]. intros _ w1. apply IH.
Qed.

Lemma for_each_fmap {A B} (g : A -> B) (body : B -> M unit) xs w :
  for_each (g <$> xs) body w = for_each xs (fun x => body (g x)) w.
Proof.
  revert w. induction xs as [| x xs IH]; intros w; [done |].
  cbn [fmap list_fmap for_each].
  apply bind_ext_run; [done |]. intros _ w1. apply IH.
Qed.

Lemma for_each_ext {A} (body body' : A -> M unit) xs :
  (forall x, x ∈ xs -> forall w, body x w = body' x w) ->
  forall w, for_each xs body w = for_each xs body' w.
Proof.
  induction xs as [| x xs IH]; intros Hext w; [done |].
  cbn [for_each]. apply bind_ext_run.
  - apply Hext. by left.
  - intros _ w1. apply IH. intros y Hy. apply Hext. by right.
Qed.

(** The nested download loops visit the pairs of [bids_downloads] in
    order; none of their dictionary lookups fails. *)
Lemma bids_fetch_flat candidate so w :
  for_each (dict_keys (Visits candidate)) (bids_fetch_visit candidate so) w
  = for_each (bids_downloads candidate) (bids_download so) w.
Proof.
  unfold bids_downloads. rewrite for_each_concat.
  revert w. apply for_each_ext. intros visit Hvisit w.
  destruct (dict_get_elem_of _ _ Hvisit) as [entry Hentry].
  unfold bids_fetch_visit. rewrite Hentry.
  unfold bids_visit_downloads. rewrite for_each_app.
  unfold lift_opt at 1. unfold bind at 1. unfold ret at 1.
  apply bind_ext_run.
  - by rewrite for_each_fmap.
  - intros _ w1. rewrite for_each_concat.
    revert w1. apply for_each_ext. intros category Hcategory w1.
    destruct (dict_get_elem_of _ _ Hcategory) as [links Hlinks].
    rewrite Hlinks. cbn [default lift_opt].
    unfold bind at 1. unfold ret at 1.
    by rewrite for_each_fmap.
Qed.

Lemma bids_downloads_current so :
  forall ds w script rest,
    Forall (has_sidecar (files w)) ds ->
    net w = script ++ rest ->
    Forall not_modified script ->
    length script = length ds ->
    exists w',
      for_each ds (bids_download so) w = Ret tt w'
      /\ files w' = files w /\ dirs w' = dirs w /\ net w' = rest
      /\ length (sent w') = length (sent w) + length ds.
Proof.
  induction ds as [| [loc file] ds IH];
    intros w script rest Hds Hnet Hscript Hlen.
  - destruct script; [| done]. exists w. repeat split; try done.
  - destruct script as [| o script]; [done |].
    apply Forall_cons in Hds as [Hd Hds].
    apply Forall_cons in Hscript as [Ho Hscript].
    destruct o as [| | | r]; try done.
    unfold has_sidecar in Hd. cbn [fst snd] in Hd.
    destruct file as [| | | link | |]; try done.
    destruct Hd as [etag Hetag].
    destruct (get_file_304_run link loc (basename link) so w etag [] r
                (script ++ rest) Hetag Hnet ltac:(constructor) Ho)
      as (w1 & Hget & Hf1 & Hd1 & Hn1 & Hs1).
    destruct (IH w1 script rest) as (w2 & Hrun & Hf2 & Hd2 & Hn2 & Hs2).
    { by rewrite Hf1. }
    { done. }
    { done. }
    { cbn [length] in Hlen. lia. }
    exists w2. split.
    + cbn [for_each]. unfold bids_download at 1. cbn [fst snd as_str].
      unfold bind at 1. unfold bind at 1. unfold ret at 1.
      unfold bind at 1. rewrite Hget. unfold ret at 1. exact Hrun.
    + rewrite Hf2, Hd2, Hn2, Hs2, Hf1, Hd1, Hs1.
      repeat split; try done.
      rewrite length_app. cbn [length replicate]. lia.
Qed.

(** X18: run on a tree that is up to date -- every link of the candidate
    is a string whose sidecar is on disk, and the server answers 304 to
    each of the requests -- [process_bids_func] returns its argument, sends
    one request per link and leaves every file as it was; when the folders
    are on disk as well, no directory is made either. *)
Theorem process_bids_func_all_current candidate w script rest :
  Forall (has_sidecar (files w)) (bids_downloads candidate) ->
  net w = script ++ rest ->
  Forall not_modified script ->
  length script = length (bids_downloads candidate) ->
  exists w',
    process_bids_func candidate w = Ret candidate w'
    /\ files w' = files w
    /\ net w' = rest
    /\ length (sent w') = length (sent w) + length (bids_downloads candidate)
    /\ dirs w ⊆ dirs w'
    /\ (on_disk (base_directory +:+ "/sub-" +:+ CandID candidate) w ->
        bids_folders_on_disk candidate (dict_keys (Visits candidate)) w ->
        dirs w' = dirs w).
Proof.
  intros Hds Hnet Hscript Hlen.
  destruct (ensure_run (base_directory +:+ "/sub-" +:+ CandID candidate) w)
    as (w1 & Hrun1 & Hf1 & Hn1 & Hs1 & Hd1 & _ & Hsame1).
  destruct (bids_make_visits_run candidate (dict_keys (Visits candidate)) w1)
    as (w2 & Hrun2 & Hf2 & Hn2 & Hs2 & Hd2 & _ & Hsame2).
  { apply dict_get_elem_of. }
  destruct (bids_downloads_current
              (Session [("Authorization", "Bearer " +:+ py_str (token w))])
              (bids_downloads candidate) w2 script rest)
    as (w3 & Hrun3 & Hf3 & Hd3 & Hn3 & Hs3).
  { by rewrite Hf2, Hf1. }
  { by rewrite Hn2, Hn1. }
  { done. }
  { done. }
  exists w3. split.
  - unfold process_bids_func.
    rewrite (bind_ret_run new_session _ w
               (Session [("Authorization", "Bearer " +:+ py_str (token w))])
               w eq_refl).
    apply bind_ret_inv in Hrun1 as (present & w0 & Hexists & Hmake).
    rewrite (bind_ret_run _ _ _ _ _ Hexists).
    rewrite (bind_ret_run _ _ _ _ _ Hmake).
    rewrite (bind_ret_run _ _ _ _ _ Hrun2).
    unfold bind at 1. rewrite bids_fetch_flat, Hrun3. done.
  - rewrite Hf3, Hf2, Hf1, Hs3, Hs2, Hs1, Hd3.
    do 3 (split; [done |]). split.
    + by etrans.
    + intros Hsub Hfolders. rewrite (Hsame1 Hsub) in Hsame2.
      by rewrite (Hsame2 Hfolders).
Qed.

End Script.

(** * Examples *)

Example basename_of_link :
  basename "/projects/loris/bids/sub-1200000/ses-V1/scans.tsv" = "scans.tsv".
Proof. reflexivity. Qed.

Example etag_header_any_case :
  header_get [("Content-Type", "application/json"); ("etag", "tag1")] "ETag"
  = Some "tag1".
Proof. reflexivity. Qed.

Example error_response_is_falsy :
  response_ok (Response 404 [] "") = false
  /\ response_ok (Response 200 [] "") = true.
Proof. split; reflexivity. Qed.

Example dict_set_keeps_position :
  dict_set [("a", 1); ("b", 2)] "a" 3 = [("a", 3); ("b", 2)]
  /\ dict_set [("a", 1); ("b", 2)] "c" 3 = [("a", 1); ("b", 2); ("c", 3)].
Proof. split; reflexivity. Qed.

(** Candidate 1200000 with the visits V1 (one image) and V2 (none): the
    folders of the candidate and of V1 are made, not the one of V2, and
    the image, its sidecar and its QC document are next to each other in
    the folder [get_file] is given. *)
Example flat_layout_of_one_candidate :
  exists w',
    process_minc_func "/out/" false sample_loads sample_repr sample_candidate
      (sample_world ∅ [answer 200 [] two_visits_text;
                       answer 200 [] session_text;
                       answer 200 [] one_image_text;
                       answer 200 [] session_text;
                       answer 200 [] no_images_text;
                       answer 200 [("ETag", "tag1")] "image bytes";
                       answer 200 [] "qc document"])
    = Ret (MincCandidate sample_candidate
             [("V1", MincVisit (Some session_doc) (Some [JStr "img001"]))])
          w'
    /\ dirs w' = {["/out//1200000"; "/out//1200000/V1"]}
    /\ dom (files w')
       = {["/out//1200000/candidate.json"; "/out//1200000/V1/session.json";
           "/out/1200000/V1/img001"; "/out/1200000/V1/.img001.etag";
           "/out/1200000/V1/img001.qc.json"]}
    /\ net w' = [].
Proof.
  eexists. split; [vm_compute; reflexivity |].
  split; [| split]; vm_compute; reflexivity.
Qed.

Lemma process_api_get_returns_first_expected_witness :
  let w := sample_world ∅ [ConnectTimeout "12:00" "timed out";
                           answer 503 [] "busy";
                           ConnectionError "12:01" "reset by peer";
                           answer 200 [] "data"; answer 200 [] "later"] in
  let pre := [ConnectTimeout "12:00" "timed out"; answer 503 [] "busy";
              ConnectionError "12:01" "reset by peer"] in
  net w = pre ++ answer 200 [] "data" :: [answer 200 [] "later"]
  /\ Forall (retried [200%Z]) pre
  /\ exists w',
       process_api_get false "https://host/x" [] "/x" [200%Z] sample_session w
       = Ret (Response 200 [] "data") w'
       /\ net w' = [answer 200 [] "later"]
       /\ length (sent w') = 4.
Proof.
  intros w pre.
  assert (H1 : net w = pre ++ answer 200 [] "data" :: [answer 200 [] "later"])
    by reflexivity.
  assert (H2 : Forall (retried [200%Z]) pre).
  { apply (bool_decide_unpack _). vm_compute. exact I. }
  split; [exact H1 |]. split; [exact H2 |].
  destruct (process_api_get_returns_first_expected false "https://host/x" []
              "/x" [200%Z] sample_session w pre (Response 200 [] "data")
              [answer 200 [] "later"] H1 H2)
    as [(w' & Hrun & Hnet & Hsent & _) _].
  { simpl. apply elem_of_cons. by left. }
  exists w'. split; [exact Hrun |]. split; [exact Hnet |].
  rewrite Hsent. reflexivity.
Defined.

(** A 500 response where only 200 is expected is not handed to the caller:
    the call sends the request a second time and returns the 200 response. *)
Lemma process_api_get_retries_unexpected_status :
  (status_code (Response 500 [] "oops") ∉ [200%Z])
  /\ process_api_get false "https://host/x" [] "/x" [200%Z] sample_session
       (sample_world ∅ [answer 500 [] "oops"; answer 200 [] "data"])
     = Ret (Response 200 [] "data")
           (World ∅ ∅ []
                  [Get "https://host/x" [("Authorization", "Bearer abc")];
                   Get "https://host/x" [("Authorization", "Bearer abc")]]
                  [] (JStr "abc")).
Proof.
  split.
  - apply (bool_decide_unpack _). vm_compute. exact I.
  - vm_compute. reflexivity.
Qed.

Lemma candidate_json_holds_seven_properties_witness :
  let values := [JStr "1200000"; JStr "MTL0001"; JStr "MTL";
                 JStr "1950-01-01"; JStr "Female"; JStr "French";
                 JStr "PREVENT-AD"] in
  dict_get sample_fields "CandID" = Some (JStr "1200000")
  /\ Forall2 (fun k v => dict_get sample_fields k = Some v)
             ["CandID"; "PSCID"; "Site"; "DoB"; "Gender"; "Language";
              "Project"] values
  /\ exists w',
       write_candidate_json "/out/" sample_repr sample_candidate
                            (sample_world ∅ [])
       = Ret tt w'
       /\ dirs w' = ∅.
Proof.
  intros values.
  assert (H1 : dict_get sample_fields "CandID" = Some (JStr "1200000"))
    by reflexivity.
  assert (H2 : Forall2 (fun k v => dict_get sample_fields k = Some v)
                 ["CandID"; "PSCID"; "Site"; "DoB"; "Gender"; "Language";
                  "Project"] values)
    by (repeat constructor).
  split; [exact H1 |]. split; [exact H2 |].
  destruct (candidate_json_holds_seven_properties "/out/" sample_repr
              sample_fields (JStr "1200000") values (sample_world ∅ [])
              H1 H2)
    as (w' & Hrun & _ & Hdirs & _).
  exists w'. split; [exact Hrun | exact Hdirs].
Defined.

(** The text written names seven properties, PSCID among them, and is not
    the text of the six properties CandID, Site, DoB, Gender, Language and
    Project alone. *)
Lemma candidate_json_names_pscid :
  exists w',
    write_candidate_json "/out/" sample_repr sample_candidate
                         (sample_world ∅ [])
    = Ret tt w'
    /\ files w' !! "/out//1200000/candidate.json"
       = Some ("{'CandID': '1200000', 'PSCID': 'MTL0001', 'Site': 'MTL', "
               +:+ "'DoB': '1950-01-01', 'Gender': 'Female', "
               +:+ "'Language': 'French', 'Project': 'PREVENT-AD'}")
    /\ files w' !! "/out//1200000/candidate.json"
       <> Some (py_repr sample_repr
                  (JObj [("CandID", JStr "1200000"); ("Site", JStr "MTL");
                         ("DoB", JStr "1950-01-01");
                         ("Gender", JStr "Female");
                         ("Language", JStr "French");
                         ("Project", JStr "PREVENT-AD")])).
Proof.
  eexists. split; [vm_compute; reflexivity |].
  split; [vm_compute; reflexivity |]. vm_compute. discriminate.
Qed.

Lemma fold_manifest_merges_witness :
  dict_get sample_manifest "SessionFiles" = Some (JArr sample_sessions)
  /\ dict_get sample_manifest "Images" = Some (JArr sample_images)
  /\ Forall well_formed_session sample_sessions
  /\ Forall (well_formed_image sample_sessions) sample_images
  /\ exists candidates,
       fold_manifest (JObj sample_manifest) (sample_world ∅ [])
       = Ret (dict_values candidates) (sample_world ∅ [])
       /\ exists r,
            visit_of candidates "1200000" "V1" = Some r
            /\ dict_get (Folders r) "anat"
               = Some [JStr "/bids/t1w.nii.gz"; JStr "/bids/t1w.json";
                       JStr "/bids/flair.nii.gz"].
Proof.
  assert (H1 : dict_get sample_manifest "SessionFiles"
               = Some (JArr sample_sessions)) by reflexivity.
  assert (H2 : dict_get sample_manifest "Images"
               = Some (JArr sample_images)) by reflexivity.
  assert (H3 : Forall well_formed_session sample_sessions).
  { repeat constructor; vm_compute; eauto. }
  assert (H4 : Forall (well_formed_image sample_sessions) sample_images).
  { repeat constructor; exists "1200000", "V1", "anat";
      repeat split; vm_compute; eauto. }
  do 4 (split; [assumption |]).
  destruct (fold_manifest_merges sample_manifest sample_sessions
              sample_images (sample_world ∅ []) H1 H2 H3 H4)
    as (candidates & Hrun & _ & Hview).
  exists candidates. split; [exact Hrun |].
  specialize (Hview "1200000" "V1").
  change (session_files sample_sessions "1200000" "V1")
    with (Some (session_links (JObj [("Candidate", JStr "1200000");
                                     ("Visit", JStr "V1");
                                     ("TsvLink", JStr "/bids/sub-1200000/ses-V1/scans.tsv");
                                     ("JsonLink", JStr "/bids/sub-1200000/ses-V1/scans.json")])))
    in Hview.
  destruct Hview as (r & Hr & _ & Hfolders).
  exists r. split; [exact Hr |]. rewrite Hfolders. reflexivity.
Defined.

(** Two session records of the same candidate and visit: the record that
    comes out holds the links of the second only. *)
Lemma fold_manifest_later_session_replaces :
  fold_manifest twice_manifest (sample_world ∅ [])
  = Ret [BidsCandidate "1200000"
           [("V1", BidsVisit [JStr "/bids/second.tsv";
                              JStr "/bids/second.json"] [])]]
        (sample_world ∅ []).
Proof. vm_compute. reflexivity. Qed.

Lemma get_file_current_on_304_witness :
  let w := sample_world cached_files [answer 304 [] ""] in
  files w !! etag_path "/out/" "img001" = Some "tag1"
  /\ net w = [] ++ answer 304 [] "" :: []
  /\ exists w',
       get_file false "/candidates/1200000/V1/images/img001" "/out/" "img001"
                true sample_session w
       = Ret "Current" w'
       /\ files w' = cached_files.
Proof.
  intros w.
  assert (H1 : files w !! etag_path "/out/" "img001" = Some "tag1")
    by (vm_compute; reflexivity).
  assert (H2 : net w = [] ++ answer 304 [] "" :: []) by reflexivity.
  split; [exact H1 |]. split; [exact H2 |].
  destruct (get_file_current_on_304 false
              "/candidates/1200000/V1/images/img001" "/out/" "img001"
              sample_session w "tag1" [] (Response 304 [] "") [] H1 H2
              (Forall_nil_2 _) eq_refl)
    as (w' & Hrun & Hfiles & _).
  exists w'. split; [exact Hrun | exact Hfiles].
Defined.

Lemma get_file_new_or_current_witness :
  let w := sample_world ∅ [answer 200 [("ETag", "tag2")] "bytes"] in
  files w !! etag_path "/out/" "img001" = None
  /\ is_Some (header_get [("ETag", "tag2")] "ETag")
  /\ exists w',
       get_file false "/candidates/1200000/V1/images/img001" "/out/" "img001"
                true sample_session w
       = Ret "New" w'
       /\ files w' !! "/out/img001" = Some "bytes"
       /\ files w' !! "/out/.img001.etag" = Some "tag2".
Proof.
  intros w.
  assert (H1 : files w !! etag_path "/out/" "img001" = None) by reflexivity.
  assert (H2 : is_Some (header_get [("ETag", "tag2")] "ETag"))
    by (vm_compute; eauto).
  split; [exact H1 |]. split; [exact H2 |].
  destruct (get_file_new_or_current false
              "/candidates/1200000/V1/images/img001" "/out/" "img001" true
              sample_session w) as [_ Hnew].
  destruct (Hnew [] (Response 200 [("ETag", "tag2")] "bytes") []
                 (or_intror H1) eq_refl (Forall_nil_2 _) eq_refl
                 (fun _ => H2))
    as (w' & Hrun & Hfiles & _).
  exists w'. split; [exact Hrun |]. rewrite Hfiles.
  split; vm_compute; reflexivity.
Defined.

(** ETag checking on, no sidecar, a 200 response without ETag header: the
    body is written and the call raises instead of returning ["New"]. *)
Lemma get_file_raises_after_body_write :
  exists w',
    get_file false "/candidates/1200000/V1/images/img001" "/out/" "img001"
             true sample_session (sample_world ∅ [answer 200 [] "bytes"])
    = Raise (KeyError "etag") w'
    /\ files w' !! "/out/img001" = Some "bytes".
Proof.
  eexists. split; [vm_compute; reflexivity |]. vm_compute. reflexivity.
Qed.

Lemma minc_fetch_image_qc_witness :
  let w := sample_world ∅ [answer 200 [("ETag", "tag1")] "image bytes";
                           answer 200 [] "qc document"] in
  exists w1 w2,
    get_file false "/candidates/1200000/V1/images/img001" "/out/1200000/V1/"
             "img001" true sample_session w
    = Ret "New" w1
    /\ net w1 = [] ++ answer 200 [] "qc document" :: []
    /\ minc_fetch_image "/out/" false sample_repr (JStr "1200000") "V1"
                        (JStr "img001") sample_session w
       = Ret tt w2
    /\ sent w2
       = sent w1
         ++ [Get ("https://registeredpreventad.loris.ca/api/v0.0.3-dev"
                  +:+ "/candidates/1200000/V1/images/img001/qc")
                 [("Authorization", "Bearer abc")]]
    /\ files w2 !! "/out/1200000/V1/img001.qc.json" = Some "qc document".
Proof.
  intros w.
  destruct (minc_fetch_image_qc "/out/" false sample_repr
              (JStr "1200000") "V1" "img001" sample_session w)
    as [_ Hnew].
  set (w1 := match get_file false "/candidates/1200000/V1/images/img001"
                            "/out/1200000/V1/" "img001" true sample_session w
             with Ret _ w1 => w1 | _ => w end).
  assert (H1 : get_file false "/candidates/1200000/V1/images/img001"
                        "/out/1200000/V1/" "img001" true sample_session w
               = Ret "New" w1) by (vm_compute; reflexivity).
  assert (H2 : net w1 = [] ++ answer 200 [] "qc document" :: [])
    by (vm_compute; reflexivity).
  destruct (Hnew w1 H1) as [_ Hqc].
  destruct (Hqc [] (Response 200 [] "qc document") [] H2 (Forall_nil_2 _)
                eq_refl)
    as (w2 & Hrun & _ & Hsent & Hfiles).
  exists w1, w2. split; [exact H1 |]. split; [exact H2 |].
  split; [exact Hrun |]. split; [exact Hsent |].
  rewrite Hfiles. apply lookup_insert_eq.
Defined.

Lemma process_minc_func_drops_empty_visits_witness :
  let w := sample_world ∅ [answer 200 [] visits_text;
                           answer 200 [] session_text;
                           answer 200 [] no_images_text] in
  exists w1 w',
    minc_query false sample_loads sample_repr sample_candidate
               sample_session w
    = Ret [("V2", MincVisit (Some session_doc) (Some []))] w1
    /\ process_minc_func "/out/" false sample_loads sample_repr
                         sample_candidate w
       = Ret (MincCandidate sample_candidate []) w'
    /\ dirs w' ⊆ {["/out//1200000"]}
    /\ sent w' = sent w1.
Proof.
  intros w.
  destruct (process_minc_func_drops_empty_visits "/out/" false sample_loads
              sample_repr sample_candidate w) as (_ & _ & Hempty).
  set (w1 := match minc_query false sample_loads sample_repr sample_candidate
                              sample_session w
             with Ret _ w1 => w1 | _ => w end).
  assert (H1 : minc_query false sample_loads sample_repr sample_candidate
                          sample_session w
               = Ret [("V2", MincVisit (Some session_doc) (Some []))] w1)
    by (vm_compute; reflexivity).
  destruct (Hempty [("V2", MincVisit (Some session_doc) (Some []))] w1
                   (JStr "1200000") H1)
    as [Hpost Hreturns].
  { repeat constructor. }
  { reflexivity. }
  destruct Hreturns as (w' & Hrun).
  { eexists. vm_compute. reflexivity. }
  unfold post in Hpost. rewrite Hrun in Hpost.
  destruct Hpost as (_ & Hdirs & Hsent).
  exists w1, w'. split; [exact H1 |]. split; [exact Hrun |].
  split; [| exact Hsent].
  intros p Hp. apply Hdirs in Hp. apply elem_of_union in Hp as [Hp | Hp].
  - exact Hp.
  - by apply elem_of_empty in Hp.
Defined.

Lemma main_script_none_requested_witness :
  let w := sample_world ∅ [answer 200 [] login_text;
                           answer 200 [] candidates_text] in
  exists w1 w2 w3,
    initialize_jwt false sample_loads "user" "secret" hostname api_version w
    = Ret true w1
    /\ create_minc_candidates_list false sample_loads sample_repr w1
       = Ret (JArr [JObj [("CandID", JStr "1200000")]]) w2
    /\ main_script "/out/" "minc" false [9999998%Z] sample_loads sample_repr
                   sample_int "user" "secret" w
       = Exit 2 w3
    /\ dirs w3 = ∅
    /\ stdout w3
       = ["Login successful. Token obtained.";
          "None of the CandID numbers provided (9999998) are valid.";
          "Exiting the script."].
Proof.
  intros w.
  set (w1 := match initialize_jwt false sample_loads "user" "secret"
                                  hostname api_version w
             with Ret _ w1 => w1 | _ => w end).
  set (w2 := match create_minc_candidates_list false sample_loads
                                               sample_repr w1
             with Ret _ w2 => w2 | _ => w end).
  assert (H1 : initialize_jwt false sample_loads "user" "secret" hostname
                              api_version w = Ret true w1)
    by (vm_compute; reflexivity).
  assert (H2 : create_minc_candidates_list false sample_loads sample_repr w1
               = Ret (JArr [JObj [("CandID", JStr "1200000")]]) w2)
    by (vm_compute; reflexivity).
  destruct (main_script_none_requested "/out/" "minc" false [9999998%Z]
              sample_loads sample_repr sample_int "user" "secret" w w1 w2)
    as (w3 & Hrun & Hdirs & _ & _ & _ & Hout).
  { discriminate. }
  { exact H1. }
  { right. split; [reflexivity |].
    exists (JArr [JObj [("CandID", JStr "1200000")]]),
           [JObj [("CandID", JStr "1200000")]].
    split; [exact H2 |]. split; [reflexivity |].
    constructor; [| constructor].
    exists (JStr "1200000"), 1200000%Z.
    split; [reflexivity |]. split; [reflexivity |].
    apply (bool_decide_unpack _). vm_compute. exact I. }
  exists w1, w2, w3. split; [exact H1 |]. split; [exact H2 |].
  split; [exact Hrun |]. split; [exact Hdirs |].
  rewrite Hout. vm_compute. reflexivity.
Defined.

Lemma get_file_missing_etag_witness :
  let w := sample_world cached_files [answer 200 [] "new bytes"] in
  net w = [] ++ answer 200 [] "new bytes" :: []
  /\ header_get [] "ETag" = None
  /\ exists w',
       get_file false "/candidates/1200000/V1/images/img001" "/out/" "img001"
                true sample_session w
       = Raise (KeyError "etag") w'
       /\ files w' !! "/out/img001" = Some "new bytes"
       /\ files w' !! "/out/.img001.etag" = Some "".
Proof.
  intros w.
  assert (H1 : net w = [] ++ answer 200 [] "new bytes" :: []) by reflexivity.
  assert (H2 : header_get [] "ETag" = None) by reflexivity.
  split; [exact H1 |]. split; [exact H2 |].
  destruct (get_file_missing_etag false
              "/candidates/1200000/V1/images/img001" "/out/" "img001"
              sample_session w [] (Response 200 [] "new bytes") [] H1
              (Forall_nil_2 _) eq_refl H2)
    as (w' & Hrun & Hbody & Hsidecar & _).
  exists w'. split; [exact Hrun |]. split; [exact Hbody | exact Hsidecar].
Defined.

(** No sidecar before the call; after the call has raised, the sidecar
    file is there, empty, next to the body. *)
Lemma get_file_leaves_empty_sidecar :
  files (sample_world ∅ [answer 200 [] "scan bytes"])
    !! "/out/.scan.mnc.etag" = None
  /\ exists w',
       get_file false "/candidates/1200000/V1/images/scan.mnc" "/out/"
                "scan.mnc" true sample_session
                (sample_world ∅ [answer 200 [] "scan bytes"])
       = Raise (KeyError "etag") w'
       /\ files w' !! "/out/scan.mnc" = Some "scan bytes"
       /\ files w' !! "/out/.scan.mnc.etag" = Some "".
Proof.
  split; [reflexivity |].
  eexists. split; [vm_compute; reflexivity |].
  split; vm_compute; reflexivity.
Qed.

Lemma candidate_argument_checker_range_witness :
  sample_int "1200000" = Some 1200000%Z
  /\ candidate_argument_checker sample_int "1200000" (sample_world ∅ [])
     = Ret 1200000%Z (sample_world ∅ [])
  /\ (exists msg,
         candidate_argument_checker sample_int "1000000" (sample_world ∅ [])
         = Raise (ArgumentTypeError msg) (sample_world ∅ []))
  /\ (exists msg,
         candidate_argument_checker sample_int "9999999" (sample_world ∅ [])
         = Raise (ArgumentTypeError msg) (sample_world ∅ []))
  /\ (exists msg,
         candidate_argument_checker sample_int "12a" (sample_world ∅ [])
         = Raise (ArgumentTypeError msg) (sample_world ∅ [])).
Proof.
  assert (H1 : sample_int "1200000" = Some 1200000%Z)
    by (vm_compute; reflexivity).
  split; [exact H1 |]. split; [| split; [| split]].
  - destruct (candidate_argument_checker_range sample_int "1200000"
                (sample_world ∅ [])) as (Hin & _).
    apply Hin. split; [reflexivity |]. split; [exact H1 | lia].
  - destruct (candidate_argument_checker_range sample_int "1000000"
                (sample_world ∅ [])) as (_ & _ & _ & Hbound).
    apply Hbound. left. vm_compute. reflexivity.
  - destruct (candidate_argument_checker_range sample_int "9999999"
                (sample_world ∅ [])) as (_ & _ & _ & Hbound).
    apply Hbound. right. vm_compute. reflexivity.
  - destruct (candidate_argument_checker_range sample_int "12a"
                (sample_world ∅ [])) as (_ & Hnone & _).
    apply Hnone. vm_compute. reflexivity.
Defined.


(** ** Instances of the further properties *)

Lemma process_api_get_other_exception_witness :
  let w := sample_world ∅ [ConnectTimeout "12:00" "timed out";
                           OtherError "too many redirects";
                           answer 200 [] "data"] in
  let pre := [ConnectTimeout "12:00" "timed out"] in
  net w = pre ++ OtherError "too many redirects" :: [answer 200 [] "data"]
  /\ Forall (retried [200%Z]) pre
  /\ exists w',
       process_api_get false "https://host/x" [] "/x" [200%Z] sample_session w
       = Raise (RequestException "too many redirects") w'
       /\ net w' = [answer 200 [] "data"]
       /\ length (sent w') = 2.
Proof.
  intros w pre.
  assert (H1 : net w = pre ++ OtherError "too many redirects"
                         :: [answer 200 [] "data"]) by reflexivity.
  assert (H2 : Forall (retried [200%Z]) pre).
  { apply (bool_decide_unpack _). vm_compute. exact I. }
  split; [exact H1 |]. split; [exact H2 |].
  destruct (process_api_get_other_exception false "https://host/x" [] "/x"
              [200%Z] sample_session w pre "too many redirects"
              [answer 200 [] "data"] H1 H2)
    as (w' & Hrun & Hnet & Hsent & _).
  exists w'. split; [exact Hrun |]. split; [exact Hnet |].
  rewrite Hsent. reflexivity.
Defined.

Lemma get_json_first_200_witness :
  let w := sample_world ∅ [answer 503 [] "busy"; answer 200 [] visits_text] in
  net w = [answer 503 [] "busy"] ++ answer 200 [] visits_text :: []
  /\ Forall (retried [200%Z]) [answer 503 [] "busy"]
  /\ exists w',
       get_json false sample_loads "/candidates/1200000" sample_session w
       = Ret visits_doc w'
       /\ net w' = []
       /\ length (sent w') = 2.
Proof.
  intros w.
  assert (H1 : net w = [answer 503 [] "busy"]
                       ++ answer 200 [] visits_text :: []) by reflexivity.
  assert (H2 : Forall (retried [200%Z]) [answer 503 [] "busy"]).
  { apply (bool_decide_unpack _). vm_compute. exact I. }
  split; [exact H1 |]. split; [exact H2 |].
  destruct (get_json_first_200 false sample_loads "/candidates/1200000"
              sample_session w [answer 503 [] "busy"]
              (Response 200 [] visits_text) [] H1 H2 eq_refl)
    as (w' & Hrun & Hnet & Hsent & _).
  exists w'. split; [exact Hrun |]. split; [exact Hnet |].
  rewrite Hsent. reflexivity.
Defined.

Lemma initialize_jwt_once_witness :
  let w := sample_world ∅ [answer 200 [] login_text;
                           answer 200 [] candidates_text] in
  exists w',
    initialize_jwt false sample_loads "user" "secret" hostname api_version w
    = Ret true w'
    /\ net w' = [answer 200 [] candidates_text]
    /\ sent w'
       = [Post (hostname +:+ api_version +:+ "/login")
               [("username", "user"); ("password", "secret")]].
Proof.
  intros w.
  set (w1 := match initialize_jwt false sample_loads "user" "secret"
                                  hostname api_version w
             with Ret _ w1 => w1 | _ => w end).
  assert (H1 : initialize_jwt false sample_loads "user" "secret" hostname
                              api_version w = Ret true w1)
    by (vm_compute; reflexivity).
  destruct (initialize_jwt_once false sample_loads "user" "secret" hostname
              api_version w true w1 H1)
    as (_ & Hsent & _).
  exists w1. split; [exact H1 |]. split.
  - vm_compute. reflexivity.
  - exact Hsent.
Defined.

Lemma main_script_login_refused_witness :
  let w := sample_world ∅ [answer 401 [] "denied"] in
  net w = answer 401 [] "denied" :: []
  /\ login_refused (answer 401 [] "denied")
  /\ exists w',
       main_script "/out/" "bids" false [] sample_loads sample_repr sample_int
                   "user" "wrong" w
       = Exit 3 w'
       /\ net w' = [] /\ files w' = ∅ /\ dirs w' = ∅.
Proof.
  intros w.
  assert (H1 : net w = answer 401 [] "denied" :: []) by reflexivity.
  assert (H2 : login_refused (answer 401 [] "denied")).
  { apply (bool_decide_unpack _). vm_compute. exact I. }
  split; [exact H1 |]. split; [exact H2 |].
  destruct (main_script_login_refused "/out/" "bids" false [] sample_loads
              sample_repr sample_int "user" "wrong" w
              (answer 401 [] "denied") [] H1 H2)
    as (w' & Hrun & _ & Hnet & Hfiles & Hdirs & _).
  exists w'. split; [exact Hrun |]. split; [exact Hnet |].
  split; [exact Hfiles | exact Hdirs].
Defined.


Lemma get_file_refreshes_stale_copy_witness :
  let w := sample_world cached_files
             [answer 200 [("ETag", "tag2")] "new bytes"] in
  files w !! etag_path "/out/" "img001" = Some "tag1"
  /\ net w = [] ++ answer 200 [("ETag", "tag2")] "new bytes" :: []
  /\ header_get [("ETag", "tag2")] "ETag" = Some "tag2"
  /\ exists w',
       get_file false "/candidates/1200000/V1/images/img001" "/out/" "img001"
                true sample_session w
       = Ret "New" w'
       /\ files w' !! "/out/img001" = Some "new bytes"
       /\ files w' !! "/out/.img001.etag" = Some "tag2".
Proof.
  intros w.
  assert (H1 : files w !! etag_path "/out/" "img001" = Some "tag1")
    by (vm_compute; reflexivity).
  assert (H2 : net w = [] ++ answer 200 [("ETag", "tag2")] "new bytes" :: [])
    by reflexivity.
  assert (H3 : header_get [("ETag", "tag2")] "ETag" = Some "tag2")
    by reflexivity.
  split; [exact H1 |]. split; [exact H2 |]. split; [exact H3 |].
  destruct (get_file_refreshes_stale_copy false
              "/candidates/1200000/V1/images/img001" "/out/" "img001"
              sample_session w "tag1" []
              (Response 200 [("ETag", "tag2")] "new bytes") [] "tag2"
              H1 H2 (Forall_nil_2 _) eq_refl H3)
    as (w' & Hrun & _ & _ & Hfiles & _).
  exists w'. split; [exact Hrun |]. rewrite Hfiles.
  split; vm_compute; reflexivity.
Defined.

Lemma get_file_twice_witness :
  let w := sample_world ∅ [answer 200 [("ETag", "tag1")] "bytes";
                           answer 304 [] ""] in
  files w !! etag_path "/out/" "img001" = None
  /\ net w = [] ++ answer 200 [("ETag", "tag1")] "bytes"
                :: [] ++ answer 304 [] "" :: []
  /\ exists w1 w2,
       get_file false "/candidates/1200000/V1/images/img001" "/out/" "img001"
                true sample_session w
       = Ret "New" w1
       /\ get_file false "/candidates/1200000/V1/images/img001" "/out/"
                   "img001" true sample_session w1
          = Ret "Current" w2
       /\ files w2 = files w1
       /\ net w2 = [].
Proof.
  intros w.
  assert (H1 : files w !! etag_path "/out/" "img001" = None) by reflexivity.
  assert (H2 : net w = [] ++ answer 200 [("ETag", "tag1")] "bytes"
                         :: [] ++ answer 304 [] "" :: []) by reflexivity.
  split; [exact H1 |]. split; [exact H2 |].
  destruct (get_file_twice false "/candidates/1200000/V1/images/img001"
              "/out/" "img001" sample_session w []
              (Response 200 [("ETag", "tag1")] "bytes") []
              (Response 304 [] "") [] "tag1" H1 H2 (Forall_nil_2 _) eq_refl
              eq_refl (Forall_nil_2 _) eq_refl)
    as (w1 & w2 & Hnew & Hcurrent & _ & _ & Hfiles & _ & Hnet).
  exists w1, w2. split; [exact Hnew |]. split; [exact Hcurrent |].
  split; [exact Hfiles | exact Hnet].
Defined.

Lemma login_token_authorizes_manifest_witness :
  let w := sample_world ∅ [answer 200 [] login_text;
                           answer 200 [] candidates_text] in
  exists w1 w2 n,
    initialize_jwt false sample_loads "user" "secret" hostname api_version w
    = Ret true w1
    /\ create_minc_candidates_list false sample_loads sample_repr w1
       = Ret (JArr [JObj [("CandID", JStr "1200000")]]) w2
    /\ sent w2
       = sent w
         ++ Post (hostname +:+ api_version +:+ "/login")
                 [("username", "user"); ("password", "secret")]
            :: replicate (S n)
                 (Get (hostname +:+ api_version +:+ "/candidates/")
                      [("Authorization",
                        "Bearer " +:+ py_str sample_repr (token w1))]).
Proof.
  intros w.
  set (w1 := match initialize_jwt false sample_loads "user" "secret"
                                  hostname api_version w
             with Ret _ w1 => w1 | _ => w end).
  set (w2 := match create_minc_candidates_list false sample_loads
                                               sample_repr w1
             with Ret _ w2 => w2 | _ => w end).
  assert (H1 : initialize_jwt false sample_loads "user" "secret" hostname
                              api_version w = Ret true w1)
    by (vm_compute; reflexivity).
  assert (H2 : create_minc_candidates_list false sample_loads sample_repr w1
               = Ret (JArr [JObj [("CandID", JStr "1200000")]]) w2)
    by (vm_compute; reflexivity).
  destruct (login_token_authorizes_manifest false sample_loads sample_repr
              "user" "secret" w w1
              (JArr [JObj [("CandID", JStr "1200000")]]) w2 H1 H2)
    as (r & login_document & n & _ & _ & _ & Hsent).
  exists w1, w2, n. split; [exact H1 |]. split; [exact H2 |]. exact Hsent.
Defined.


Lemma write_candidate_json_missing_property_witness :
  dict_get short_fields "CandID" = Some (JStr "1200000")
  /\ Forall (fun k' => is_Some (dict_get short_fields k')) ["CandID"; "PSCID"]
  /\ dict_get short_fields "Site" = None
  /\ exists w',
       write_candidate_json "/out/" sample_repr (JObj short_fields)
                            (sample_world ∅ [])
       = Raise (KeyError "Site") w'
       /\ files w' = {["/out//1200000/candidate.json" := ""]}.
Proof.
  assert (H1 : dict_get short_fields "CandID" = Some (JStr "1200000"))
    by reflexivity.
  assert (H2 : Forall (fun k' => is_Some (dict_get short_fields k'))
                 ["CandID"; "PSCID"]).
  { repeat constructor; vm_compute; eauto. }
  assert (H3 : dict_get short_fields "Site" = None) by reflexivity.
  split; [exact H1 |]. split; [exact H2 |]. split; [exact H3 |].
  eexists. split.
  - exact (write_candidate_json_missing_property "/out/" sample_repr
             short_fields (JStr "1200000") ["CandID"; "PSCID"] "Site"
             ["DoB"; "Gender"; "Language"; "Project"] (sample_world ∅ [])
             H1 eq_refl H2 H3).
  - vm_compute. reflexivity.
Defined.

Lemma dispatch_requested_only_witness :
  let w := sample_world current_tree [answer 304 [] ""; answer 304 [] ""] in
  let candidates := [sample_bids_candidate; other_bids_candidate] in
  let ids := fun c => default 0%Z (sample_int (CandID c)) in
  Forall (fun c => exists cid,
              ret (JStr (CandID c)) w = Ret cid w
              /\ int_of sample_int cid w = Ret (ids c) w) candidates
  /\ dispatch [1200000%Z] sample_int (fun c => ret (JStr (CandID c)))
              (process_bids_func "/out/" false sample_repr) candidates w
     = (candidates_list <- map_each (process_bids_func "/out/" false
                                       sample_repr)
                                    [sample_bids_candidate] ;;
        print (summary (length candidates_list) 1) ;;;
        exit 0) w.
Proof.
  intros w candidates ids.
  assert (H1 : Forall (fun c => exists cid,
                         ret (JStr (CandID c)) w = Ret cid w
                         /\ int_of sample_int cid w = Ret (ids c) w)
                 candidates).
  { repeat constructor; eexists; split; reflexivity. }
  split; [exact H1 |].
  apply (dispatch_requested_only [1200000%Z] sample_int
           (fun c => ret (JStr (CandID c)))
           (process_bids_func "/out/" false sample_repr) ids candidates w
           (fun _ => H1)).
  vm_compute. discriminate.
Defined.

Lemma get_file_unchecked_witness :
  let w := sample_world cached_files [answer 200 [("ETag", "tag9")] "qc"] in
  exists w',
    get_file false "/candidates/1200000/V1/images/img001/qc" "/out/"
             "img001" false sample_session w
    = Ret "New" w'
    /\ files w' = <["/out/img001" := "qc"]> cached_files
    /\ sent w'
       = [Get (hostname +:+ api_version
               +:+ "/candidates/1200000/V1/images/img001/qc")
              [("Authorization", "Bearer abc")]].
Proof.
  intros w.
  set (w1 := match get_file false "/candidates/1200000/V1/images/img001/qc"
                            "/out/" "img001" false sample_session w
             with Ret _ w1 => w1 | _ => w end).
  assert (H1 : get_file false "/candidates/1200000/V1/images/img001/qc"
                        "/out/" "img001" false sample_session w
               = Ret "New" w1) by (vm_compute; reflexivity).
  destruct (get_file_unchecked false
              "/candidates/1200000/V1/images/img001/qc" "/out/" "img001"
              sample_session w "New" w1 H1)
    as (_ & pre & r & Hnet & _ & _ & Hsent & Hfiles & _).
  exists w1. split; [exact H1 |].
  assert (Hpre : pre = [] /\ r = Response 200 [("ETag", "tag9")] "qc").
  { change (net w) with [answer 200 [("ETag", "tag9")] "qc"] in Hnet.
    change (net w1) with (@nil outcome) in Hnet.
    destruct pre as [| o pre].
    - injection Hnet as <-. done.
    - destruct pre; discriminate. }
  destruct Hpre as [-> ->].
  split; [exact Hfiles | exact Hsent].
Defined.

Lemma minc_make_visit_session_json_witness :
  let vs := [("V2", MincVisit (Some session_doc) (Some [JStr "img001"]))] in
  dict_get vs "V2" = Some (MincVisit (Some session_doc) (Some [JStr "img001"]))
  /\ exists w',
       minc_make_visit "/out/" sample_repr (JStr "1200000") vs "V2"
                       (sample_world ∅ [])
       = Ret tt w'
       /\ dirs w' = {["/out//1200000/V2"]}
       /\ files w' = {["/out//1200000/V2/session.json" := "{'Visit': 'V2'}"]}.
Proof.
  intros vs.
  assert (H1 : dict_get vs "V2"
               = Some (MincVisit (Some session_doc) (Some [JStr "img001"])))
    by reflexivity.
  split; [exact H1 |].
  destruct (minc_make_visit_session_json "/out/" sample_repr (JStr "1200000")
              vs "V2" (MincVisit (Some session_doc) (Some [JStr "img001"]))
              [("Meta", JObj [("Visit", JStr "V2")])] (sample_world ∅ [])
              H1 eq_refl)
    as (w1 & Hmade & _ & Hrun).
  eexists. split; [exact Hrun |].
  vm_compute in Hmade. injection Hmade as <-.
  split; vm_compute; reflexivity.
Defined.

Lemma process_bids_func_all_current_witness :
  let w := sample_world current_tree [answer 304 [] ""; answer 304 [] ""] in
  Forall (has_sidecar (files w)) (bids_downloads "/out/" sample_bids_candidate)
  /\ net w = [answer 304 [] ""; answer 304 [] ""] ++ []
  /\ Forall not_modified [answer 304 [] ""; answer 304 [] ""]
  /\ exists w',
       process_bids_func "/out/" false sample_repr sample_bids_candidate w
       = Ret sample_bids_candidate w'
       /\ files w' = current_tree
       /\ net w' = []
       /\ length (sent w') = 2.
Proof.
  intros w.
  assert (H1 : Forall (has_sidecar (files w))
                 (bids_downloads "/out/" sample_bids_candidate)).
  { repeat constructor; vm_compute; eauto. }
  assert (H2 : net w = [answer 304 [] ""; answer 304 [] ""] ++ [])
    by reflexivity.
  assert (H3 : Forall not_modified [answer 304 [] ""; answer 304 [] ""]).
  { repeat constructor. }
  split; [exact H1 |]. split; [exact H2 |]. split; [exact H3 |].
  destruct (process_bids_func_all_current "/out/" false sample_repr
              sample_bids_candidate w [answer 304 [] ""; answer 304 [] ""] []
              H1 H2 H3 eq_refl)
    as (w' & Hrun & Hfiles & Hnet & Hsent & _).
  exists w'. split; [exact Hrun |]. split; [exact Hfiles |].
  split; [exact Hnet | exact Hsent].
Defined.
